(** * Duplicate-message detection bot: a shallow embedding of [bot.py]

    The first part follows the source file and the libraries it calls:

    - [PyStr]    : Python [str] values (sequences of code points) and the
                   string methods the bot calls ([lower], [split], [join],
                   [strip], [len], [encode], [str(int)]);
    - [MD5]      : the digest behind [hashlib.md5(...).hexdigest()];
    - [Calendar] : the proleptic Gregorian calendar of [datetime] and of
                   SQLite's [datetime('now', ...)];
    - [TimeFmt]  : [strftime], [strptime] and SQLite's text timestamps;
    - [Store]    : the [messages] table and the three SQL statements;
    - [Telegram] : the update the handler receives;
    - [Bot]      : [generate_message_hash] and [handle_message], as
                   computations that read the clock, change the table,
                   record every outside call and may raise.

    The second part proves facts about each of these ([PyStrFacts],
    [CalendarFacts], [TimeFmtFacts], [StoreFacts], [HashFacts],
    [BotFacts]), and [Spec] states the properties C1 to C10 of the
    specification on [handle_message]. *)

From Stdlib Require Import ZArith NArith List Bool Lia Ascii String.
Import ListNotations.

Open Scope Z_scope.

(* ====================================================================== *)
(** * Python strings *)
(* ====================================================================== *)

Module PyStr.

(** A Python [str] is a sequence of Unicode code points. *)
Definition codepoint := N.
Definition str := list codepoint.

(** Literals of the source that are plain ASCII. *)
Definition lit (s : string) : str :=
  map N_of_ascii (list_ascii_of_string s).

Definition len (s : str) : Z := Z.of_nat (List.length s).

(** Truth value of a string: the empty string is falsy. *)
Definition truthy (s : str) : bool :=
  match s with [] => false | _ :: _ => true end.

Definition in_range (lo hi c : N) : bool := ((lo <=? c) && (c <=? hi))%N.

(** [str.isspace] on one code point (CPython's [Py_UNICODE_ISSPACE]);
    this is the set used by [split()], [strip()] and the regular
    expression class [\s]. *)
Definition isspace (c : codepoint) : bool :=
  in_range 0x09 0x0D c || in_range 0x1C 0x20 c
  || (c =? 0x85)%N || (c =? 0xA0)%N || (c =? 0x1680)%N
  || in_range 0x2000 0x200A c
  || (c =? 0x2028)%N || (c =? 0x2029)%N || (c =? 0x202F)%N
  || (c =? 0x205F)%N || (c =? 0x3000)%N.

Fixpoint lstrip (s : str) : str :=
  match s with
  | [] => []
  | c :: r => if isspace c then lstrip r else s
  end.

Definition rstrip (s : str) : str := rev (lstrip (rev s)).

(** [s.strip()] *)
Definition strip (s : str) : str := rstrip (lstrip s).

(** [s.split()]: the maximal runs of non-whitespace code points, in
    order; [word] accumulates the current run in reverse. *)
Fixpoint split_from (word : str) (s : str) : list str :=
  match s with
  | [] => match word with [] => [] | _ => [rev word] end
  | c :: r =>
      if isspace c then
        match word with
        | [] => split_from [] r
        | _ => rev word :: split_from [] r
        end
      else split_from (c :: word) r
  end.

Definition split (s : str) : list str := split_from [] s.

(** [sep.join(parts)] *)
Definition join (sep : str) (parts : list str) : str :=
  match parts with
  | [] => []
  | p :: ps => p ++ flat_map (fun q => sep ++ q) ps
  end.

Definition is_ascii (c : codepoint) : bool := (c <? 128)%N.

Definition ascii_lower (c : codepoint) : codepoint :=
  if in_range 65 90 c then (c + 32)%N else c.

(** Unicode scalar values: the code points that are not surrogates.
    Text that arrives from Telegram consists of scalar values. *)
Definition is_scalar (c : codepoint) : bool :=
  ((c <? 0xD800) || ((0xDFFF <? c) && (c <? 0x110000)))%N.

Definition scalar_text (s : str) : Prop := Forall (fun c => is_scalar c = true) s.

(** The Unicode character database is not part of the program.  The two
    places where the bot's behaviour depends on it outside the ASCII
    range are kept as parameters: full-string lowercasing (which is
    context dependent, e.g. for the Greek final sigma) and the value of
    a non-ASCII decimal digit.  Lowercasing text gives text. *)
Record UnicodeTables := {
  uni_lower : str -> str;
  uni_decimal : codepoint -> option Z;
  uni_lower_scalar : forall s, scalar_text s -> scalar_text (uni_lower s)
}.

(** A table that knows nothing beyond ASCII. *)
Definition ascii_tables : UnicodeTables.
Proof.
  refine {| uni_lower := map ascii_lower; uni_decimal := fun _ => None |}.
  unfold scalar_text. intros s. rewrite Forall_map. apply Forall_impl.
  intros c Hc. unfold ascii_lower, in_range.
  destruct ((65 <=? c)%N && (c <=? 90)%N) eqn:E; [|exact Hc].
  apply andb_true_iff in E as [_ E]. apply N.leb_le in E.
  unfold is_scalar. apply orb_true_iff. left. apply N.ltb_lt. lia.
Defined.

(** [s.lower()] *)
Definition lower (U : UnicodeTables) (s : str) : str :=
  if forallb is_ascii s then map ascii_lower s else uni_lower U s.

(** Value of a decimal digit, as [\d] and [int()] see it. *)
Definition digit_value (U : UnicodeTables) (c : codepoint) : option Z :=
  if in_range 48 57 c then Some (Z.of_N c - 48)
  else if is_ascii c then None
  else uni_decimal U c.

Definition digit_char (d : Z) : codepoint := (48 + Z.to_N d)%N.

(** Decimal digits of a non-negative number, most significant first.
    The fuel bounds the number of digits. *)
Fixpoint dec_digits (fuel : nat) (n : Z) (acc : str) : str :=
  match fuel with
  | O => acc
  | S f =>
      if n <? 10 then digit_char n :: acc
      else dec_digits f (n / 10) (digit_char (n mod 10) :: acc)
  end.

(** [str(n)] for an [int]. *)
Definition str_of_int (n : Z) : str :=
  if n <? 0 then 45%N :: dec_digits (S (Z.to_nat (Z.log2 (- n)))) (- n) []
  else dec_digits (S (Z.to_nat (Z.log2 n))) n [].

(** [s.encode()]: UTF-8; a lone surrogate raises [UnicodeEncodeError],
    rendered here as [None]. *)
Definition encode_cp (c : codepoint) : option (list N) :=
  (if c <? 0x80 then Some [c]
   else if c <? 0x800 then
     Some [0xC0 + c / 64; 0x80 + c mod 64]
   else if c <? 0x10000 then
     if in_range 0xD800 0xDFFF c then None
     else Some [0xE0 + c / 4096; 0x80 + (c / 64) mod 64; 0x80 + c mod 64]
   else if c <? 0x110000 then
     Some [0xF0 + c / 262144; 0x80 + (c / 4096) mod 64;
           0x80 + (c / 64) mod 64; 0x80 + c mod 64]
   else None)%N.

Fixpoint encode (s : str) : option (list N) :=
  match s with
  | [] => Some []
  | c :: r =>
      match encode_cp c, encode r with
      | Some b, Some bs => Some (b ++ bs)
      | _, _ => None
      end
  end.

(** Lexicographic comparison by code point.  This is the order of
    Python's [<] on [str] and of SQLite's BINARY collation on TEXT
    (UTF-8 preserves code point order). *)
Fixpoint compare (a b : str) : comparison :=
  match a, b with
  | [], [] => Eq
  | [], _ :: _ => Lt
  | _ :: _, [] => Gt
  | x :: a', y :: b' =>
      match (x ?= y)%N with
      | Eq => compare a' b'
      | c => c
      end
  end.

Definition ltb (a b : str) : bool :=
  match compare a b with Lt => true | _ => false end.

Definition gtb (a b : str) : bool :=
  match compare a b with Gt => true | _ => false end.

Fixpoint eqb (a b : str) : bool :=
  match a, b with
  | [], [] => true
  | x :: a', y :: b' => (x =? y)%N && eqb a' b'
  | _, _ => false
  end.

(** The digits of a hexadecimal digest. *)
Definition is_hex (c : codepoint) : bool :=
  in_range 48 57 c || in_range 97 102 c.

End PyStr.

(* ====================================================================== *)
(** * MD5 (RFC 1321), as computed by [hashlib.md5] *)
(* ====================================================================== *)

Module MD5.
Local Open Scope N_scope.

Definition word := N.
Definition wrap32 (x : N) : word := x mod 2 ^ 32.
Definition add32 (x y : word) : word := wrap32 (x + y).
Definition not32 (x : word) : word := N.lxor x 0xFFFFFFFF.
Definition rotl32 (x : word) (n : N) : word :=
  N.lor (wrap32 (N.shiftl x n)) (N.shiftr x (32 - n)).

Definition K : list word :=
  [ 0xd76aa478; 0xe8c7b756; 0x242070db; 0xc1bdceee;
    0xf57c0faf; 0x4787c62a; 0xa8304613; 0xfd469501;
    0x698098d8; 0x8b44f7af; 0xffff5bb1; 0x895cd7be;
    0x6b901122; 0xfd987193; 0xa679438e; 0x49b40821;
    0xf61e2562; 0xc040b340; 0x265e5a51; 0xe9b6c7aa;
    0xd62f105d; 0x02441453; 0xd8a1e681; 0xe7d3fbc8;
    0x21e1cde6; 0xc33707d6; 0xf4d50d87; 0x455a14ed;
    0xa9e3e905; 0xfcefa3f8; 0x676f02d9; 0x8d2a4c8a;
    0xfffa3942; 0x8771f681; 0x6d9d6122; 0xfde5380c;
    0xa4beea44; 0x4bdecfa9; 0xf6bb4b60; 0xbebfbc70;
    0x289b7ec6; 0xeaa127fa; 0xd4ef3085; 0x04881d05;
    0xd9d4d039; 0xe6db99e5; 0x1fa27cf8; 0xc4ac5665;
    0xf4292244; 0x432aff97; 0xab9423a7; 0xfc93a039;
    0x655b59c3; 0x8f0ccc92; 0xffeff47d; 0x85845dd1;
    0x6fa87e4f; 0xfe2ce6e0; 0xa3014314; 0x4e0811a1;
    0xf7537e82; 0xbd3af235; 0x2ad7d2bb; 0xeb86d391 ].

Definition S : list N :=
  [ 7; 12; 17; 22; 7; 12; 17; 22; 7; 12; 17; 22; 7; 12; 17; 22;
    5;  9; 14; 20; 5;  9; 14; 20; 5;  9; 14; 20; 5;  9; 14; 20;
    4; 11; 16; 23; 4; 11; 16; 23; 4; 11; 16; 23; 4; 11; 16; 23;
    6; 10; 15; 21; 6; 10; 15; 21; 6; 10; 15; 21; 6; 10; 15; 21 ].

Record state := mkState { sA : word; sB : word; sC : word; sD : word }.

Definition init : state :=
  mkState 0x67452301 0xefcdab89 0x98badcfe 0x10325476.

(** Little-endian 32-bit word from four bytes. *)
Definition word_of_bytes (bs : list N) : word :=
  match bs with
  | [b0; b1; b2; b3] => b0 + 256 * (b1 + 256 * (b2 + 256 * b3))
  | _ => 0
  end.

Fixpoint words_of_block (n : nat) (bs : list N) : list word :=
  match n with
  | O => []
  | Datatypes.S k => word_of_bytes (firstn 4 bs) :: words_of_block k (skipn 4 bs)
  end.

Definition round_fn (i : N) (b c d : word) : word :=
  if i <? 16 then N.lor (N.land b c) (N.land (not32 b) d)
  else if i <? 32 then N.lor (N.land d b) (N.land (not32 d) c)
  else if i <? 48 then N.lxor b (N.lxor c d)
  else N.lxor c (N.lor b (not32 d)).

Definition msg_index (i : N) : N :=
  if i <? 16 then i
  else if i <? 32 then (5 * i + 1) mod 16
  else if i <? 48 then (3 * i + 5) mod 16
  else (7 * i) mod 16.

Definition step (M : list word) (st : state) (i : N) : state :=
  let '(mkState a b c d) := st in
  let f := round_fn i b c d in
  let x := add32 (add32 (add32 a f) (nth (N.to_nat i) K 0))
                 (nth (N.to_nat (msg_index i)) M 0) in
  mkState d (add32 b (rotl32 x (nth (N.to_nat i) S 0))) b c.

Definition rounds : list N := map N.of_nat (seq 0 64).

Definition compress (st : state) (block : list N) : state :=
  let M := words_of_block 16 block in
  let st' := fold_left (step M) rounds st in
  mkState (add32 (sA st) (sA st')) (add32 (sB st) (sB st'))
          (add32 (sC st) (sC st')) (add32 (sD st) (sD st')).

Definition le_bytes (n : nat) (x : N) : list N :=
  map (fun k => (x / 256 ^ N.of_nat k) mod 256) (seq 0 n).

(** Padding: a [0x80] byte, zeros up to 56 modulo 64, then the bit
    length as a 64-bit little-endian number. *)
Definition pad (msg : list N) : list N :=
  let l := N.of_nat (List.length msg) in
  let zeros := N.to_nat ((119 - l mod 64) mod 64) in
  msg ++ [0x80] ++ repeat 0 zeros ++ le_bytes 8 ((8 * l) mod 2 ^ 64).

Fixpoint blocks (n : nat) (st : state) (bs : list N) : state :=
  match n with
  | O => st
  | Datatypes.S k => blocks k (compress st (firstn 64 bs)) (skipn 64 bs)
  end.

(** The 16 digest bytes. *)
Definition digest (msg : list N) : list N :=
  let p := pad msg in
  let st := blocks (List.length p / 64) init p in
  le_bytes 4 (sA st) ++ le_bytes 4 (sB st)
    ++ le_bytes 4 (sC st) ++ le_bytes 4 (sD st).

Definition hex_char (n : N) : N :=
  if n <? 10 then 48 + n else 87 + n.

Definition hex_byte (b : N) : list N := [hex_char (b / 16); hex_char (b mod 16)].

(** [hashlib.md5(msg).hexdigest()] *)
Definition hexdigest (msg : list N) : PyStr.str := flat_map hex_byte (digest msg).

End MD5.

(* ====================================================================== *)
(** * The calendar of [datetime] *)
(* ====================================================================== *)

Module Calendar.

(** A naive [datetime] value (no [tzinfo], whole seconds). *)
Record DateTime := mkDateTime {
  year : Z; month : Z; day : Z;
  hour : Z; minute : Z; second : Z
}.

Definition is_leap (y : Z) : bool :=
  (y mod 4 =? 0) && (negb (y mod 100 =? 0) || (y mod 400 =? 0)).

Definition DAYS_IN_MONTH : list Z :=
  [-1; 31; 28; 31; 30; 31; 30; 31; 31; 30; 31; 30; 31].

Definition DAYS_BEFORE_MONTH : list Z :=
  [-1; 0; 31; 59; 90; 120; 151; 181; 212; 243; 273; 304; 334].

Definition days_in_month (y m : Z) : Z :=
  if (m =? 2) && is_leap y then 29 else nth (Z.to_nat m) DAYS_IN_MONTH 0.

Definition DI400Y : Z := 146097.
Definition DI100Y : Z := 36524.
Definition DI4Y : Z := 1461.

(** Python's [divmod] (floor division and its remainder). *)
Definition divmod (a b : Z) : Z * Z := Z.div_eucl a b.

(** Proleptic Gregorian ordinal (day 1 is 0001-01-01) to year, month,
    day: [datetime]'s [_ord2ymd]. *)
Definition ord2ymd (n : Z) : Z * Z * Z :=
  let n := n - 1 in
  let '(n400, n) := divmod n DI400Y in
  let y := n400 * 400 + 1 in
  let '(n100, n) := divmod n DI100Y in
  let '(n4, n) := divmod n DI4Y in
  let '(n1, n) := divmod n 365 in
  let y := y + n100 * 100 + n4 * 4 + n1 in
  if (n1 =? 4) || (n100 =? 4) then (y - 1, 12, 31)
  else
    let leapyear := (n1 =? 3) && (negb (n4 =? 24) || (n100 =? 3)) in
    let m := Z.shiftr (n + 50) 5 in
    let preceding :=
      nth (Z.to_nat m) DAYS_BEFORE_MONTH 0
      + (if (2 <? m) && leapyear then 1 else 0) in
    if n <? preceding then
      let m := m - 1 in
      let preceding :=
        preceding - (nth (Z.to_nat m) DAYS_IN_MONTH 0
                     + (if (m =? 2) && leapyear then 1 else 0)) in
      (y, m, n - preceding + 1)
    else (y, m, n - preceding + 1).

(** Ordinal of 1970-01-01. *)
Definition EPOCH_ORDINAL : Z := 719163.

(** The civil date and time at [t] seconds after 1970-01-01 00:00:00
    on a clock that runs [t]: [datetime.utcfromtimestamp] on whole
    seconds.  SQLite obtains the same fields from its Julian day
    number. *)
Definition of_epoch (t : Z) : DateTime :=
  let '(y, m, d) := ord2ymd (t / 86400 + EPOCH_ORDINAL) in
  let s := t mod 86400 in
  mkDateTime y m d (s / 3600) ((s mod 3600) / 60) (s mod 60).

(** What the [datetime] constructor accepts. *)
Definition valid (dt : DateTime) : bool :=
  (1 <=? year dt) && (year dt <=? 9999)
  && (1 <=? month dt) && (month dt <=? 12)
  && (1 <=? day dt) && (day dt <=? days_in_month (year dt) (month dt))
  && (0 <=? hour dt) && (hour dt <=? 23)
  && (0 <=? minute dt) && (minute dt <=? 59)
  && (0 <=? second dt) && (second dt <=? 59).

(** Chronological order on the fields. *)
Definition lex (a b : comparison) : comparison :=
  match a with Eq => b | _ => a end.

Definition compare (a b : DateTime) : comparison :=
  lex (year a ?= year b)
 (lex (month a ?= month b)
 (lex (day a ?= day b)
 (lex (hour a ?= hour b)
 (lex (minute a ?= minute b) (second a ?= second b))))).

(** ** Notions used to reason about the calendar *)

(** A date as one number that grows with the date. *)
Definition ymd_key (d : Z * Z * Z) : Z :=
  let '(y, m, n) := d in y * 10000 + m * 100 + n.

(** What is checked for the day [r] of the cycle (day 0 is 0001-01-01):
    the year stays within the cycle and the date exists. *)
Definition cycle_day_ok (d : Z * Z * Z) : bool :=
  let '(y, m, n) := d in
  (1 <=? y) && (y <=? 400) && (1 <=? m) && (m <=? 12)
  && (1 <=? n) && (n <=? days_in_month y m).

(** [chain k lo len prev]: every one of the [len] days from [lo] on is
    fine and has a key above the key of the day before, [prev] being the
    key before [lo]; the result is the last key.  The range is halved [k]
    times at most. *)
Fixpoint chain (k : nat) (lo len prev : Z) : option Z :=
  if len <=? 0 then Some prev
  else
    match k with
    | O => None
    | S k' =>
        if len =? 1 then
          let d := ord2ymd (lo + 1) in
          let key := ymd_key d in
          if cycle_day_ok d && (prev <? key) then Some key else None
        else
          let h := len / 2 in
          match chain k' lo h prev with
          | Some p => chain k' (lo + h) (len - h) p
          | None => None
          end
    end.

(** A timestamp as one number that grows with it. *)
Definition stamp (dt : DateTime) : Z :=
  ((((year dt * 100 + month dt) * 100 + day dt) * 100 + hour dt) * 100
   + minute dt) * 100 + second dt.

(** Fields that fit in two digits. *)
Definition two_digit_fields (dt : DateTime) : Prop :=
  0 <= month dt < 100 /\ 0 <= day dt < 100 /\ 0 <= hour dt < 100
  /\ 0 <= minute dt < 100 /\ 0 <= second dt < 100.

End Calendar.

(* ====================================================================== *)
(** * Timestamps as text *)
(* ====================================================================== *)

Module TimeFmt.
Import PyStr Calendar.

(** A character of the source, as a code point. *)
Definition ch (a : ascii) : codepoint := N_of_ascii a.

Definition two_digits (n : Z) : str :=
  [digit_char (n / 10); digit_char (n mod 10)].

Definition four_digits (n : Z) : str :=
  [digit_char (n / 1000); digit_char ((n / 100) mod 10);
   digit_char ((n / 10) mod 10); digit_char (n mod 10)].

(** One [strftime] directive.  [%Y] is the year in decimal without
    padding (the C library's rendering); the other five directives are
    two digits wide. *)
Definition directive (dt : DateTime) (d : codepoint) : str :=
  if (d =? ch "Y")%N then str_of_int (year dt)
  else if (d =? ch "m")%N then two_digits (month dt)
  else if (d =? ch "d")%N then two_digits (day dt)
  else if (d =? ch "H")%N then two_digits (hour dt)
  else if (d =? ch "M")%N then two_digits (minute dt)
  else if (d =? ch "S")%N then two_digits (second dt)
  else [ch "%"; d].

(** [dt.strftime(fmt)] *)
Fixpoint strftime (dt : DateTime) (fmt : str) : str :=
  match fmt with
  | [] => []
  | c :: r =>
      if (c =? ch "%")%N then
        match r with
        | d :: r' => directive dt d ++ strftime dt r'
        | [] => [c]
        end
      else c :: strftime dt r
  end.

(** The two formats of the source. *)
Definition FMT_STORED : str := lit "%Y-%m-%d %H:%M:%S".
Definition FMT_SHOWN : str := lit "%Y/%m/%d %H:%M:%S".

(** ** SQLite: [datetime('now', '<k> days')] *)

(** SQLite renders with [%04d-%02d-%02d %02d:%02d:%02d] and yields NULL
    ([None]) when the result leaves the years 0000..9999. *)
Definition sqlite_render (dt : DateTime) : str :=
  four_digits (year dt) ++ [ch "-"] ++ two_digits (month dt) ++ [ch "-"]
    ++ two_digits (day dt) ++ [ch " "] ++ two_digits (hour dt) ++ [ch ":"]
    ++ two_digits (minute dt) ++ [ch ":"] ++ two_digits (second dt).

(** [now] is the system clock in whole seconds since the Unix epoch
    (UTC); [days] is the day modifier ([-1] for ['-1 day']). *)
Definition sqlite_datetime (now : Z) (days : Z) : option str :=
  let dt := of_epoch (now + 86400 * days) in
  if (0 <=? year dt) && (year dt <=? 9999) then Some (sqlite_render dt)
  else None.

(** ** The column [timestamp DATETIME]

    The declared type gives the column NUMERIC affinity: a text that is
    a well-formed integer or real literal (digits with an optional sign,
    decimal point and exponent, ASCII whitespace allowed around it) is
    stored as a number, any other text as text.  A row of the model
    holds the text that was given to the INSERT; [sql_numeric] tells
    whether the column holds it as a number.  NULL and BLOB values,
    which a text parameter never gives, are outside the model. *)
Definition sql_space (c : codepoint) : bool :=
  in_range 9 13 c || (c =? 32)%N.

Definition sql_digit (c : codepoint) : bool := in_range 48 57 c.

Fixpoint skip_while (p : codepoint -> bool) (s : str) : str :=
  match s with
  | c :: r => if p c then skip_while p r else s
  | [] => []
  end.

Definition skip_sign (s : str) : str :=
  match s with
  | c :: r => if (c =? 43)%N || (c =? 45)%N then r else s
  | [] => []
  end.

Definition starts_digit (s : str) : bool :=
  match s with c :: _ => sql_digit c | [] => false end.

(** Digits, with at most one decimal point among them and at least one
    digit in all; the result is the rest. *)
Definition mantissa (s : str) : option str :=
  match skip_while sql_digit s with
  | c :: r =>
      if (c =? 46)%N then
        if starts_digit s || starts_digit r
        then Some (skip_while sql_digit r) else None
      else if starts_digit s then Some (c :: r) else None
  | [] => if starts_digit s then Some [] else None
  end.

(** An optional exponent: [e] or [E], an optional sign, digits. *)
Definition exponent (s : str) : option str :=
  match s with
  | c :: r =>
      if (c =? 101)%N || (c =? 69)%N then
        if starts_digit (skip_sign r)
        then Some (skip_while sql_digit (skip_sign r)) else None
      else Some s
  | [] => Some []
  end.

Definition sql_numeric (s : str) : bool :=
  match mantissa (skip_sign (skip_while sql_space s)) with
  | Some r =>
      match exponent r with
      | Some r' =>
          match skip_while sql_space r' with [] => true | _ => false end
      | None => false
      end
  | None => false
  end.

(** SQL comparison of the column with a possibly NULL text value: a
    comparison with NULL is not true, a number is less than every text,
    and two texts compare code point by code point. *)
Definition sql_gt (a : str) (b : option str) : bool :=
  match b with
  | Some b => if sql_numeric a then false else gtb a b
  | None => false
  end.

Definition sql_lt (a : str) (b : option str) : bool :=
  match b with
  | Some b => if sql_numeric a then true else ltb a b
  | None => false
  end.

(** ** [datetime.now(pytz.timezone('Asia/Jakarta'))] *)

(** Asia/Jakarta is UTC+7 without daylight saving time (since 1964,
    which covers every clock value from the Unix epoch on). *)
Definition JAKARTA_UTCOFFSET : Z := 7 * 3600.

Definition jakarta_civil (now : Z) : DateTime :=
  of_epoch (now + JAKARTA_UTCOFFSET).

(** ** [datetime.strptime] *)

(** The regular expression [_strptime] builds for a directive is an
    ordered choice; a candidate is the value read and the unread rest,
    and candidates are listed in the order the backtracking matcher
    tries them. *)
Definition candidates := list (Z * str).

Definition cls := codepoint -> option Z.

(** [[lo-hi]] between two ASCII digits. *)
Definition range (lo hi : ascii) : cls :=
  fun c => if in_range (ch lo) (ch hi) c then Some (Z.of_N c - 48) else None.

(** [\d] *)
Definition any_digit (U : UnicodeTables) : cls := digit_value U.

Definition one (p : cls) (s : str) : candidates :=
  match s with
  | a :: r => match p a with Some x => [(x, r)] | None => [] end
  | [] => []
  end.

Definition two (p q : cls) (s : str) : candidates :=
  match s with
  | a :: b :: r =>
      match p a, q b with
      | Some x, Some y => [(10 * x + y, r)]
      | _, _ => []
      end
  | _ => []
  end.

(** A space followed by one digit: the last alternative of [%d]. *)
Definition space_one (q : cls) (s : str) : candidates :=
  match s with
  | a :: r => if (a =? ch " ")%N then one q r else []
  | [] => []
  end.

Section Directives.
Variable U : UnicodeTables.
Let d := any_digit U.

(** [(?P<Y>\d\d\d\d)] *)
Definition re_Y (s : str) : candidates :=
  match s with
  | a :: b :: c :: e :: r =>
      match d a, d b, d c, d e with
      | Some x, Some y, Some z, Some w =>
          [(1000 * x + 100 * y + 10 * z + w, r)]
      | _, _, _, _ => []
      end
  | _ => []
  end.

(** [(?P<m>1[0-2]|0[1-9]|[1-9])] *)
Definition re_m (s : str) : candidates :=
  two (range "1" "1") (range "0" "2") s
    ++ two (range "0" "0") (range "1" "9") s
    ++ one (range "1" "9") s.

(** [(?P<d>3[0-1]|[1-2]\d|0[1-9]|[1-9]| [1-9])] *)
Definition re_d (s : str) : candidates :=
  two (range "3" "3") (range "0" "1") s
    ++ two (range "1" "2") d s
    ++ two (range "0" "0") (range "1" "9") s
    ++ one (range "1" "9") s
    ++ space_one (range "1" "9") s.

(** [(?P<H>2[0-3]|[0-1]\d|\d)] *)
Definition re_H (s : str) : candidates :=
  two (range "2" "2") (range "0" "3") s
    ++ two (range "0" "1") d s
    ++ one d s.

(** [(?P<M>[0-5]\d|\d)] *)
Definition re_M (s : str) : candidates :=
  two (range "0" "5") d s ++ one d s.

(** [(?P<S>6[0-1]|[0-5]\d|\d)] *)
Definition re_S (s : str) : candidates :=
  two (range "6" "6") (range "0" "1") s
    ++ two (range "0" "5") d s
    ++ one d s.

(** [\s+], greedy: the rests after one or more whitespace characters,
    longest match first. *)
Fixpoint re_spaces (s : str) : list str :=
  match s with
  | c :: r => if isspace c then re_spaces r ++ [r] else []
  | [] => []
  end.

(** Fields found so far; [_strptime] starts from 1900-01-01 00:00:00. *)
Definition FIELDS0 : DateTime := mkDateTime 1900 1 1 0 0 0.

Definition set_field (c : codepoint) (v : Z) (f : DateTime) : DateTime :=
  if (c =? ch "Y")%N then mkDateTime v (month f) (day f) (hour f) (minute f) (second f)
  else if (c =? ch "m")%N then mkDateTime (year f) v (day f) (hour f) (minute f) (second f)
  else if (c =? ch "d")%N then mkDateTime (year f) (month f) v (hour f) (minute f) (second f)
  else if (c =? ch "H")%N then mkDateTime (year f) (month f) (day f) v (minute f) (second f)
  else if (c =? ch "M")%N then mkDateTime (year f) (month f) (day f) (hour f) v (second f)
  else mkDateTime (year f) (month f) (day f) (hour f) (minute f) v.

Definition re_directive (c : codepoint) : option (str -> candidates) :=
  if (c =? ch "Y")%N then Some re_Y
  else if (c =? ch "m")%N then Some re_m
  else if (c =? ch "d")%N then Some re_d
  else if (c =? ch "H")%N then Some re_H
  else if (c =? ch "M")%N then Some re_M
  else if (c =? ch "S")%N then Some re_S
  else None.

(** All the ways the pattern of [fmt] matches a prefix of [s], in the
    matcher's order, each with the fields read and the unread rest.
    A run of whitespace in the format stands for [\s+]; [in_ws] tells
    that the previous format character belonged to such a run. *)
Fixpoint matches (fmt : str) (in_ws : bool) (f : DateTime) (s : str)
  : list (DateTime * str) :=
  match fmt with
  | [] => [(f, s)]
  | c :: r =>
      if (c =? ch "%")%N then
        match r with
        | e :: r' =>
            match re_directive e with
            | Some re =>
                flat_map (fun '(v, rest) => matches r' false (set_field e v f) rest)
                         (re s)
            | None => []
            end
        | [] => []
        end
      else if isspace c then
        if in_ws then matches r true f s
        else flat_map (matches r true f) (re_spaces s)
      else
        match s with
        | x :: rest => if (x =? c)%N then matches r false f rest else []
        | [] => []
        end
  end.

(** [datetime.strptime(s, fmt)]: the first match must consume the whole
    string and the fields must form a date; [None] is [ValueError]. *)
Definition strptime (s fmt : str) : option DateTime :=
  match matches fmt false FIELDS0 s with
  | (f, []) :: _ => if valid f then Some f else None
  | _ => None
  end.

End Directives.

(** What changes between the two formats: [-] becomes [/]. *)
Definition dash_to_slash (s : str) : str :=
  map (fun c => if (c =? ch "-")%N then ch "/" else c) s.

(** A list whose first element is [x]. *)
Definition starts_with {A} (x : A) (l : list A) : Prop := exists t, l = x :: t.

End TimeFmt.

(* ====================================================================== *)
(** * The [messages] table *)
(* ====================================================================== *)

Module Store.
Import PyStr TimeFmt.

(** One row of [messages], with the columns of [setup_database]. *)
Record Row := mkRow {
  id : Z;
  chat_id : Z;
  message_hash : str;
  message_text : str;
  user_id : Z;
  timestamp : str;
  user_name : str
}.

(** The table in storage order, and the AUTOINCREMENT counter. *)
Record Db := mkDb { rows : list Row; sequence : Z }.

(** The table right after [CREATE TABLE]. *)
Definition empty : Db := mkDb [] 0.

(** [chat_id = ? AND message_hash = ?] *)
Definition same_key (chat : Z) (hash : str) (r : Row) : bool :=
  (chat_id r =? chat) && eqb (message_hash r) hash.

(** [timestamp > datetime('now', '-1 day')] *)
Definition is_live (now : Z) (r : Row) : bool :=
  sql_gt (timestamp r) (sqlite_datetime now (-1)).

(** [timestamp < datetime("now", "-7 days")] *)
Definition is_expired (now : Z) (r : Row) : bool :=
  sql_lt (timestamp r) (sqlite_datetime now (-7)).

(** The SELECT of [handle_message] followed by [fetchone()]. *)
Definition select_live (now chat : Z) (hash : str) (db : Db)
  : option (Z * str * str * str) :=
  option_map (fun r => (user_id r, message_text r, timestamp r, user_name r))
    (find (fun r => same_key chat hash r && is_live now r) (rows db)).

Definition max_id (l : list Row) : Z :=
  fold_right (fun r m => Z.max (id r) m) 0 l.

(** [INSERT OR REPLACE INTO messages (chat_id, message_hash, message_text,
    user_id, timestamp, user_name) VALUES (?, ?, ?, ?, ?, ?)]: the rows
    that conflict with the new one on [UNIQUE(chat_id, message_hash)] are
    deleted, then the new row is stored under a fresh [id] (which, being
    fresh, conflicts with no primary key). *)
Definition insert_or_replace
  (chat : Z) (hash text : str) (user : Z) (ts name : str) (db : Db) : Db :=
  let new_id := Z.max (max_id (rows db)) (sequence db) + 1 in
  mkDb (filter (fun r => negb (same_key chat hash r)) (rows db)
          ++ [mkRow new_id chat hash text user ts name])
       new_id.

(** The DELETE of [handle_message]. *)
Definition delete_old (now : Z) (db : Db) : Db :=
  mkDb (filter (fun r => negb (is_expired now r)) (rows db)) (sequence db).

(** A sequence of INSERT OR REPLACE statements for one key. *)
Definition upsert_all (chat : Z) (hash : str)
           (values : list (str * Z * str * str)) (d : Db) : Db :=
  fold_left (fun d '(text, user, ts, name) =>
               insert_or_replace chat hash text user ts name d)
            values d.

(** [UNIQUE(chat_id, message_hash)] *)
Definition key_count (chat : Z) (hash : str) (db : Db) : nat :=
  List.length (filter (same_key chat hash) (rows db)).

Definition unique_keys (db : Db) : Prop :=
  forall chat hash, (key_count chat hash db <= 1)%nat.

End Store.

(* ====================================================================== *)
(** * What the handler receives from Telegram *)
(* ====================================================================== *)

Module Telegram.
Import PyStr.

Record User := mkUser { id : Z; first_name : str }.

(** [update.message] is set for messages of private chats and groups,
    for which Telegram always names a sender (channel posts arrive in
    another field of the update and leave [message] empty); the text is
    absent for messages of other kinds. *)
Record Message := mkMessage {
  chat_id : Z;
  from_user : User;
  text : option str
}.

Record Update := mkUpdate { message : option Message }.

End Telegram.

(* ====================================================================== *)
(** * [ProductionDuplicateBot] *)
(* ====================================================================== *)

Module Bot.
Import PyStr Calendar TimeFmt.

(** The exceptions raised inside [handle_message].  All but the last
    are subclasses of [Exception]; [asyncio.CancelledError] derives from
    [BaseException] (Python 3.8 and later). *)
Inductive Exn :=
| UnicodeEncodeError   (* [str.encode] on a lone surrogate *)
| ValueError           (* [strptime] on text that is no timestamp *)
| OverflowError        (* [datetime] before year 1 *)
| OperationalError     (* [sqlite3]: a statement or commit failed *)
| TelegramError        (* [reply_text] failed *)
| CancelledError.      (* the task is cancelled while it awaits *)

(** [isinstance(e, Exception)] *)
Definition is_exception (e : Exn) : bool :=
  match e with CancelledError => false | _ => true end.

(** The calls that leave the process. *)
Inductive Op :=
| OpCursor | OpSelect | OpInsert | OpCommitInsert
| OpReply | OpDelete | OpCommitDelete.

Definition exn_of (op : Op) : Exn :=
  match op with OpReply => TelegramError | _ => OperationalError end.

(** What one run of the handler does to the outside, in order. *)
Inductive Event :=
| EvCursor
| EvSelect (chat : Z) (hash : str)
| EvInsert (chat : Z) (hash : str)
| EvDelete
| EvCommit
| EvReply (chat : Z) (body : str)
| EvLogInfo (chat : Z)
| EvLogError (e : Exn).

(** The surroundings of one run: the system clock (whole seconds since
    the Unix epoch, read as one instant for the run), which outside
    calls fail, and whether the task that runs the handler is cancelled
    while the handler waits at its [await]. *)
Record Env := mkEnv { clock : Z; fails : Op -> bool; cancelled : bool }.

Record World := mkWorld { db : Store.Db; trace : list Event }.

Inductive Result (A : Type) :=
| Ok (a : A)
| Raise (e : Exn).
Arguments Ok {A} a.
Arguments Raise {A} e.

(** Computations that read the surroundings, change the world and may
    raise. *)
Definition M (A : Type) : Type := Env -> World -> Result A * World.

Definition ret {A} (a : A) : M A := fun _ w => (Ok a, w).

Definition bind {A B} (m : M A) (k : A -> M B) : M B :=
  fun env w =>
    match m env w with
    | (Ok a, w') => k a env w'
    | (Raise e, w') => (Raise e, w')
    end.

Definition raise {A} (e : Exn) : M A := fun _ w => (Raise e, w).

Notation "x <- m ;; k" := (bind m (fun x => k))
  (at level 61, m at next level, right associativity).
Notation "m ;; k" := (bind m (fun _ => k))
  (at level 61, right associativity).

(** [try: body  except Exception as e: handler(e)]: what is no
    [Exception] passes through. *)
Definition try_except {A} (body : M A) (handler : Exn -> M A) : M A :=
  fun env w =>
    match body env w with
    | (Ok a, w') => (Ok a, w')
    | (Raise e, w') =>
        if is_exception e then handler e env w' else (Raise e, w')
    end.

Definition emit (ev : Event) : M unit :=
  fun _ w => (Ok tt, mkWorld (db w) (trace w ++ [ev])).

(** An outside call: it raises when the surroundings make it fail, and
    otherwise returns the value [f] reads and leaves the world [g] gives. *)
Definition call {A} (op : Op) (f : Env -> World -> A) (g : Env -> World -> World) : M A :=
  fun env w =>
    if fails env op then (Raise (exn_of op), w)
    else (Ok (f env w), g env w).

Definition lift {A} (e : Exn) (o : option A) : M A :=
  match o with Some a => ret a | None => raise e end.

Definition log (ev : Event) (w : World) : World :=
  mkWorld (db w) (trace w ++ [ev]).

Definition on_db (f : Store.Db -> Store.Db) (w : World) : World :=
  mkWorld (f (db w)) (trace w).

(** The range of the clock in which the model follows the program.  A
    system clock does not run before the Unix epoch.  CPython keeps the
    clock as a signed 64-bit count of nanoseconds, which ends 9223372036
    seconds after the epoch (2262-04-11 23:47:16 UTC): a later clock
    reads as that instant, so [datetime.now()] stands still from then
    on.  The records [logger] writes are taken to be written: within
    this range the [logging] module has no timestamp to overflow, and
    its handlers keep the errors of their own output to themselves. *)
Definition CLOCK_MIN : Z := 0.
Definition CLOCK_MAX : Z := 9223372036.

Definition clock_ok (now : Z) : Prop := CLOCK_MIN <= now <= CLOCK_MAX.

(** The system clock as the interpreter reads it. *)
Definition py_clock (now : Z) : Z := Z.min now CLOCK_MAX.

Section Handler.
Variable U : UnicodeTables.

(** [generate_message_hash] *)
Definition normalize (text : str) : str :=
  join (lit " ") (split (lower U text)).

Definition generate_message_hash (text : str) : option str :=
  let normalized_text := normalize text in
  option_map MD5.hexdigest (encode normalized_text).

(** [self.conn.cursor()] *)
Definition cursor : M unit :=
  call OpCursor (fun _ _ => tt) (fun _ => log EvCursor).

(** The SELECT and [fetchone()]. *)
Definition execute_select (chat : Z) (hash : str)
  : M (option (Z * str * str * str)) :=
  call OpSelect
    (fun env w => Store.select_live (clock env) chat hash (db w))
    (fun _ => log (EvSelect chat hash)).

(** The INSERT OR REPLACE. *)
Definition execute_insert
  (chat : Z) (hash text : str) (user : Z) (ts name : str) : M unit :=
  call OpInsert (fun _ _ => tt)
    (fun _ w => log (EvInsert chat hash)
                  (on_db (Store.insert_or_replace chat hash text user ts name) w)).

(** The DELETE. *)
Definition execute_delete : M unit :=
  call OpDelete (fun _ _ => tt)
    (fun env w => log EvDelete (on_db (Store.delete_old (clock env)) w)).

(** [self.conn.commit()] *)
Definition commit (op : Op) : M unit :=
  call op (fun _ _ => tt) (fun _ => log EvCommit).

(** [await message.reply_text(...)], the only [await] of the handler:
    when the task is cancelled while it waits there, [CancelledError] is
    raised at this point.  An [EvReply] records that the call returned;
    whether a cancelled request had reached Telegram is not recorded. *)
Definition reply_text (chat : Z) (body : str) : M unit :=
  fun env w =>
    if cancelled env then (Raise CancelledError, w)
    else call OpReply (fun _ _ => tt) (fun _ => log (EvReply chat body)) env w.

(** [datetime.now(tz_jakarta)].  The interpreter reads the system clock
    through [py_clock]. *)
Definition now_jakarta : M DateTime :=
  fun env w =>
    let dt := jakarta_civil (py_clock (clock env)) in
    if valid dt then (Ok dt, w) else (Raise OverflowError, w).

Definition CROSS : str := [0x274C%N].
Definition NL : str := [10%N].

(** The text of the duplicate notice. *)
Definition response_message
  (original_text original_user_name original_time_str
   user_name current_time_str : str) : str :=
  CROSS ++ lit "Nomor sudah pernah bergabung" ++ CROSS ++ NL
    ++ lit "Nomor yang terdeteksi: " ++ original_text ++ NL
    ++ original_user_name ++ lit " : " ++ original_time_str
    ++ lit " (pertama kali)" ++ NL
    ++ user_name ++ lit " : " ++ current_time_str ++ lit " (kali ini)".

(** The body of the [try] block of [handle_message]. *)
Definition handle_message_body (update : Telegram.Update) : M unit :=
  match Telegram.message update with
  | None => ret tt
  | Some message =>
  match Telegram.text message with
  | None => ret tt
  | Some message_text =>
  if negb (truthy message_text) then ret tt else
  let chat_id := Telegram.chat_id message in
  let user_id := Telegram.id (Telegram.from_user message) in
  let first_name := Telegram.first_name (Telegram.from_user message) in
  let user_name := if truthy first_name then first_name else str_of_int user_id in
  if len (strip message_text) <? 5 then ret tt else
  message_hash <- lift UnicodeEncodeError (generate_message_hash message_text) ;;
  cursor ;;
  existing_message <- execute_select chat_id message_hash ;;
  match existing_message with
  | Some (original_user_id, original_text, original_time, original_user_name) =>
      original_time_dt <- lift ValueError (strptime U original_time FMT_STORED) ;;
      let original_time_str := strftime original_time_dt FMT_SHOWN in
      now <- now_jakarta ;;
      let current_time_str := strftime now FMT_SHOWN in
      reply_text chat_id
        (response_message original_text original_user_name original_time_str
           user_name current_time_str) ;;
      emit (EvLogInfo chat_id)
  | None =>
      now <- now_jakarta ;;
      let current_time := strftime now FMT_STORED in
      execute_insert chat_id message_hash message_text user_id current_time user_name ;;
      commit OpCommitInsert
  end ;;
  execute_delete ;;
  commit OpCommitDelete
  end end.

(** [handle_message]: the body under [try], with
    [except Exception as e: logger.error(...)].  An exception that is no
    [Exception] leaves the handler.  The two [logger] calls are taken to
    return (see [CLOCK_MAX]). *)
Definition handle_message (update : Telegram.Update) : M unit :=
  try_except (handle_message_body update) (fun e => emit (EvLogError e)).

End Handler.

(** Surroundings in which no outside call fails and the task is not
    cancelled. *)
Definition calm (now : Z) : Env := mkEnv now (fun _ => false) false.


(** An update that carries a text message. *)
Definition text_update (chat user : Z) (name text : str) : Telegram.Update :=
  Telegram.mkUpdate
    (Some (Telegram.mkMessage chat (Telegram.mkUser user name) (Some text))).

(** The name the notice shows for a sender. *)
Definition display_name (user : Z) (name : str) : str :=
  if truthy name then name else str_of_int user.

(** The filter lets a text through. *)
Definition passes_filter (text : str) : Prop :=
  truthy text = true /\ 5 <= len (strip text).

(** ** A sample conversation

    Ann posts "Hello World" in chat -100 on 2026-11-03 at 17:32:20 UTC,
    which is 2026-11-04 00:32:20 in Jakarta; the table was empty. *)
Definition T0 : Z := 1793727140.

Definition world_after_ann : World :=
  snd (handle_message ascii_tables
         (text_update (-100) 7 (lit "Ann") (lit "Hello World"))
         (calm T0) (mkWorld Store.empty [])).

Definition HELLO_HASH : str := lit "5eb63bbbe01eeed093cb22bb8f5acdc3".

Definition ann_record : Z * str * str * str :=
  (7, lit "Hello World", lit "2026-11-04 00:32:20", lit "Ann").

Definition ann_row : Store.Row :=
  Store.mkRow 1 (-100) HELLO_HASH (lit "Hello World") 7
        (lit "2026-11-04 00:32:20") (lit "Ann").


End Bot.

(* ====================================================================== *)
(** * Starting the bot: [__init__], [setup_database], [run_webhook], main *)
(* ====================================================================== *)

Module Startup.
Import PyStr.

(** ** [os.environ] and the [.env] file *)

(** The variables of the process, and the variables a parsed [.env] file
    gives (none when the file is missing). *)
Definition Environ := str -> option str.

(** [load_dotenv(env_path)]: a variable of the file is set unless the
    process already has it. *)
Definition load_dotenv (file env : Environ) : Environ :=
  fun key => match env key with Some v => Some v | None => file key end.

(** ** [int(s)] for a string, base 10 *)

(** Whitespace as the integer parser sees it. *)
Definition int_space (c : codepoint) : bool :=
  in_range 9 13 c || (c =? 32)%N.

(** Before parsing, a non-ASCII whitespace character becomes a space and
    a non-ASCII decimal digit its ASCII digit; any other non-ASCII
    character makes the string invalid. *)
Definition to_ascii (U : UnicodeTables) (c : codepoint) : option codepoint :=
  if is_ascii c then Some c
  else if isspace c then Some 32%N
  else option_map digit_char (uni_decimal U c).

Fixpoint to_ascii_all (U : UnicodeTables) (s : str) : option str :=
  match s with
  | [] => Some []
  | c :: r =>
      match to_ascii U c, to_ascii_all U r with
      | Some a, Some r' => Some (a :: r')
      | _, _ => None
      end
  end.

Fixpoint skip_space (s : str) : str :=
  match s with
  | c :: r => if int_space c then skip_space r else s
  | [] => []
  end.

Definition ascii_digit (c : codepoint) : option Z :=
  if in_range 48 57 c then Some (Z.of_N c - 48) else None.

(** Digits, with single underscores allowed between them; [need] tells
    that a digit must come next.  The result is the value, the number of
    digits read and the rest. *)
Fixpoint int_digits (acc count : Z) (need : bool) (s : str)
  : option (Z * Z * str) :=
  match s with
  | [] => if need then None else Some (acc, count, [])
  | c :: r =>
      match ascii_digit c with
      | Some d => int_digits (10 * acc + d) (count + 1) false r
      | None =>
          if need then None
          else if (c =? 95)%N then int_digits acc count true r
          else Some (acc, count, s)
      end
  end.

Definition int_signed (s : str) : option (Z * Z * str) :=
  match s with
  | c :: r =>
      if (c =? 43)%N then int_digits 0 0 true r
      else if (c =? 45)%N then
        match int_digits 0 0 true r with
        | Some (n, count, rest) => Some (- n, count, rest)
        | None => None
        end
      else int_digits 0 0 true s
  | [] => None
  end.

(** [int(s)]; [None] is [ValueError].  [max_str_digits] is the
    interpreter's limit on the digits of a decimal string
    ([sys.get_int_max_str_digits()], 4300 unless changed); 0 is no limit,
    as in interpreters that have none. *)
Definition int_of_str (U : UnicodeTables) (max_str_digits : Z) (s : str)
  : option Z :=
  match to_ascii_all U s with
  | Some a =>
      match int_signed (skip_space a) with
      | Some (n, count, rest) =>
          match skip_space rest with
          | [] =>
              if (0 <? max_str_digits) && (max_str_digits <? count)
              then None else Some n
          | _ => None
          end
      | None => None
      end
  | None => None
  end.

(** ** The database file *)

(** A row of [messages] as [CREATE TABLE] declares it, without the
    column [user_name]. *)
Record Row6 := mkRow6 {
  id6 : Z;
  chat_id6 : Z;
  message_hash6 : str;
  message_text6 : str;
  user_id6 : Z;
  timestamp6 : str
}.

(** What a database file holds, as far as this program writes it: no
    table [messages], the table with its six declared columns, or the
    table with [user_name] added.  A table [messages] of another shape is
    outside the model. *)
Inductive DbFile :=
| NoTable
| Columns6 (rows6 : list Row6) (sequence6 : Z)
| Columns7 (d : Store.Db).

(** [ALTER TABLE messages ADD COLUMN user_name TEXT DEFAULT "Unknown"] on
    a row written before: the new column reads as the default. *)
Definition add_user_name (r : Row6) : Store.Row :=
  Store.mkRow (id6 r) (chat_id6 r) (message_hash6 r) (message_text6 r)
              (user_id6 r) (timestamp6 r) (lit "Unknown").

(** ** The process *)

Inductive Exn :=
| ValueError
| OperationalError
| OtherError.       (* any other subclass of [Exception] *)

(** The calls that leave the process. *)
Inductive Op :=
| OpConnect | OpCreate | OpAlter | OpCommit
| OpBuild | OpPolling | OpWebhook.

Inductive Event :=
| EvConnect (path : str)
| EvCreateTable
| EvAlterTable
| EvCommit
| EvBuild (token : str)
| EvHandlers
| EvLogInfo
| EvLogWarning
| EvLogError (e : Exn)
| EvRunPolling
| EvRunWebhook (port : Z) (url_path webhook_url : str)
| EvExit (code : Z).

(** What surrounds the start: the variables of the process, the [.env]
    file, the interpreter's digit limit, and which outside call fails
    with what. *)
Record Host := mkHost {
  environ : Environ;
  dotenv : Environ;
  max_str_digits : Z;
  fault : Op -> option Exn
}.

(** What the start changes: the variables, the files on disk by path,
    and the record of what was done. *)
Record State := mkState {
  vars : Environ;
  disk : str -> DbFile;
  events : list Event
}.

Inductive Result (A : Type) :=
| Ok (a : A)
| Raise (e : Exn).
Arguments Ok {A} a.
Arguments Raise {A} e.

Definition S (A : Type) : Type := Host -> State -> Result A * State.

Definition ret {A} (a : A) : S A := fun _ st => (Ok a, st).

Definition bind {A B} (m : S A) (k : A -> S B) : S B :=
  fun h st =>
    match m h st with
    | (Ok a, st') => k a h st'
    | (Raise e, st') => (Raise e, st')
    end.

Definition raise {A} (e : Exn) : S A := fun _ st => (Raise e, st).

Notation "x <- m ;; k" := (bind m (fun x => k))
  (at level 61, m at next level, right associativity).
Notation "m ;; k" := (bind m (fun _ => k))
  (at level 61, right associativity).

Definition emit (ev : Event) : S unit :=
  fun _ st => (Ok tt, mkState (vars st) (disk st) (events st ++ [ev])).

(** An outside call that only leaves a record when it succeeds. *)
Definition call (op : Op) (ev : Event) : S unit :=
  fun h st =>
    match fault h op with
    | Some e => (Raise e, st)
    | None => (Ok tt, mkState (vars st) (disk st) (events st ++ [ev]))
    end.

(** [os.getenv(key)] and [os.getenv(key, default)] *)
Definition getenv (key : str) : S (option str) :=
  fun _ st => (Ok (vars st key), st).

Definition set_disk (path : str) (f : DbFile) (st : State) : State :=
  mkState (vars st)
          (fun p => if eqb p path then f else disk st p)
          (events st).

(** The names [sqlite3.connect] does not take as a file to keep: they
    give a private database that starts empty at every connection. *)
Definition transient (path : str) : bool :=
  eqb path [] || eqb path (lit ":memory:").

Definition connect (path : str) : S unit :=
  fun h st =>
    match fault h OpConnect with
    | Some e => (Raise e, st)
    | None =>
        let st' := if transient path then set_disk path NoTable st else st in
        (Ok tt, mkState (vars st') (disk st') (events st' ++ [EvConnect path]))
    end.

Definition truthy_opt (o : option str) : bool :=
  match o with Some s => truthy s | None => false end.

Section Program.
Variable U : UnicodeTables.

(** The three statements of [setup_database] on the file at [path]. *)
Definition create_table (path : str) : S unit :=
  fun h st =>
    match fault h OpCreate with
    | Some e => (Raise e, st)
    | None =>
        let st' := match disk st path with
                   | NoTable => set_disk path (Columns6 [] 0) st
                   | _ => st
                   end in
        (Ok tt, mkState (vars st') (disk st') (events st' ++ [EvCreateTable]))
    end.

Definition alter_table (path : str) : S unit :=
  fun h st =>
    match fault h OpAlter with
    | Some e => (Raise e, st)
    | None =>
        match disk st path with
        | Columns6 rows seq =>
            let st' := set_disk path
                         (Columns7 (Store.mkDb (map add_user_name rows) seq)) st in
            (Ok tt, mkState (vars st') (disk st') (events st' ++ [EvAlterTable]))
        | _ => (Raise OperationalError, st)
        end
    end.

(** [try: ... except sqlite3.OperationalError: pass] *)
Definition ignoring_operational_error (m : S unit) : S unit :=
  fun h st =>
    match m h st with
    | (Raise OperationalError, st') => (Ok tt, st')
    | r => r
    end.

(** [setup_database]; the result is the path of the database. *)
Definition setup_database : S str :=
  v <- getenv (lit "DB_PATH") ;;
  let db_path := match v with Some p => p | None => lit "messages.db" end in
  connect db_path ;;
  create_table db_path ;;
  ignoring_operational_error (alter_table db_path) ;;
  call OpCommit EvCommit ;;
  emit EvLogInfo ;;
  ret db_path.

(** [__init__]; the result is the token.  The three registrations
    ([setup_handlers], [setup_error_handler], [setup_signal_handlers])
    read and change nothing that is modelled; they leave one event. *)
Definition init : S str :=
  (fun h st =>
     (Ok tt, mkState (load_dotenv (dotenv h) (vars st)) (disk st) (events st))) ;;
  token <- getenv (lit "BOT_TOKEN") ;;
  if negb (truthy_opt token) then raise ValueError else
  let token := match token with Some t => t | None => [] end in
  call OpBuild (EvBuild token) ;;
  setup_database ;;
  emit EvHandlers ;;
  emit EvLogInfo ;;
  ret token.

(** [run_polling] *)
Definition run_polling : S unit :=
  emit EvLogInfo ;;
  call OpPolling EvRunPolling.

(** [run_webhook] *)
Definition run_webhook (token : str) : S unit :=
  webhook_url <- getenv (lit "WEBHOOK_URL") ;;
  p <- getenv (lit "PORT") ;;
  port <- match p with
          | None => ret 8080
          | Some text =>
              fun h =>
                match int_of_str U (max_str_digits h) text with
                | Some n => ret n h
                | None => raise ValueError h
                end
          end ;;
  if negb (truthy_opt webhook_url) then
    emit EvLogWarning ;;
    run_polling
  else
    let url := match webhook_url with Some u => u | None => [] end in
    emit EvLogInfo ;;
    call OpWebhook (EvRunWebhook port token (url ++ lit "/" ++ token)).

(** The block under [if __name__ == "__main__"]: whatever [Exception]
    the start raises is logged and the process exits with status 1. *)
Definition main : S unit :=
  fun h st =>
    match (token <- init ;;
           v <- getenv (lit "USE_WEBHOOK") ;;
           let use := match v with Some s => s | None => lit "false" end in
           if eqb (lower U use) (lit "true")
           then run_webhook token
           else run_polling) h st with
    | (Ok a, st') => (Ok a, st')
    | (Raise e, st') =>
        (Ok tt, mkState (vars st') (disk st')
                  (events st' ++ [EvLogError e; EvExit 1]))
    end.

End Program.

(** The state a process starts in. *)
Definition boot (h : Host) (files : str -> DbFile) : State :=
  mkState (environ h) files [].

(** A host on which no outside call fails. *)
Definition sound (env file : Environ) : Host :=
  mkHost env file 4300 (fun _ => None).

(** Variables given as a list of names and values. *)
Fixpoint variables (l : list (str * str)) : Environ :=
  match l with
  | [] => fun _ => None
  | (k, v) :: r => fun key => if eqb key k then Some v else variables r key
  end.

(** ** Notions for stating what the start does *)

Import Store.

(** The variables the program sees once [load_dotenv] has run. *)
Definition effective (h : Host) : Environ :=
  load_dotenv (dotenv h) (environ h).

(** The path [setup_database] connects to. *)
Definition db_path_of (E : Environ) : str :=
  match E (lit "DB_PATH") with Some p => p | None => lit "messages.db" end.

(** The test of the main block on [USE_WEBHOOK]. *)
Definition use_webhook (U : UnicodeTables) (E : Environ) : bool :=
  eqb (lower U (match E (lit "USE_WEBHOOK") with
                | Some s => s
                | None => lit "false"
                end))
      (lit "true").

(** [int(os.getenv('PORT', 8080))] *)
Definition port_of (U : UnicodeTables) (h : Host) (E : Environ) : option Z :=
  match E (lit "PORT") with
  | Some text => int_of_str U (max_str_digits h) text
  | None => Some 8080
  end.

(** No outside call fails. *)
Definition calm (h : Host) : Prop := forall op, fault h op = None.

(** The last thing a run did. *)
Definition ends_with (st : State) (ev : Event) : Prop :=
  exists before, events st = before ++ [ev].

(** The six declared columns of a row. *)
Definition declared (r : Row) : Row6 :=
  mkRow6 (id r) (chat_id r) (message_hash r) (message_text r)
         (user_id r) (timestamp r).

Definition stored (f : DbFile) : list Row6 :=
  match f with
  | NoTable => []
  | Columns6 rows6 _ => rows6
  | Columns7 d => map declared (rows d)
  end.

Definition counter (f : DbFile) : Z :=
  match f with
  | NoTable => 0
  | Columns6 _ s => s
  | Columns7 d => sequence d
  end.

(** Sample data: a host with no variables on which nothing fails, and a
    disk whose [messages.db] holds one row of the six-column table. *)
Definition plain_host : Host := sound (fun _ => None) (fun _ => None).

Definition old_row : Row6 :=
  mkRow6 4 (-100) Bot.HELLO_HASH (lit "Hello World") 7
         (lit "2026-11-04 00:32:20").

Definition old_disk : str -> DbFile :=
  fun p => if eqb p (lit "messages.db") then Columns6 [old_row] 9 else NoTable.

Definition old_state : State := mkState (fun _ => None) old_disk [].

(** Hosts with a token: webhook mode asked for without [WEBHOOK_URL],
    with a port that is no number, and with everything set (the token
    and the port coming from the [.env] file). *)
Definition fallback_host : Host :=
  sound (variables [(lit "BOT_TOKEN", lit "123:abc");
                    (lit "USE_WEBHOOK", lit "True")])
        (fun _ => None).

Definition bad_port_host : Host :=
  sound (variables [(lit "BOT_TOKEN", lit "123:abc");
                    (lit "USE_WEBHOOK", lit "TRUE");
                    (lit "PORT", lit "80.0")])
        (fun _ => None).

Definition webhook_host : Host :=
  sound (variables [(lit "USE_WEBHOOK", lit "true");
                    (lit "WEBHOOK_URL", lit "https://bot.example.org")])
        (variables [(lit "BOT_TOKEN", lit "123:abc");
                    (lit "PORT", lit " 8_443 ");
                    (lit "USE_WEBHOOK", lit "false")]).

(** A host on which [ALTER TABLE] fails with an [OperationalError], as
    when another process holds the database. *)
Definition locked_host : Host :=
  mkHost (variables [(lit "BOT_TOKEN", lit "123:abc")]) (fun _ => None) 4300
         (fun op => match op with
                    | OpAlter => Some OperationalError
                    | _ => None
                    end).

(** The table [setup_database] makes of what it finds. *)
Definition migrated (f : DbFile) : Db :=
  match f with
  | NoTable => mkDb [] 0
  | Columns6 rows6 s => mkDb (map add_user_name rows6) s
  | Columns7 d => d
  end.

End Startup.

(* ====================================================================== *)
(** * Notions for stating what the handler does *)
(* ====================================================================== *)

Module Notions.
Import PyStr Store.

(** The [id]s in the table, in row order. *)
Definition ids (d : Db) : list Z := map id (rows d).

(** A text without whitespace, and a word: such a text that is not
    empty. *)
Definition nonspace (w : str) : Prop := Forall (fun c => isspace c = false) w.

Definition word (w : str) : Prop := w <> [] /\ nonspace w.

(** ASCII code points that lowercasing leaves alone. *)
Definition lowered (c : codepoint) : Prop :=
  is_ascii c = true /\ ascii_lower c = c.

End Notions.

(* ====================================================================== *)
(** * Facts about strings *)
(* ====================================================================== *)

Module PyStrFacts.
Import PyStr.

Lemma compare_refl (a : str) : compare a a = Eq.
Proof.
  induction a as [|x a IH]; simpl; [reflexivity|].
  now rewrite N.compare_refl.
Qed.

Lemma compare_eq (a b : str) : compare a b = Eq -> a = b.
Proof.
  revert b; induction a as [|x a IH]; intros [|y b]; simpl; try discriminate; auto.
  destruct (N.compare_spec x y); try discriminate.
  intros E; subst; f_equal; auto.
Qed.

Lemma compare_antisym (a b : str) : compare b a = CompOpp (compare a b).
Proof.
  revert b; induction a as [|x a IH]; intros [|y b]; simpl; auto.
  rewrite (N.compare_antisym x y).
  destruct (x ?= y)%N; simpl; auto.
Qed.

Lemma compare_lt_trans (a b c : str) :
  compare a b = Lt -> compare b c = Lt -> compare a c = Lt.
Proof.
  revert b c; induction a as [|x a IH]; intros [|y b] [|z c]; simpl;
    try discriminate; auto.
  destruct (N.compare_spec x y), (N.compare_spec y z); try discriminate;
    subst; intros H1 H2.
  - rewrite N.compare_refl; eauto.
  - now rewrite (proj2 (N.compare_lt_iff _ _)).
  - now rewrite (proj2 (N.compare_lt_iff _ _)).
  - assert (x < z)%N by lia. now rewrite (proj2 (N.compare_lt_iff _ _)).
Qed.

(** [a > b] and [c <= b] give [a > c]: something newer than the later of
    two bounds is newer than the earlier one. *)
Lemma gtb_le_trans (a b c : str) :
  gtb a b = true -> compare c b <> Gt -> ltb a c = false.
Proof.
  unfold gtb, ltb; intros Hab Hcb.
  destruct (compare a b) eqn:E1; try discriminate.
  destruct (compare a c) eqn:E2; auto.
  exfalso.
  assert (Hba : compare b a = Lt) by (rewrite compare_antisym, E1; reflexivity).
  destruct (compare c b) eqn:E3.
  - apply compare_eq in E3; subst. congruence.
  - assert (compare a b = Lt) by eauto using compare_lt_trans. congruence.
  - congruence.
Qed.

Lemma eqb_eq (a b : str) : eqb a b = true <-> a = b.
Proof.
  revert b; induction a as [|x a IH]; intros [|y b]; simpl; split;
    try discriminate; auto.
  - rewrite andb_true_iff, N.eqb_eq, IH. now intros [-> ->].
  - intros H; injection H as -> ->. now rewrite N.eqb_refl, (proj2 (IH b)).
Qed.

Lemma eqb_refl (a : str) : eqb a a = true.
Proof. now apply eqb_eq. Qed.

Lemma digit_char_compare (a b : Z) :
  0 <= a <= 9 -> 0 <= b <= 9 ->
  (digit_char a ?= digit_char b)%N = (a ?= b).
Proof.
  intros Ha Hb; unfold digit_char.
  destruct (Z.compare_spec a b).
  - subst; apply N.compare_refl.
  - apply N.compare_lt_iff; lia.
  - apply N.compare_gt_iff; lia.
Qed.

Lemma digit_value_char (U : UnicodeTables) (k : Z) :
  0 <= k <= 9 -> digit_value U (digit_char k) = Some k.
Proof.
  intros Hk; unfold digit_value, digit_char, in_range.
  replace ((48 <=? 48 + Z.to_N k)%N && (48 + Z.to_N k <=? 57)%N) with true.
  - f_equal; lia.
  - symmetry; apply andb_true_iff; split; apply N.leb_le; lia.
Qed.

(** Four-digit numbers print as their four digits. *)
Lemma dec_digits_four (f : nat) (n : Z) :
  1000 <= n <= 9999 ->
  dec_digits (S (S (S (S f)))) n [] =
    [digit_char (n / 1000); digit_char ((n / 100) mod 10);
     digit_char ((n / 10) mod 10); digit_char (n mod 10)].
Proof.
  intros Hn; simpl.
  assert (E1 : (n <? 10) = false) by (apply Z.ltb_ge; lia).
  assert (E2 : (n / 10 <? 10) = false)
    by (apply Z.ltb_ge; apply Z.div_le_lower_bound; lia).
  assert (E3 : (n / 10 / 10 <? 10) = false).
  { apply Z.ltb_ge. rewrite Z.div_div by lia.
    apply Z.div_le_lower_bound; lia. }
  assert (E4 : (n / 10 / 10 / 10 <? 10) = true).
  { apply Z.ltb_lt. rewrite !Z.div_div by lia.
    apply Z.div_lt_upper_bound; lia. }
  rewrite E1, E2, E3, E4.
  now rewrite !Z.div_div by lia.
Qed.

Lemma str_of_int_four (n : Z) :
  1000 <= n <= 9999 ->
  str_of_int n =
    [digit_char (n / 1000); digit_char ((n / 100) mod 10);
     digit_char ((n / 10) mod 10); digit_char (n mod 10)].
Proof.
  intros Hn; unfold str_of_int.
  replace (n <? 0) with false by (symmetry; apply Z.ltb_ge; lia).
  assert (Hl : 9 <= Z.log2 n).
  { change 9 with (Z.log2 1000). apply Z.log2_le_mono; lia. }
  destruct (Z.to_nat (Z.log2 n)) as [|[|[|f]]] eqn:E; try lia.
  now apply dec_digits_four.
Qed.

End PyStrFacts.

(* ====================================================================== *)
(** * Facts about the calendar *)
(* ====================================================================== *)

Module CalendarFacts.
Import Calendar.

(** ** Checking a property on every day of one 400-year cycle *)

Lemma chain_spec (k : nat) (lo len prev last : Z) :
  chain k lo len prev = Some last ->
  prev <= last
  /\ (forall z, lo <= z < lo + len ->
        cycle_day_ok (ord2ymd (z + 1)) = true
        /\ prev < ymd_key (ord2ymd (z + 1)) <= last)
  /\ (forall z z', lo <= z < z' -> z' < lo + len ->
        ymd_key (ord2ymd (z + 1)) < ymd_key (ord2ymd (z' + 1))).
Proof.
  revert lo len prev last; induction k as [|k IH]; intros lo len prev last H;
    simpl in H; destruct (Z.leb_spec len 0) as [Hl|Hl].
  - injection H as <-. repeat split; intros; lia.
  - discriminate.
  - injection H as <-. repeat split; intros; lia.
  - destruct (Z.eqb_spec len 1) as [->|Hn].
    + destruct (cycle_day_ok (ord2ymd (lo + 1))) eqn:Eok; [|discriminate].
      destruct (Z.ltb_spec prev (ymd_key (ord2ymd (lo + 1)))); [|discriminate].
      injection H as <-.
      split; [lia|]. split.
      * intros z Hz. replace z with lo by lia. split; [assumption|lia].
      * intros; lia.
    + destruct (chain k lo (len / 2) prev) as [p|] eqn:E1; [|discriminate].
      assert (Hh : 1 <= len / 2 < len).
      { split; [apply Z.div_le_lower_bound|apply Z.div_lt_upper_bound]; lia. }
      apply IH in E1 as (A1 & A2 & A3).
      apply IH in H as (B1 & B2 & B3).
      split; [lia|]. split.
      * intros z Hz. destruct (Z_lt_le_dec z (lo + len / 2)).
        -- destruct (A2 z) as [? ?]; [lia|]. split; [assumption|lia].
        -- destruct (B2 z) as [? ?]; [lia|]. split; [assumption|lia].
      * intros z z' Hz Hz'.
        destruct (Z_lt_le_dec z (lo + len / 2)), (Z_lt_le_dec z' (lo + len / 2)).
        -- apply A3; lia.
        -- destruct (A2 z) as [_ ?]; [lia|]. destruct (B2 z') as [_ ?]; [lia|]. lia.
        -- lia.
        -- apply B3; lia.
Qed.

(** The whole cycle: the keys run from 0001-01-01 to 0400-12-31. *)
Lemma cycle_checked : chain 19 0 DI400Y 0 = Some 4001231.
Proof. vm_cast_no_check (eq_refl (Some 4001231)). Qed.

Lemma divmod_eq (a b : Z) : divmod a b = (a / b, a mod b).
Proof.
  unfold divmod, Z.div, Z.modulo. now destruct (Z.div_eucl a b).
Qed.

(** [ord2ymd] repeats every 400 years. *)
Lemma ord2ymd_cycle (n : Z) :
  ord2ymd n =
    let '(y, m, d) := ord2ymd ((n - 1) mod DI400Y + 1) in
    (400 * ((n - 1) / DI400Y) + y, m, d).
Proof.
  set (q := (n - 1) / DI400Y). set (r := (n - 1) mod DI400Y).
  assert (Hr : 0 <= r < DI400Y) by (apply Z.mod_pos_bound; reflexivity).
  unfold ord2ymd.
  replace (r + 1 - 1) with r by lia.
  repeat (rewrite divmod_eq; cbv beta iota zeta).
  fold q r.
  rewrite (Z.div_small r DI400Y), (Z.mod_small r DI400Y) by exact Hr.
  destruct ((r mod DI100Y mod DI4Y / 365 =? 4) || (r / DI100Y =? 4)).
  - f_equal; f_equal; lia.
  - match goal with
    | |- context [if ?c then _ else _] => destruct c
    end; f_equal; f_equal; lia.
Qed.

Lemma is_leap_cycle (q y : Z) : is_leap (400 * q + y) = is_leap y.
Proof.
  unfold is_leap.
  replace ((400 * q + y) mod 4) with (y mod 4)
    by (replace (400 * q + y) with (y + (100 * q) * 4) by lia;
        now rewrite Z_mod_plus_full).
  replace ((400 * q + y) mod 100) with (y mod 100)
    by (replace (400 * q + y) with (y + (4 * q) * 100) by lia;
        now rewrite Z_mod_plus_full).
  replace ((400 * q + y) mod 400) with (y mod 400)
    by (replace (400 * q + y) with (y + q * 400) by lia;
        now rewrite Z_mod_plus_full).
  reflexivity.
Qed.

Lemma days_in_month_cycle (q y m : Z) :
  days_in_month (400 * q + y) m = days_in_month y m.
Proof. unfold days_in_month. now rewrite is_leap_cycle. Qed.

Lemma days_in_month_bounds (y m : Z) :
  1 <= m <= 12 -> 28 <= days_in_month y m <= 31.
Proof.
  intros Hm; unfold days_in_month.
  destruct ((m =? 2) && is_leap y); [lia|].
  assert (C : m = 1 \/ m = 2 \/ m = 3 \/ m = 4 \/ m = 5 \/ m = 6 \/ m = 7
              \/ m = 8 \/ m = 9 \/ m = 10 \/ m = 11 \/ m = 12) by lia.
  repeat (destruct C as [->|C]; [simpl; lia|]). subst; simpl; lia.
Qed.

Lemma cycle_day (r : Z) :
  0 <= r < DI400Y ->
  let '(y, m, d) := ord2ymd (r + 1) in
  1 <= y <= 400 /\ 1 <= m <= 12 /\ 1 <= d <= days_in_month y m.
Proof.
  intros Hr.
  destruct (chain_spec _ _ _ _ _ cycle_checked) as (_ & H & _).
  destruct (H r) as [Hok _]; [lia|].
  destruct (ord2ymd (r + 1)) as [[y m] d].
  unfold cycle_day_ok in Hok.
  repeat (apply andb_true_iff in Hok as [Hok ?]).
  repeat match goal with
         | E : (_ <=? _) = true |- _ => apply Z.leb_le in E
         end.
  lia.
Qed.

(** Every ordinal has a date that exists, in the year its cycle gives. *)
Lemma ord2ymd_valid (n : Z) :
  let '(y, m, d) := ord2ymd n in
  400 * ((n - 1) / DI400Y) + 1 <= y <= 400 * ((n - 1) / DI400Y) + 400
  /\ 1 <= m <= 12 /\ 1 <= d <= days_in_month y m.
Proof.
  rewrite ord2ymd_cycle.
  set (q := (n - 1) / DI400Y). set (r := (n - 1) mod DI400Y).
  assert (Hr : 0 <= r < DI400Y) by (apply Z.mod_pos_bound; reflexivity).
  assert (H := cycle_day r Hr).
  destruct (ord2ymd (r + 1)) as [[y m] d].
  rewrite days_in_month_cycle. lia.
Qed.

(** Later days have later dates. *)
Lemma ord2ymd_mono (n1 n2 : Z) :
  n1 < n2 -> ymd_key (ord2ymd n1) < ymd_key (ord2ymd n2).
Proof.
  intros Hlt.
  rewrite (ord2ymd_cycle n1), (ord2ymd_cycle n2).
  assert (Hr1 : 0 <= (n1 - 1) mod DI400Y < DI400Y) by (apply Z.mod_pos_bound; reflexivity).
  assert (Hr2 : 0 <= (n2 - 1) mod DI400Y < DI400Y) by (apply Z.mod_pos_bound; reflexivity).
  assert (E1 := Z.div_mod (n1 - 1) DI400Y ltac:(discriminate)).
  assert (E2 := Z.div_mod (n2 - 1) DI400Y ltac:(discriminate)).
  set (q1 := (n1 - 1) / DI400Y) in *. set (r1 := (n1 - 1) mod DI400Y) in *.
  set (q2 := (n2 - 1) / DI400Y) in *. set (r2 := (n2 - 1) mod DI400Y) in *.
  destruct (chain_spec _ _ _ _ _ cycle_checked) as (_ & _ & Hm).
  assert (B1 := cycle_day r1 Hr1). assert (B2 := cycle_day r2 Hr2).
  assert (Hq : q1 <= q2) by (unfold DI400Y in *; lia).
  destruct (Z.eq_dec q1 q2) as [Eq|Nq].
  - assert (Hrr : r1 < r2) by (unfold DI400Y in *; lia).
    specialize (Hm r1 r2 ltac:(lia) ltac:(lia)).
    destruct (ord2ymd (r1 + 1)) as [[y1 m1] d1], (ord2ymd (r2 + 1)) as [[y2 m2] d2].
    unfold ymd_key in *. lia.
  - destruct (ord2ymd (r1 + 1)) as [[y1 m1] d1], (ord2ymd (r2 + 1)) as [[y2 m2] d2].
    assert (D1 := days_in_month_bounds y1 m1 ltac:(lia)).
    unfold ymd_key in *. lia.
Qed.

(** ** Dates and times of day *)

Lemma compare_stamp (a b : DateTime) :
  two_digit_fields a -> two_digit_fields b ->
  compare a b = (stamp a ?= stamp b).
Proof.
  intros (A1 & A2 & A3 & A4 & A5) (B1 & B2 & B3 & B4 & B5).
  unfold compare, stamp, lex.
  symmetry.
  destruct (Z.compare_spec (year a) (year b));
    [destruct (Z.compare_spec (month a) (month b));
     [destruct (Z.compare_spec (day a) (day b));
      [destruct (Z.compare_spec (hour a) (hour b));
       [destruct (Z.compare_spec (minute a) (minute b));
        [destruct (Z.compare_spec (second a) (second b))|..]|..]|..]|..]|..];
    try (apply Z.compare_eq_iff; lia);
    try (apply Z.compare_lt_iff; lia);
    try (apply Z.compare_gt_iff; lia).
Qed.

Lemma of_epoch_fields (t : Z) :
  let dt := of_epoch t in
  1 <= month dt <= 12 /\ 1 <= day dt <= days_in_month (year dt) (month dt)
  /\ 0 <= hour dt <= 23 /\ 0 <= minute dt <= 59 /\ 0 <= second dt <= 59.
Proof.
  unfold of_epoch.
  assert (H := ord2ymd_valid (t / 86400 + EPOCH_ORDINAL)).
  destruct (ord2ymd (t / 86400 + EPOCH_ORDINAL)) as [[y m] d]; simpl.
  assert (Hs : 0 <= t mod 86400 < 86400) by (apply Z.mod_pos_bound; lia).
  repeat split; try lia.
  - apply Z.div_pos; lia.
  - apply Z.lt_succ_r, Z.div_lt_upper_bound; lia.
  - apply Z.div_pos; [apply Z.mod_pos_bound|]; lia.
  - apply Z.lt_succ_r, Z.div_lt_upper_bound; [|pose proof (Z.mod_pos_bound (t mod 86400) 3600)]; lia.
  - apply Z.mod_pos_bound; lia.
  - pose proof (Z.mod_pos_bound (t mod 86400) 60); lia.
Qed.

Lemma of_epoch_two_digit (t : Z) : two_digit_fields (of_epoch t).
Proof.
  assert (H := of_epoch_fields t). cbv zeta in H.
  assert (D := days_in_month_bounds (year (of_epoch t)) (month (of_epoch t))).
  unfold two_digit_fields. lia.
Qed.

Lemma hms_mono (s1 s2 : Z) :
  0 <= s1 < s2 ->
  ((s1 / 3600) * 100 + s1 mod 3600 / 60) * 100 + s1 mod 60
  < ((s2 / 3600) * 100 + s2 mod 3600 / 60) * 100 + s2 mod 60.
Proof. intros H. Z.div_mod_to_equations. lia. Qed.

(** The clock and the calendar agree on what comes first. *)
Lemma of_epoch_mono (t1 t2 : Z) :
  t1 < t2 -> stamp (of_epoch t1) < stamp (of_epoch t2).
Proof.
  intros Hlt.
  assert (F1 := of_epoch_fields t1). assert (F2 := of_epoch_fields t2).
  cbv zeta in F1, F2.
  assert (D1 := days_in_month_bounds (year (of_epoch t1)) (month (of_epoch t1)) ltac:(lia)).
  assert (D2 := days_in_month_bounds (year (of_epoch t2)) (month (of_epoch t2)) ltac:(lia)).
  revert F1 F2 D1 D2. unfold stamp, of_epoch.
  assert (Hd : t1 / 86400 <= t2 / 86400) by (apply Z.div_le_mono; lia).
  destruct (Z.eq_dec (t1 / 86400) (t2 / 86400)) as [E|N].
  - rewrite E.
    destruct (ord2ymd (t2 / 86400 + EPOCH_ORDINAL)) as [[y m] d]; simpl.
    intros _ _ _ _.
    assert (Hs : t1 mod 86400 < t2 mod 86400).
    { rewrite !Z.mod_eq by lia. lia. }
    assert (H0 : 0 <= t1 mod 86400) by (apply Z.mod_pos_bound; lia).
    assert (K := hms_mono (t1 mod 86400) (t2 mod 86400) (conj H0 Hs)).
    lia.
  - assert (K := ord2ymd_mono (t1 / 86400 + EPOCH_ORDINAL) (t2 / 86400 + EPOCH_ORDINAL) ltac:(lia)).
    destruct (ord2ymd (t1 / 86400 + EPOCH_ORDINAL)) as [[y1 m1] d1],
             (ord2ymd (t2 / 86400 + EPOCH_ORDINAL)) as [[y2 m2] d2]; simpl.
    unfold ymd_key in K. intros. lia.
Qed.

Lemma of_epoch_compare (t1 t2 : Z) :
  compare (of_epoch t1) (of_epoch t2) = (t1 ?= t2).
Proof.
  rewrite compare_stamp by apply of_epoch_two_digit.
  destruct (Z.compare_spec t1 t2) as [->|H|H].
  - apply Z.compare_refl.
  - apply Z.compare_lt_iff. now apply of_epoch_mono.
  - apply Z.compare_gt_iff. now apply of_epoch_mono.
Qed.

Lemma of_epoch_year_mono (t1 t2 : Z) :
  t1 <= t2 -> year (of_epoch t1) <= year (of_epoch t2).
Proof.
  intros H.
  destruct (Z.eq_dec t1 t2) as [->|N]; [lia|].
  assert (K := of_epoch_mono t1 t2 ltac:(lia)).
  assert (A := of_epoch_two_digit t1). assert (B := of_epoch_two_digit t2).
  unfold two_digit_fields, stamp in *. lia.
Qed.

(** The years between two instants. *)
Lemma of_epoch_year_between (lo hi t : Z) :
  lo <= t <= hi ->
  year (of_epoch lo) <= year (of_epoch t) <= year (of_epoch hi).
Proof. intros [? ?]; split; now apply of_epoch_year_mono. Qed.

End CalendarFacts.

(* ====================================================================== *)
(** * Facts about timestamps as text *)
(* ====================================================================== *)

Module TimeFmtFacts.
Import PyStr Calendar TimeFmt PyStrFacts CalendarFacts.

Lemma compare_cons (c : codepoint) (x y : str) :
  PyStr.compare (c :: x) (c :: y) = PyStr.compare x y.
Proof. simpl. now rewrite N.compare_refl. Qed.

Lemma compare_sep (c : codepoint) (x y : str) :
  PyStr.compare ([c] ++ x) ([c] ++ y) = PyStr.compare x y.
Proof. exact (compare_cons c x y). Qed.

Lemma compare_two_digits (a b : Z) (x y : str) :
  0 <= a < 100 -> 0 <= b < 100 ->
  PyStr.compare (two_digits a ++ x) (two_digits b ++ y)
  = lex (a ?= b) (PyStr.compare x y).
Proof.
  intros Ha Hb. unfold two_digits. simpl.
  assert (A1 : 0 <= a / 10 <= 9) by (Z.div_mod_to_equations; lia).
  assert (A2 : 0 <= a mod 10 <= 9) by (Z.div_mod_to_equations; lia).
  assert (B1 : 0 <= b / 10 <= 9) by (Z.div_mod_to_equations; lia).
  assert (B2 : 0 <= b mod 10 <= 9) by (Z.div_mod_to_equations; lia).
  rewrite !digit_char_compare by assumption.
  assert (Ea := Z.div_mod a 10 ltac:(lia)). assert (Eb := Z.div_mod b 10 ltac:(lia)).
  unfold lex.
  destruct (Z.compare_spec (a / 10) (b / 10)) as [E1|L1|G1];
    [destruct (Z.compare_spec (a mod 10) (b mod 10)) as [E2|L2|G2]|..].
  - replace (a ?= b) with Eq by (symmetry; apply Z.compare_eq_iff; lia). reflexivity.
  - replace (a ?= b) with Lt by (symmetry; apply Z.compare_lt_iff; lia). reflexivity.
  - replace (a ?= b) with Gt by (symmetry; apply Z.compare_gt_iff; lia). reflexivity.
  - replace (a ?= b) with Lt by (symmetry; apply Z.compare_lt_iff; lia). reflexivity.
  - replace (a ?= b) with Gt by (symmetry; apply Z.compare_gt_iff; lia). reflexivity.
Qed.

Lemma four_digits_split (a : Z) :
  four_digits a = two_digits (a / 100) ++ two_digits (a mod 100).
Proof.
  unfold four_digits, two_digits. simpl.
  replace (a / 100 / 10) with (a / 1000) by (Z.div_mod_to_equations; lia).
  replace (a mod 100 / 10) with ((a / 10) mod 10) by (Z.div_mod_to_equations; lia).
  replace ((a mod 100) mod 10) with (a mod 10) by (Z.div_mod_to_equations; lia).
  reflexivity.
Qed.

Lemma compare_four_digits (a b : Z) (x y : str) :
  0 <= a <= 9999 -> 0 <= b <= 9999 ->
  PyStr.compare (four_digits a ++ x) (four_digits b ++ y)
  = lex (a ?= b) (PyStr.compare x y).
Proof.
  intros Ha Hb.
  rewrite (four_digits_split a), (four_digits_split b), <- !app_assoc.
  rewrite !compare_two_digits by (Z.div_mod_to_equations; lia).
  assert (Ea := Z.div_mod a 100 ltac:(lia)). assert (Eb := Z.div_mod b 100 ltac:(lia)).
  assert (0 <= a mod 100 < 100) by (apply Z.mod_pos_bound; lia).
  assert (0 <= b mod 100 < 100) by (apply Z.mod_pos_bound; lia).
  unfold lex.
  destruct (Z.compare_spec (a / 100) (b / 100)) as [E1|L1|G1];
    [destruct (Z.compare_spec (a mod 100) (b mod 100)) as [E2|L2|G2]|..].
  - replace (a ?= b) with Eq by (symmetry; apply Z.compare_eq_iff; lia). reflexivity.
  - replace (a ?= b) with Lt by (symmetry; apply Z.compare_lt_iff; lia). reflexivity.
  - replace (a ?= b) with Gt by (symmetry; apply Z.compare_gt_iff; lia). reflexivity.
  - replace (a ?= b) with Lt by (symmetry; apply Z.compare_lt_iff; lia). reflexivity.
  - replace (a ?= b) with Gt by (symmetry; apply Z.compare_gt_iff; lia). reflexivity.
Qed.

(** Text timestamps of equal width sort like the instants they show. *)
Lemma sqlite_render_compare (a b : DateTime) :
  0 <= year a <= 9999 -> 0 <= year b <= 9999 ->
  two_digit_fields a -> two_digit_fields b ->
  PyStr.compare (sqlite_render a) (sqlite_render b) = Calendar.compare a b.
Proof.
  intros Ya Yb (A1 & A2 & A3 & A4 & A5) (B1 & B2 & B3 & B4 & B5).
  unfold sqlite_render, Calendar.compare.
  rewrite compare_four_digits by assumption. f_equal.
  rewrite compare_sep, compare_two_digits by assumption. f_equal.
  rewrite compare_sep, compare_two_digits by assumption. f_equal.
  rewrite compare_sep, compare_two_digits by assumption. f_equal.
  rewrite compare_sep, compare_two_digits by assumption. f_equal.
  rewrite compare_sep.
  rewrite <- (app_nil_r (two_digits (second a))), <- (app_nil_r (two_digits (second b))).
  rewrite compare_two_digits by assumption.
  simpl. unfold lex. now destruct (second a ?= second b).
Qed.

(** ** The two formats *)

Lemma strftime_stored (dt : DateTime) :
  strftime dt FMT_STORED =
    str_of_int (year dt) ++ [ch "-"] ++ two_digits (month dt) ++ [ch "-"]
      ++ two_digits (day dt) ++ [ch " "] ++ two_digits (hour dt) ++ [ch ":"]
      ++ two_digits (minute dt) ++ [ch ":"] ++ two_digits (second dt).
Proof. reflexivity. Qed.

Lemma strftime_shown (dt : DateTime) :
  strftime dt FMT_SHOWN =
    str_of_int (year dt) ++ [ch "/"] ++ two_digits (month dt) ++ [ch "/"]
      ++ two_digits (day dt) ++ [ch " "] ++ two_digits (hour dt) ++ [ch ":"]
      ++ two_digits (minute dt) ++ [ch ":"] ++ two_digits (second dt).
Proof. reflexivity. Qed.

(** With a four-digit year, Python and SQLite write the same text. *)
Lemma strftime_sqlite (dt : DateTime) :
  1000 <= year dt <= 9999 -> strftime dt FMT_STORED = sqlite_render dt.
Proof.
  intros Hy. rewrite strftime_stored, (str_of_int_four _ Hy). reflexivity.
Qed.

(** ** The stored format is text to SQLite *)

Lemma sql_digit_char (k : Z) : 0 <= k <= 9 -> sql_digit (digit_char k) = true.
Proof.
  intros Hk. unfold sql_digit, in_range, digit_char.
  apply andb_true_iff; split; apply N.leb_le; lia.
Qed.

Lemma sql_digit_plain (c : codepoint) :
  sql_digit c = true ->
  sql_space c = false /\ ((c =? 43) || (c =? 45))%N = false.
Proof.
  unfold sql_digit, sql_space, in_range. intros H.
  apply andb_true_iff in H as [H1 H2]. apply N.leb_le in H1, H2. split.
  - apply orb_false_iff; split; [|apply N.eqb_neq; lia].
    apply andb_false_iff; right. apply N.leb_gt. lia.
  - apply orb_false_iff; split; apply N.eqb_neq; lia.
Qed.

(** Four digits and a dash begin no number. *)
Lemma digits_then_dash (a b c d : codepoint) (rest : str) :
  sql_digit a = true -> sql_digit b = true ->
  sql_digit c = true -> sql_digit d = true ->
  sql_numeric (a :: b :: c :: d :: ch "-" :: rest) = false.
Proof.
  intros Ha Hb Hc Hd. destruct (sql_digit_plain a Ha) as [Sa Ga].
  unfold sql_numeric. cbn [skip_while]. rewrite Sa. cbn [skip_sign]. rewrite Ga.
  unfold mantissa. cbn [skip_while starts_digit]. rewrite Ha, Hb, Hc, Hd.
  reflexivity.
Qed.

Lemma render_not_numeric (dt : DateTime) :
  0 <= year dt <= 9999 -> sql_numeric (sqlite_render dt) = false.
Proof.
  intros Hy. unfold sqlite_render, four_digits. cbn [app].
  apply digits_then_dash; apply sql_digit_char;
    Z.div_mod_to_equations; lia.
Qed.

(** ** Reading a timestamp back *)

Lemma starts_with_flat_map {A B} (f : A -> list B) (a : A) (l : list A) (x : B) :
  starts_with x (f a) -> starts_with x (flat_map f (a :: l)).
Proof. intros [t E]. exists (t ++ flat_map f l). simpl. now rewrite E. Qed.

Lemma starts_with_flat_map_in {A B} (f : A -> list B) (a : A) (l : list A) (x : B) :
  starts_with a l -> starts_with x (f a) -> starts_with x (flat_map f l).
Proof. intros [t ->]. apply starts_with_flat_map. Qed.

(** A property of the numbers up to [hi], checked number by number. *)
Lemma upto (P : Z -> Prop) (hi : nat) :
  (forall n, (n <= hi)%nat -> P (Z.of_nat n)) ->
  forall m, 0 <= m <= Z.of_nat hi -> P m.
Proof.
  intros H m Hm. rewrite <- (Z2Nat.id m) by lia. apply H. lia.
Qed.

Tactic Notation "each_number" ident(n) integer(k) :=
  do k (destruct n as [|n]; [try (eexists; reflexivity); try lia|]); lia.

Section Reading.
Variable U : UnicodeTables.

Lemma re_Y_four (y : Z) (rest : str) :
  0 <= y <= 9999 -> re_Y U (four_digits y ++ rest) = [(y, rest)].
Proof.
  intros Hy. unfold four_digits, re_Y, any_digit. cbn [app].
  assert (A : 0 <= y / 1000 <= 9) by (Z.div_mod_to_equations; lia).
  assert (B : 0 <= (y / 100) mod 10 <= 9) by (Z.div_mod_to_equations; lia).
  assert (C : 0 <= (y / 10) mod 10 <= 9) by (Z.div_mod_to_equations; lia).
  assert (D : 0 <= y mod 10 <= 9) by (Z.div_mod_to_equations; lia).
  rewrite (digit_value_char U _ A), (digit_value_char U _ B),
    (digit_value_char U _ C), (digit_value_char U _ D).
  do 2 f_equal. Z.div_mod_to_equations; lia.
Qed.

Lemma re_m_two (m : Z) (rest : str) :
  1 <= m <= 12 -> starts_with (m, rest) (re_m (two_digits m ++ rest)).
Proof.
  intros Hm. assert (H : 0 <= m <= Z.of_nat 12) by (simpl; lia).
  revert Hm. pattern m. apply (upto _ 12); [|exact H].
  intros n Hn Hm. each_number n 13.
Qed.

Lemma re_d_two (d : Z) (rest : str) :
  1 <= d <= 31 -> starts_with (d, rest) (re_d U (two_digits d ++ rest)).
Proof.
  intros Hd. assert (H : 0 <= d <= Z.of_nat 31) by (simpl; lia).
  revert Hd. pattern d. apply (upto _ 31); [|exact H].
  intros n Hn Hd. each_number n 32.
Qed.

Lemma re_H_two (h : Z) (rest : str) :
  0 <= h <= 23 -> starts_with (h, rest) (re_H U (two_digits h ++ rest)).
Proof.
  intros Hh. assert (H : 0 <= h <= Z.of_nat 23) by (simpl; lia).
  revert Hh. pattern h. apply (upto _ 23); [|exact H].
  intros n Hn Hh. each_number n 24.
Qed.

Lemma re_M_two (m : Z) (rest : str) :
  0 <= m <= 59 -> starts_with (m, rest) (re_M U (two_digits m ++ rest)).
Proof.
  intros Hm. assert (H : 0 <= m <= Z.of_nat 59) by (simpl; lia).
  revert Hm. pattern m. apply (upto _ 59); [|exact H].
  intros n Hn Hm. each_number n 60.
Qed.

Lemma re_S_two (m : Z) (rest : str) :
  0 <= m <= 59 -> starts_with (m, rest) (re_S U (two_digits m ++ rest)).
Proof.
  intros Hm. assert (H : 0 <= m <= Z.of_nat 59) by (simpl; lia).
  revert Hm. pattern m. apply (upto _ 59); [|exact H].
  intros n Hn Hm. each_number n 60.
Qed.

Lemma re_Y_start (y : Z) (rest : str) :
  0 <= y <= 9999 -> starts_with (y, rest) (re_Y U (four_digits y ++ rest)).
Proof. intros Hy. rewrite re_Y_four by assumption. now exists []. Qed.

Lemma isspace_digit (k : Z) : 0 <= k <= 9 -> isspace (digit_char k) = false.
Proof.
  intros Hk. assert (H : 0 <= k <= Z.of_nat 9) by (simpl; lia).
  revert Hk. pattern k. apply (upto _ 9); [|exact H].
  intros n Hn Hk. do 10 (destruct n as [|n]; [reflexivity|]). lia.
Qed.

(** One step of the matcher for each kind of format item. *)
Lemma step_directive (e : codepoint) (r : str) (ws : bool) (f : DateTime)
      (s : str) (re : str -> candidates) (v : Z) (rest : str)
      (x : DateTime * str) :
  re_directive U e = Some re ->
  starts_with (v, rest) (re s) ->
  starts_with x (matches U r false (set_field e v f) rest) ->
  starts_with x (matches U (ch "%" :: e :: r) ws f s).
Proof.
  intros Hre Hv Hx. cbn [matches].
  change ((ch "%" =? ch "%")%N) with true. cbv iota. rewrite Hre.
  eapply starts_with_flat_map_in; [exact Hv|exact Hx].
Qed.

Lemma step_literal (c : codepoint) (r : str) (ws : bool) (f : DateTime)
      (rest : str) (x : DateTime * str) :
  (c =? ch "%")%N = false -> isspace c = false ->
  starts_with x (matches U r false f rest) ->
  starts_with x (matches U (c :: r) ws f (c :: rest)).
Proof.
  intros H1 H2 Hx. cbn [matches]. now rewrite H1, H2, N.eqb_refl.
Qed.

Lemma step_space (c : codepoint) (r : str) (f : DateTime)
      (sp c' : codepoint) (rest : str) (x : DateTime * str) :
  (c =? ch "%")%N = false -> isspace c = true ->
  isspace sp = true -> isspace c' = false ->
  starts_with x (matches U r true f (c' :: rest)) ->
  starts_with x (matches U (c :: r) false f (sp :: c' :: rest)).
Proof.
  intros H1 H2 H3 H4 Hx. cbn [matches re_spaces]. rewrite H1, H2, H3, H4.
  cbn [app]. now apply starts_with_flat_map.
Qed.

(** What SQLite's renderer writes for a date that exists, [strptime]
    reads back as that date. *)
Lemma strptime_render (dt : DateTime) :
  valid dt = true -> strptime U (sqlite_render dt) FMT_STORED = Some dt.
Proof.
  intros Hv. unfold strptime.
  enough (H : starts_with (dt, []) (matches U FMT_STORED false FIELDS0 (sqlite_render dt))).
  { destruct H as [t ->]. now rewrite Hv. }
  unfold valid in Hv.
  repeat (apply andb_true_iff in Hv as [Hv ?]).
  repeat match goal with
         | E : (_ <=? _) = true |- _ => apply Z.leb_le in E
         end.
  destruct dt as [y m d h mi sec]; cbn [year month day hour minute second] in *.
  assert (Hd : d <= 31) by (pose proof (days_in_month_bounds y m); lia).
  unfold sqlite_render; cbn [year month day hour minute second app].
  let f := eval vm_compute in FMT_STORED in change FMT_STORED with f.
  eapply step_directive; [reflexivity|apply re_Y_start; lia|].
  apply step_literal; [reflexivity..|].
  eapply step_directive; [reflexivity|apply re_m_two; lia|].
  apply step_literal; [reflexivity..|].
  eapply step_directive; [reflexivity|apply re_d_two; lia|].
  unfold two_digits at 1. cbn [app].
  apply step_space;
    [reflexivity..|apply isspace_digit; Z.div_mod_to_equations; lia|].
  change (digit_char (h / 10) :: digit_char (h mod 10) :: ?r)
    with (two_digits h ++ r).
  eapply step_directive; [reflexivity|apply re_H_two; lia|].
  apply step_literal; [reflexivity..|].
  eapply step_directive; [reflexivity|apply re_M_two; lia|].
  apply step_literal; [reflexivity..|].
  rewrite <- (app_nil_r (two_digits sec)).
  eapply step_directive; [reflexivity|apply re_S_two; lia|].
  now exists [].
Qed.

End Reading.

(** ** The clock and the text *)

Lemma render_compare_epoch (t1 t2 : Z) :
  0 <= year (of_epoch t1) <= 9999 -> 0 <= year (of_epoch t2) <= 9999 ->
  PyStr.compare (sqlite_render (of_epoch t1)) (sqlite_render (of_epoch t2))
  = (t1 ?= t2).
Proof.
  intros H1 H2.
  rewrite sqlite_render_compare by (assumption || apply of_epoch_two_digit).
  apply of_epoch_compare.
Qed.

Lemma sqlite_datetime_some (now days : Z) (s : str) :
  sqlite_datetime now days = Some s ->
  s = sqlite_render (of_epoch (now + 86400 * days))
  /\ 0 <= year (of_epoch (now + 86400 * days)) <= 9999.
Proof.
  unfold sqlite_datetime.
  destruct (0 <=? year (of_epoch (now + 86400 * days))) eqn:E1;
    destruct (year (of_epoch (now + 86400 * days)) <=? 9999) eqn:E2;
    simpl; try discriminate.
  intros [= <-]. apply Z.leb_le in E1, E2. auto.
Qed.

Lemma sqlite_datetime_in_range (now days : Z) :
  0 <= year (of_epoch (now + 86400 * days)) <= 9999 ->
  sqlite_datetime now days = Some (sqlite_render (of_epoch (now + 86400 * days))).
Proof.
  intros [H1 H2]. unfold sqlite_datetime.
  apply Z.leb_le in H1, H2. now rewrite H1, H2.
Qed.

(** Years of an instant between two instants whose years are known. *)
Lemma year_in (lo hi t ylo yhi : Z) :
  year (of_epoch lo) = ylo -> year (of_epoch hi) = yhi ->
  lo <= t <= hi -> ylo <= year (of_epoch t) <= yhi.
Proof.
  intros <- <- H. now apply of_epoch_year_between.
Qed.

(** ** From the stored format to the shown one *)

Lemma dash_to_slash_app (a b : str) :
  dash_to_slash (a ++ b) = dash_to_slash a ++ dash_to_slash b.
Proof. apply map_app. Qed.

Lemma digit_char_no_dash (k : Z) : (digit_char k =? ch "-")%N = false.
Proof.
  apply N.eqb_neq. change (ch "-") with 45%N. unfold digit_char. lia.
Qed.

Lemma dash_to_slash_two (n : Z) : dash_to_slash (two_digits n) = two_digits n.
Proof.
  unfold dash_to_slash, two_digits. cbn [map].
  now rewrite !digit_char_no_dash.
Qed.

Lemma dash_to_slash_four (n : Z) : dash_to_slash (four_digits n) = four_digits n.
Proof.
  unfold dash_to_slash, four_digits. cbn [map].
  now rewrite !digit_char_no_dash.
Qed.

Lemma strftime_shown_stored (dt : DateTime) :
  1000 <= year dt <= 9999 ->
  strftime dt FMT_SHOWN = dash_to_slash (strftime dt FMT_STORED).
Proof.
  intros Hy. rewrite strftime_shown, strftime_stored, (str_of_int_four _ Hy).
  change [digit_char (year dt / 1000); digit_char ((year dt / 100) mod 10);
          digit_char ((year dt / 10) mod 10); digit_char (year dt mod 10)]
    with (four_digits (year dt)).
  rewrite !dash_to_slash_app, dash_to_slash_four, !dash_to_slash_two.
  reflexivity.
Qed.

End TimeFmtFacts.

(* ====================================================================== *)
(** * Facts about the table *)
(* ====================================================================== *)

Module StoreFacts.
Import PyStr Calendar TimeFmt Store PyStrFacts CalendarFacts TimeFmtFacts.

Lemma same_key_spec (chat : Z) (hash : str) (r : Row) :
  same_key chat hash r = true <-> chat_id r = chat /\ message_hash r = hash.
Proof.
  unfold same_key. now rewrite andb_true_iff, Z.eqb_eq, eqb_eq.
Qed.

Lemma filter_filter_length {A} (p q : A -> bool) (l : list A) :
  (List.length (filter p (filter q l)) <= List.length (filter p l))%nat.
Proof.
  induction l as [|x l IH]; simpl; [lia|].
  destruct (q x); simpl; destruct (p x); simpl; lia.
Qed.

Lemma filter_none {A} (p : A -> bool) (l : list A) :
  filter p (filter (fun x => negb (p x)) l) = [].
Proof.
  induction l as [|x l IH]; simpl; [reflexivity|].
  destruct (p x) eqn:E; simpl; [|rewrite E]; auto.
Qed.

(** After an INSERT OR REPLACE the key of the new row has one row. *)
Lemma insert_key_count (chat : Z) (hash text : str) (user : Z) (ts name : str) (db : Db) :
  key_count chat hash (insert_or_replace chat hash text user ts name db) = 1%nat.
Proof.
  unfold key_count, insert_or_replace; cbn [rows].
  rewrite filter_app, filter_none. cbn [filter app].
  unfold same_key at 1; cbn [chat_id message_hash].
  now rewrite Z.eqb_refl, eqb_refl.
Qed.

(** ... and no other key gains a row. *)
Lemma insert_other_key_count
      (chat chat' : Z) (hash hash' text : str) (user : Z) (ts name : str) (db : Db) :
  (chat', hash') <> (chat, hash) ->
  (key_count chat' hash' (insert_or_replace chat hash text user ts name db)
   <= key_count chat' hash' db)%nat.
Proof.
  intros Hne. unfold key_count, insert_or_replace; cbn [rows].
  rewrite filter_app, length_app. cbn [filter].
  destruct (same_key chat' hash' _) eqn:E.
  - apply same_key_spec in E as [E1 E2]; cbn [chat_id message_hash] in *.
    subst. now contradiction Hne.
  - cbn [List.length]. rewrite Nat.add_0_r. apply filter_filter_length.
Qed.

Lemma str_eq_dec (a b : str) : {a = b} + {a <> b}.
Proof. apply list_eq_dec, N.eq_dec. Qed.

Lemma insert_unique (chat : Z) (hash text : str) (user : Z) (ts name : str) (db : Db) :
  unique_keys db ->
  unique_keys (insert_or_replace chat hash text user ts name db).
Proof.
  intros H chat' hash'.
  destruct (Z.eq_dec chat' chat) as [->|N1].
  - destruct (str_eq_dec hash' hash) as [->|N2].
    + rewrite insert_key_count. lia.
    + etransitivity; [apply insert_other_key_count; congruence|apply H].
  - etransitivity; [apply insert_other_key_count; congruence|apply H].
Qed.

Lemma delete_key_count (now chat : Z) (hash : str) (db : Db) :
  (key_count chat hash (delete_old now db) <= key_count chat hash db)%nat.
Proof. unfold key_count, delete_old; cbn [rows]. apply filter_filter_length. Qed.

Lemma delete_unique (now : Z) (db : Db) :
  unique_keys db -> unique_keys (delete_old now db).
Proof.
  intros H chat hash. etransitivity; [apply delete_key_count|apply H].
Qed.

Lemma empty_unique : unique_keys empty.
Proof. intros chat hash. unfold key_count; simpl. lia. Qed.

(** A row that the lookup accepts is not one the sweep removes. *)
Lemma live_not_expired (now : Z) (r : Row) :
  is_live now r = true -> is_expired now r = false.
Proof.
  unfold is_live, is_expired, sql_gt, sql_lt.
  destruct (sqlite_datetime now (-1)) as [d1|] eqn:E1; [|discriminate].
  destruct (sqlite_datetime now (-7)) as [d7|] eqn:E7; [|reflexivity].
  apply sqlite_datetime_some in E1 as [-> Y1], E7 as [-> Y7].
  destruct (sql_numeric (timestamp r)); [discriminate|].
  intros H. apply (gtb_le_trans _ _ _ H).
  rewrite render_compare_epoch by assumption.
  replace (now + 86400 * -7 ?= now + 86400 * -1) with Lt; [discriminate|].
  symmetry; apply Z.compare_lt_iff; lia.
Qed.

Lemma find_filter_keep {A} (p q : A -> bool) (l : list A) :
  (forall x, p x = true -> q x = true) ->
  find p (filter q l) = find p l.
Proof.
  intros H. induction l as [|x l IH]; simpl; [reflexivity|].
  destruct (p x) eqn:E.
  - rewrite (H x E). simpl. now rewrite E.
  - destruct (q x); simpl; [rewrite E|]; exact IH.
Qed.

(** The sweep does not change what the lookup returns. *)
Lemma select_after_delete (now chat : Z) (hash : str) (db : Db) :
  select_live now chat hash (delete_old now db) = select_live now chat hash db.
Proof.
  unfold select_live, delete_old; cbn [rows]. f_equal.
  apply find_filter_keep. intros r H.
  apply andb_true_iff in H as [_ H]. now rewrite (live_not_expired _ _ H).
Qed.

End StoreFacts.

(* ====================================================================== *)
(** * Facts about normalizing, encoding and hashing *)
(* ====================================================================== *)

Module HashFacts.
Import PyStr.

Lemma split_from_scalar (word s : str) :
  scalar_text word -> scalar_text s -> Forall scalar_text (split_from word s).
Proof.
  revert word; induction s as [|c s IH]; intros word Hw Hs; simpl.
  - destruct word; constructor; [|constructor].
    apply Forall_rev. exact Hw.
  - inversion Hs as [|? ? Hc Hs']; subst.
    destruct (isspace c).
    + destruct word as [|x word].
      * apply IH; [constructor|assumption].
      * constructor; [apply Forall_rev; exact Hw|].
        apply IH; [constructor|assumption].
    + apply IH; [constructor|]; assumption.
Qed.

Lemma join_scalar (sep : str) (parts : list str) :
  scalar_text sep -> Forall scalar_text parts -> scalar_text (join sep parts).
Proof.
  intros Hsep Hp. destruct parts as [|p ps]; simpl; [constructor|].
  inversion Hp as [|? ? H1 H2]; subst. clear Hp.
  apply Forall_app; split; [assumption|].
  induction H2 as [|q qs Hq _ IH]; simpl; [constructor|].
  apply Forall_app; split; [|exact IH].
  apply Forall_app; split; assumption.
Qed.

Lemma ascii_lower_scalar (s : str) :
  scalar_text s -> scalar_text (map ascii_lower s).
Proof. exact (uni_lower_scalar ascii_tables s). Qed.

Lemma lower_scalar (U : UnicodeTables) (s : str) :
  scalar_text s -> scalar_text (lower U s).
Proof.
  intros H. unfold lower. destruct (forallb is_ascii s).
  - now apply ascii_lower_scalar.
  - now apply uni_lower_scalar.
Qed.

(** Text can be encoded. *)
Lemma is_scalar_spec (c : codepoint) :
  is_scalar c = true <-> (c < 0xD800 \/ (0xDFFF < c /\ c < 0x110000))%N.
Proof.
  unfold is_scalar.
  now rewrite orb_true_iff, andb_true_iff, !N.ltb_lt.
Qed.

Lemma encode_cp_scalar (c : codepoint) :
  is_scalar c = true -> exists b, encode_cp c = Some b.
Proof.
  intros H. apply is_scalar_spec in H. unfold encode_cp, in_range.
  destruct (N.ltb_spec c 0x80); [eauto|].
  destruct (N.ltb_spec c 0x800); [eauto|].
  destruct (N.ltb_spec c 0x10000).
  - destruct (N.leb_spec 0xD800 c), (N.leb_spec c 0xDFFF); simpl; eauto.
    exfalso. lia.
  - destruct (N.ltb_spec c 0x110000); [eauto|].
    exfalso. lia.
Qed.

Lemma encode_scalar (s : str) :
  scalar_text s -> exists b, encode s = Some b.
Proof.
  induction 1 as [|c s Hc _ [bs IH]]; simpl; [eauto|].
  destruct (encode_cp_scalar c Hc) as [b ->]. rewrite IH. eauto.
Qed.

(** A lone surrogate cannot. *)
Lemma encode_surrogate : encode [0xD800%N] = None.
Proof. reflexivity. Qed.

(** ** The shape of a digest *)

Lemma le_bytes_length (n : nat) (x : N) : List.length (MD5.le_bytes n x) = n.
Proof. unfold MD5.le_bytes. now rewrite length_map, length_seq. Qed.

Lemma le_bytes_small (n : nat) (x : N) :
  Forall (fun b => (b < 256)%N) (MD5.le_bytes n x).
Proof.
  unfold MD5.le_bytes. rewrite Forall_map. apply Forall_forall.
  intros k _. apply N.mod_lt. discriminate.
Qed.

Lemma digest_length (msg : list N) : List.length (MD5.digest msg) = 16%nat.
Proof. unfold MD5.digest. now rewrite !length_app, !le_bytes_length. Qed.

Lemma digest_small (msg : list N) : Forall (fun b => (b < 256)%N) (MD5.digest msg).
Proof.
  unfold MD5.digest. repeat (apply Forall_app; split); apply le_bytes_small.
Qed.

Lemma hex_char_is_hex (n : N) : (n < 16)%N -> is_hex (MD5.hex_char n) = true.
Proof.
  intros H. unfold MD5.hex_char, is_hex, in_range.
  destruct (N.ltb_spec n 10); apply orb_true_iff; [left|right];
    apply andb_true_iff; split; apply N.leb_le; lia.
Qed.

Lemma hexdigest_length (msg : list N) : List.length (MD5.hexdigest msg) = 32%nat.
Proof.
  unfold MD5.hexdigest.
  assert (H : forall l, List.length (flat_map MD5.hex_byte l) = (2 * List.length l)%nat).
  { induction l as [|b l IH]; simpl; [reflexivity|]. rewrite IH. lia. }
  now rewrite H, digest_length.
Qed.

Lemma hexdigest_hex (msg : list N) :
  Forall (fun c => is_hex c = true) (MD5.hexdigest msg).
Proof.
  unfold MD5.hexdigest.
  assert (H := digest_small msg).
  induction H as [|b l Hb _ IH]; simpl; [constructor|].
  constructor; [|constructor; [|exact IH]]; apply hex_char_is_hex.
  - apply N.Div0.div_lt_upper_bound. lia.
  - apply N.mod_lt. discriminate.
Qed.

End HashFacts.

(* ====================================================================== *)
(** * Facts about the handler *)
(* ====================================================================== *)

Module BotFacts.
Import PyStr Calendar TimeFmt Store Bot.
Import PyStrFacts CalendarFacts TimeFmtFacts StoreFacts.

Lemma passes_filter_tests (text : str) :
  passes_filter text ->
  negb (truthy text) = false /\ (len (strip text) <? 5) = false.
Proof.
  intros [H1 H2]. rewrite H1. split; [reflexivity|]. apply Z.ltb_ge. lia.
Qed.

(** Running the monad: only its own operations are unfolded. *)
Ltac run :=
  cbv beta iota zeta delta
    [try_except bind ret raise lift cursor execute_select execute_insert
     execute_delete commit reply_text now_jakarta call emit log on_db exn_of
     is_exception];
  cbn [Telegram.message Telegram.text Telegram.chat_id Telegram.from_user
       Telegram.id Telegram.first_name clock fails cancelled calm db trace
       fst snd].

Ltac start :=
  unfold handle_message, handle_message_body, text_update; run.

(** ** The clock within its range *)

Lemma clock_sqlite (now days : Z) :
  clock_ok now -> -7 <= days <= 0 ->
  1969 <= year (of_epoch (now + 86400 * days)) <= 9999.
Proof.
  unfold clock_ok, CLOCK_MIN, CLOCK_MAX. intros Hn Hd.
  apply (year_in (-604800) 253402275599); [reflexivity..|lia].
Qed.

Lemma clock_jakarta_year (now : Z) :
  clock_ok now -> 1970 <= year (jakarta_civil now) <= 9999.
Proof.
  unfold clock_ok, CLOCK_MIN, CLOCK_MAX, jakarta_civil, JAKARTA_UTCOFFSET.
  intros Hn.
  apply (year_in (0 + 7 * 3600) (253402275599 + 7 * 3600)); [reflexivity..|lia].
Qed.

Lemma clock_jakarta_valid (now : Z) :
  clock_ok now -> valid (jakarta_civil now) = true.
Proof.
  intros Hn. assert (Hy := clock_jakarta_year now Hn).
  assert (F := of_epoch_fields (now + JAKARTA_UTCOFFSET)). cbv zeta in F.
  unfold valid. fold (jakarta_civil now) in F.
  repeat (apply andb_true_iff; split); apply Z.leb_le; lia.
Qed.

(** Within its range the clock is read as it is. *)
Lemma py_clock_ok (now : Z) : clock_ok now -> py_clock now = now.
Proof.
  unfold clock_ok, py_clock. intros H. apply Z.min_l. lia.
Qed.

Section Runs.
Variable U : UnicodeTables.

(** A run in which nothing fails and the lookup finds a row, at a clock
    within its range. *)
Lemma run_duplicate (now chat user : Z) (name text hash : str) (w : World)
      (o_user : Z) (o_text o_time o_name : str) (o_dt : DateTime) :
  passes_filter text ->
  generate_message_hash U text = Some hash ->
  select_live now chat hash (db w) = Some (o_user, o_text, o_time, o_name) ->
  strptime U o_time FMT_STORED = Some o_dt ->
  clock_ok now ->
  handle_message U (text_update chat user name text) (calm now) w =
    (Ok tt,
     mkWorld (delete_old now (db w))
       (trace w ++
          [EvCursor; EvSelect chat hash;
           EvReply chat
             (response_message o_text o_name (strftime o_dt FMT_SHOWN)
                (display_name user name)
                (strftime (jakarta_civil now) FMT_SHOWN));
           EvLogInfo chat; EvDelete; EvCommit])).
Proof.
  intros Hf Hh Hs Hp Hk. apply passes_filter_tests in Hf as [F1 F2].
  start. rewrite F1, F2, Hh. run. rewrite Hs. run. rewrite Hp. run.
  rewrite (py_clock_ok now Hk), (clock_jakarta_valid now Hk). run.
  unfold display_name.
  rewrite <- !app_assoc. reflexivity.
Qed.

(** A run in which nothing fails and the lookup finds nothing. *)
Lemma run_novel (now chat user : Z) (name text hash : str) (w : World) :
  passes_filter text ->
  generate_message_hash U text = Some hash ->
  select_live now chat hash (db w) = None ->
  clock_ok now ->
  handle_message U (text_update chat user name text) (calm now) w =
    (Ok tt,
     mkWorld
       (delete_old now
          (insert_or_replace chat hash text user
             (strftime (jakarta_civil now) FMT_STORED)
             (display_name user name) (db w)))
       (trace w ++
          [EvCursor; EvSelect chat hash; EvInsert chat hash; EvCommit;
           EvDelete; EvCommit])).
Proof.
  intros Hf Hh Hs Hk. apply passes_filter_tests in Hf as [F1 F2].
  start. rewrite F1, F2, Hh. run. rewrite Hs. run.
  rewrite (py_clock_ok now Hk), (clock_jakarta_valid now Hk). run.
  unfold display_name.
  rewrite <- !app_assoc. reflexivity.
Qed.

End Runs.

(** A timestamp the handler writes is kept as text. *)
Lemma written_is_text (t0 : Z) :
  clock_ok t0 -> sql_numeric (strftime (jakarta_civil t0) FMT_STORED) = false.
Proof.
  intros H0. assert (Y0 := clock_jakarta_year t0 H0).
  rewrite strftime_sqlite by lia. apply render_not_numeric. lia.
Qed.

(** How a timestamp written at [t0] compares with SQLite's
    [datetime('now', '<days> days')]: the written text shows the Jakarta
    wall clock, SQLite's text shows UTC. *)
Lemma written_compare (t0 now days : Z) :
  clock_ok t0 -> clock_ok now -> -7 <= days <= 0 ->
  exists d,
    sqlite_datetime now days = Some d
    /\ PyStr.compare (strftime (jakarta_civil t0) FMT_STORED) d
       = (t0 + JAKARTA_UTCOFFSET ?= now + 86400 * days).
Proof.
  intros H0 Hn Hd.
  assert (Y0 := clock_jakarta_year t0 H0).
  assert (Yn := clock_sqlite now days Hn Hd).
  exists (sqlite_render (of_epoch (now + 86400 * days))). split.
  - apply sqlite_datetime_in_range. lia.
  - rewrite strftime_sqlite by lia. unfold jakarta_civil in *.
    apply render_compare_epoch; lia.
Qed.

(** The lookup accepts a timestamp written at [t0] for as long as less
    than 24 hours plus the UTC offset of Jakarta have passed. *)
Lemma written_live (t0 now : Z) (r : Row) :
  clock_ok t0 -> clock_ok now ->
  timestamp r = strftime (jakarta_civil t0) FMT_STORED ->
  is_live now r = (now - t0 <? 86400 + JAKARTA_UTCOFFSET).
Proof.
  intros H0 Hn Ht.
  destruct (written_compare t0 now (-1) H0 Hn ltac:(lia)) as (d & Ed & Ec).
  unfold is_live, sql_gt, gtb. rewrite Ed, Ht, Ec, (written_is_text t0 H0).
  destruct (Z.compare_spec (t0 + JAKARTA_UTCOFFSET) (now + 86400 * -1));
    symmetry; [apply Z.ltb_ge|apply Z.ltb_ge|apply Z.ltb_lt]; lia.
Qed.

(** The sweep removes it once more than 7 days plus that offset have
    passed. *)
Lemma written_expired (t0 now : Z) (r : Row) :
  clock_ok t0 -> clock_ok now ->
  timestamp r = strftime (jakarta_civil t0) FMT_STORED ->
  is_expired now r = (7 * 86400 + JAKARTA_UTCOFFSET <? now - t0).
Proof.
  intros H0 Hn Ht.
  destruct (written_compare t0 now (-7) H0 Hn ltac:(lia)) as (d & Ed & Ec).
  unfold is_expired, sql_lt, ltb. rewrite Ed, Ht, Ec, (written_is_text t0 H0).
  destruct (Z.compare_spec (t0 + JAKARTA_UTCOFFSET) (now + 86400 * -7));
    symmetry; [apply Z.ltb_ge|apply Z.ltb_lt|apply Z.ltb_ge]; lia.
Qed.

(** ** The row a Novel run leaves *)

Lemma find_app_skip {A} (p : A -> bool) (l1 l2 : list A) :
  (forall x, In x l1 -> p x = false) -> find p (l1 ++ l2) = find p l2.
Proof.
  induction l1 as [|x l1 IH]; intros H; simpl; [reflexivity|].
  rewrite (H x (or_introl eq_refl)). apply IH. intros y Hy. apply H. now right.
Qed.

(** The table after INSERT OR REPLACE and the sweep: the lookup for the
    key sees the new row or, when the row is not live, nothing. *)
Lemma select_after_insert
      (now0 now1 chat : Z) (hash text : str) (user : Z) (ts name : str) (d : Db) :
  sql_lt ts (sqlite_datetime now0 (-7)) = false ->
  select_live now1 chat hash
    (delete_old now0 (insert_or_replace chat hash text user ts name d))
  = if sql_gt ts (sqlite_datetime now1 (-1))
    then Some (user, text, ts, name) else None.
Proof.
  intros He. unfold select_live, delete_old, insert_or_replace; cbn [rows].
  rewrite filter_app. cbn [filter]. unfold is_expired at 2. cbn [timestamp].
  rewrite He. cbn [negb].
  rewrite find_app_skip.
  - cbn [find]. unfold is_live, same_key.
    cbn [chat_id message_hash user_id message_text timestamp user_name].
    rewrite Z.eqb_refl, eqb_refl. cbn [andb].
    now destruct (sql_gt ts (sqlite_datetime now1 (-1))).
  - intros x Hx. apply filter_In in Hx as [Hx _]. apply filter_In in Hx as [_ Hx].
    apply negb_true_iff in Hx. now rewrite Hx.
Qed.

Section Windows.
Variable U : UnicodeTables.

(** What a Novel run writes can be read back. *)
Lemma written_parses (now : Z) :
  clock_ok now ->
  strptime U (strftime (jakarta_civil now) FMT_STORED) FMT_STORED
  = Some (jakarta_civil now).
Proof.
  intros Hn. assert (Hy := clock_jakarta_year now Hn).
  rewrite strftime_sqlite by lia.
  apply strptime_render. now apply clock_jakarta_valid.
Qed.

(** The window of the lookup, measured on the clock: the row a Novel run
    stores at [now0] is what the lookup returns at [now1] exactly while
    less than 24 hours plus the 7 hours of Jakarta's UTC offset have
    passed. *)
Lemma lookup_window (now0 now1 chat user : Z) (name text hash : str) (w : World) :
  clock_ok now0 -> clock_ok now1 ->
  passes_filter text ->
  generate_message_hash U text = Some hash ->
  select_live now0 chat hash (db w) = None ->
  select_live now1 chat hash
    (db (snd (handle_message U (text_update chat user name text) (calm now0) w)))
  = if now1 - now0 <? 86400 + JAKARTA_UTCOFFSET
    then Some (user, text, strftime (jakarta_civil now0) FMT_STORED,
               display_name user name)
    else None.
Proof.
  intros H0 H1 Hf Hh Hs.
  rewrite (run_novel U now0 chat user name text hash w Hf Hh Hs)
    by assumption.
  cbn [snd db].
  set (r := mkRow 0 chat hash text user
              (strftime (jakarta_civil now0) FMT_STORED) (display_name user name)).
  assert (L := written_live now0 now1 r H0 H1 eq_refl).
  assert (E := written_expired now0 now0 r H0 H0 eq_refl).
  unfold is_live, is_expired in L, E. cbn [timestamp r] in L, E.
  rewrite select_after_insert, L; [reflexivity|].
  rewrite E. apply Z.ltb_ge. unfold JAKARTA_UTCOFFSET. lia.
Qed.

(** The horizon of the sweep, measured on the clock: the DELETE at
    [now1] removes a row written at [now0] exactly when more than 7 days
    plus those 7 hours have passed. *)
Lemma sweep_horizon (now0 now1 : Z) (r : Row) (d : Db) :
  clock_ok now0 -> clock_ok now1 ->
  timestamp r = strftime (jakarta_civil now0) FMT_STORED ->
  In r (rows d) ->
  In r (rows (delete_old now1 d))
  <-> now1 - now0 <= 7 * 86400 + JAKARTA_UTCOFFSET.
Proof.
  intros H0 H1 Ht Hin. unfold delete_old; cbn [rows].
  rewrite filter_In, (written_expired now0 now1 r H0 H1 Ht), negb_true_iff, Z.ltb_ge.
  tauto.
Qed.

End Windows.

End BotFacts.

(* ====================================================================== *)
(** * The properties of the specification *)
(* ====================================================================== *)

Module Spec.
Import PyStr Calendar TimeFmt Store Bot.
Import PyStrFacts CalendarFacts TimeFmtFacts StoreFacts HashFacts BotFacts.

(** Case analysis on everything a run depends on. *)
Ltac branch :=
  match goal with
  | |- context [fails ?e ?o] => destruct (fails e o) eqn:?
  | |- context [match ?x with Some _ => _ | None => _ end] => destruct x eqn:?
  | |- context [if ?b then _ else _] => destruct b eqn:?
  | |- context [let (_, _) := ?p in _] => is_var p; destruct p
  end; run.

(** C1, at the failing input.  Ann's row was written at [T0].  One
    second more than 24 hours later the lookup still returns it, and Bob,
    who repeats the text then, is told it is a duplicate: the stored text
    shows the Jakarta wall clock while [datetime('now', '-1 day')] shows
    UTC, so the window is 24 hours plus the 7 hours between the two. *)
Theorem C1_lookup_returns_row_older_than_24h :
  select_live (T0 + 86400 + 1) (-100) HELLO_HASH (db world_after_ann)
  = Some ann_record
  /\ (exists notice,
        trace (snd (handle_message ascii_tables
                      (text_update (-100) 8 (lit "Bob") (lit "hello   world"))
                      (calm (T0 + 86400 + 1)) world_after_ann))
        = trace world_after_ann
            ++ [EvCursor; EvSelect (-100) HELLO_HASH; EvReply (-100) notice;
                EvLogInfo (-100); EvDelete; EvCommit])
  /\ select_live (T0 + 86400 + 7 * 3600) (-100) HELLO_HASH (db world_after_ann)
     = None.
Proof.
  split; [vm_compute; reflexivity|]. split; [|vm_compute; reflexivity].
  eexists. vm_compute. reflexivity.
Qed.

(** C2, at the failing input.  One second more than 7 days after Ann's
    row was written the sweep leaves it in the table; the run of the
    handler for a new text from Bob at that moment ends with Ann's row
    still stored.  The sweep removes the row only when more than 7 days
    and 7 hours have passed. *)
Theorem C2_sweep_keeps_row_older_than_7d :
  rows (delete_old (T0 + 7 * 86400 + 1) (db world_after_ann)) = [ann_row]
  /\ In ann_row
       (rows (db (snd (handle_message ascii_tables
                         (text_update (-100) 8 (lit "Bob") (lit "something new"))
                         (calm (T0 + 7 * 86400 + 1)) world_after_ann))))
  /\ rows (delete_old (T0 + 7 * 86400 + 7 * 3600 + 1) (db world_after_ann)) = [].
Proof.
  split; [vm_compute; reflexivity|]. split; [|vm_compute; reflexivity].
  vm_compute. left. reflexivity.
Qed.

(** C3. When the lookup finds a live row for the key of the message, the
    run stores nothing: no INSERT is issued, the table is either left as
    it was or is the old table without the rows the sweep removes, the
    sweep removes none but rows it finds expired, and the lookup for the
    key still returns the same row with the same user, text, timestamp
    and name.  This holds in all surroundings, also when a call fails. *)
Theorem C3_duplicate_hit_stores_nothing
  (U : UnicodeTables) (env : Env) (w : World)
  (chat user : Z) (name text hash : str) (found : Z * str * str * str) :
  generate_message_hash U text = Some hash ->
  select_live (clock env) chat hash (db w) = Some found ->
  let w' := snd (handle_message U (text_update chat user name text) env w) in
  (exists evs, trace w' = trace w ++ evs
               /\ forall c h, ~ In (EvInsert c h) evs)
  /\ (db w' = db w \/ db w' = delete_old (clock env) (db w))
  /\ (forall r, In r (rows (db w')) -> In r (rows (db w)))
  /\ (forall r, In r (rows (db w)) -> ~ In r (rows (db w')) ->
                is_expired (clock env) r = true)
  /\ select_live (clock env) chat hash (db w') = Some found.
Proof.
  intros Hh Hs w'.
  assert (Shape :
    (exists evs, trace w' = trace w ++ evs /\ forall c h, ~ In (EvInsert c h) evs)
    /\ (db w' = db w \/ db w' = delete_old (clock env) (db w))).
  { subst w'. start.
    destruct (negb (truthy text));
      [run; split; [exists []; rewrite app_nil_r; auto|auto]|].
    destruct (len (strip text) <? 5);
      [run; split; [exists []; rewrite app_nil_r; auto|auto]|].
    rewrite Hh. run.
    destruct (fails env OpCursor); run;
      [split; [eexists; split; [reflexivity|]|auto];
       simpl; intros c h [E|[]]; discriminate|].
    destruct (fails env OpSelect); run;
      [split; [eexists; split; [rewrite <- app_assoc; reflexivity|]|auto];
       simpl; intros c h [E|[E|[]]]; discriminate|].
    rewrite Hs. destruct found as [[[ou ot] ots] oun]. run.
    repeat branch;
      (split;
       [eexists; split; [rewrite <- ?app_assoc; reflexivity|];
        simpl; intros c h E;
        repeat (destruct E as [E|E]; [discriminate|]); exact E
       |auto]). }
  destruct Shape as [Ev Db]. split; [exact Ev|]. split; [exact Db|].
  destruct Db as [-> | ->]; cbn [delete_old rows].
  - repeat split; auto.
  - split; [|split].
    + intros r H. now apply filter_In in H.
    + intros r H1 H2. destruct (is_expired (clock env) r) eqn:E; [reflexivity|].
      exfalso. apply H2. apply filter_In. now rewrite E.
    + rewrite <- Hs. apply select_after_delete.
Qed.

Lemma C3_duplicate_hit_stores_nothing_witness :
  generate_message_hash ascii_tables (lit "hello   world") = Some HELLO_HASH
  /\ select_live (T0 + 3600) (-100) HELLO_HASH (db world_after_ann) = Some ann_record
  /\ select_live (T0 + 3600) (-100) HELLO_HASH
       (db (snd (handle_message ascii_tables
                   (text_update (-100) 8 (lit "Bob") (lit "hello   world"))
                   (calm (T0 + 3600)) world_after_ann)))
     = Some ann_record.
Proof.
  assert (H1 : generate_message_hash ascii_tables (lit "hello   world") = Some HELLO_HASH)
    by (vm_compute; reflexivity).
  assert (H2 : select_live (T0 + 3600) (-100) HELLO_HASH (db world_after_ann) = Some ann_record)
    by (vm_compute; reflexivity).
  split; [exact H1|]. split; [exact H2|].
  exact (proj2 (proj2 (proj2 (proj2
    (C3_duplicate_hit_stores_nothing ascii_tables (calm (T0 + 3600))
       world_after_ann (-100) 8 (lit "Bob") (lit "hello   world")
       HELLO_HASH ann_record H1 H2))))).
Defined.

(** The runs of the handler keep [UNIQUE(chat_id, message_hash)]. *)
Lemma handle_message_db_shape (U : UnicodeTables) (upd : Telegram.Update)
      (env : Env) (w : World) :
  let d' := db (snd (handle_message U upd env w)) in
  d' = db w \/ d' = delete_old (clock env) (db w)
  \/ exists chat hash text user ts name,
       d' = insert_or_replace chat hash text user ts name (db w)
       \/ d' = delete_old (clock env)
                 (insert_or_replace chat hash text user ts name (db w)).
Proof.
  destruct upd as [[[chat [user name] [text|]]|]];
    unfold handle_message, handle_message_body; run; auto.
  repeat branch; auto;
    right; right; do 6 eexists; (left; reflexivity) || (right; reflexivity).
Qed.

(** C4. At most one row per (chat_id, message_hash): the empty table has
    the property, every run of the handler keeps it, whatever the update
    and the surroundings, and after one or more INSERT OR REPLACE
    statements for a key the table holds exactly one row for it. *)
Theorem C4_one_row_per_key
  (U : UnicodeTables) (upd : Telegram.Update) (env : Env) (w : World) :
  unique_keys (db w) ->
  unique_keys Store.empty
  /\ unique_keys (db (snd (handle_message U upd env w)))
  /\ forall chat hash first rest d,
       key_count chat hash (upsert_all chat hash (first :: rest) d) = 1%nat.
Proof.
  intros H. split; [apply empty_unique|]. split.
  - destruct (handle_message_db_shape U upd env w)
      as [->|[->|(c & h & t & u & ts & n & [->| ->])]]; auto using
      insert_unique, delete_unique.
  - intros chat hash first rest. revert first.
    induction rest as [|x rest IH]; intros [[[t u] ts] n] d.
    + apply insert_key_count.
    + apply (IH x).
Qed.

Lemma C4_one_row_per_key_witness :
  unique_keys (db world_after_ann)
  /\ In (EvInsert (-100) HELLO_HASH)
        (skipn (List.length (trace world_after_ann))
           (trace (snd (handle_message ascii_tables
                          (text_update (-100) 8 (lit "Bob") (lit "hello   world"))
                          (calm (T0 + 31 * 3600)) world_after_ann))))
  /\ unique_keys
       (db (snd (handle_message ascii_tables
                   (text_update (-100) 8 (lit "Bob") (lit "hello   world"))
                   (calm (T0 + 31 * 3600)) world_after_ann)))
  /\ key_count (-100) HELLO_HASH
       (upsert_all (-100) HELLO_HASH
          [(lit "Hello World", 7, lit "2026-11-04 00:32:20", lit "Ann");
           (lit "hello   world", 8, lit "2026-11-05 07:32:20", lit "Bob")]
          (db world_after_ann))
     = 1%nat.
Proof.
  assert (H : unique_keys (db world_after_ann)).
  { intros chat hash. unfold key_count. vm_compute rows. cbn [filter].
    destruct (same_key chat hash _); simpl; lia. }
  split; [exact H|]. split; [vm_compute; tauto|].
  split.
  - exact (proj1 (proj2 (C4_one_row_per_key ascii_tables
      (text_update (-100) 8 (lit "Bob") (lit "hello   world"))
      (calm (T0 + 31 * 3600)) world_after_ann H))).
  - exact (proj2 (proj2 (C4_one_row_per_key ascii_tables
      (text_update (-100) 8 (lit "Bob") (lit "hello   world"))
      (calm (T0 + 31 * 3600)) world_after_ann H))
      (-100) HELLO_HASH
      (lit "Hello World", 7, lit "2026-11-04 00:32:20", lit "Ann")
      [(lit "hello   world", 8, lit "2026-11-05 07:32:20", lit "Bob")]
      (db world_after_ann)).
Defined.

(** C5. A text of fewer than five characters after stripping is dropped
    without a trace: the handler returns normally and the world (the
    table and the record of every outside call, reply and log line) is
    what it was, whatever the surroundings. *)
Theorem C5_short_text_is_dropped
  (U : UnicodeTables) (env : Env) (w : World)
  (chat user : Z) (name text : str) :
  len (strip text) < 5 ->
  handle_message U (text_update chat user name text) env w = (Ok tt, w).
Proof.
  intros H. apply Z.ltb_lt in H. start.
  destruct (negb (truthy text)); [reflexivity|]. now rewrite H.
Qed.

Lemma C5_short_text_is_dropped_witness :
  len (strip (lit "  hi ")) < 5
  /\ handle_message ascii_tables (text_update (-100) 7 (lit "Ann") (lit "  hi "))
       (calm 1793727140) (mkWorld Store.empty [])
     = (Ok tt, mkWorld Store.empty []).
Proof.
  split; [vm_compute; reflexivity|].
  apply (C5_short_text_is_dropped ascii_tables). vm_compute; reflexivity.
Defined.

(** C6, as stated, fails: a Python [str] may hold a lone surrogate, which
    lowercasing, splitting and joining leave in place and [encode()]
    refuses, so this string has no digest ([UnicodeEncodeError]). *)
Lemma C6_lone_surrogate_has_no_digest :
  generate_message_hash ascii_tables [0xD800%N] = None.
Proof. reflexivity. Qed.

(** C6, amended. The fingerprint is a function of the normalized form
    alone: two strings with the same normalized form have the same
    result, for instance "Hi  There" and "hi there"; and for every text
    of Unicode scalar values (no lone surrogate) the result is a digest
    of 32 hexadecimal digits. *)
Theorem C6_fingerprint_respects_normalization
  (U : UnicodeTables) (x y : str) :
  (normalize U x = normalize U y ->
   generate_message_hash U x = generate_message_hash U y)
  /\ (scalar_text x ->
      exists d,
        generate_message_hash U x = Some d
        /\ List.length d = 32%nat
        /\ Forall (fun c => is_hex c = true) d)
  /\ generate_message_hash U (lit "Hi  There")
     = generate_message_hash U (lit "hi there").
Proof.
  split; [|split].
  - intros E. unfold generate_message_hash. now rewrite E.
  - intros Hx.
    assert (Hn : scalar_text (normalize U x)).
    { unfold normalize. apply join_scalar.
      - repeat constructor.
      - apply split_from_scalar; [constructor|]. now apply lower_scalar. }
    destruct (encode_scalar _ Hn) as [b Hb].
    exists (MD5.hexdigest b). unfold generate_message_hash.
    rewrite Hb. cbn [option_map].
    split; [reflexivity|]. split; [apply hexdigest_length|apply hexdigest_hex].
  - vm_compute. reflexivity.
Qed.

Lemma C6_fingerprint_respects_normalization_witness :
  normalize ascii_tables (lit "Hi  There") = normalize ascii_tables (lit " hi there ")
  /\ scalar_text (lit "Hi  There")
  /\ generate_message_hash ascii_tables (lit "Hi  There")
     = generate_message_hash ascii_tables (lit " hi there ")
  /\ exists d,
       generate_message_hash ascii_tables (lit "Hi  There") = Some d
       /\ List.length d = 32%nat
       /\ Forall (fun c => is_hex c = true) d.
Proof.
  assert (H1 : normalize ascii_tables (lit "Hi  There")
               = normalize ascii_tables (lit " hi there "))
    by (vm_compute; reflexivity).
  assert (H2 : scalar_text (lit "Hi  There")) by (repeat constructor).
  split; [exact H1|]. split; [exact H2|].
  split.
  - exact (proj1 (C6_fingerprint_respects_normalization ascii_tables
                    (lit "Hi  There") (lit " hi there ")) H1).
  - exact (proj1 (proj2 (C6_fingerprint_respects_normalization ascii_tables
                           (lit "Hi  There") (lit " hi there "))) H2).
Defined.

(** C7. A text is posted and stored; within 24 hours a text with the
    same fingerprint is posted in the same chat.  The lookup, which does
    not read the sender, returns the stored row, and whoever posts, the
    author of the stored row included, the run sends the notice and
    sweeps.  Both clocks are within the range in which [datetime.now()]
    follows the system clock (from 1970 to 2262-04-11 23:47:16 UTC). *)
Theorem C7_repost_is_duplicate_for_any_sender
  (U : UnicodeTables) (now0 now1 chat user user2 : Z)
  (name text name2 text2 hash : str) (w : World) :
  clock_ok now0 -> clock_ok now1 ->
  now0 <= now1 < now0 + 86400 ->
  passes_filter text -> passes_filter text2 ->
  generate_message_hash U text = Some hash ->
  generate_message_hash U text2 = Some hash ->
  select_live now0 chat hash (db w) = None ->
  let w1 := snd (handle_message U (text_update chat user name text) (calm now0) w) in
  let w2 := snd (handle_message U (text_update chat user2 name2 text2) (calm now1) w1) in
  select_live now1 chat hash (db w1)
    = Some (user, text, strftime (jakarta_civil now0) FMT_STORED,
            display_name user name)
  /\ exists notice,
       trace w2 = trace w1 ++ [EvCursor; EvSelect chat hash; EvReply chat notice;
                               EvLogInfo chat; EvDelete; EvCommit].
Proof.
  intros H0 H1 Hw Hf Hf2 Hh Hh2 Hs w1 w2.
  assert (L : select_live now1 chat hash (db w1)
              = Some (user, text, strftime (jakarta_civil now0) FMT_STORED,
                      display_name user name)).
  { subst w1. rewrite lookup_window by assumption.
    replace (now1 - now0 <? 86400 + JAKARTA_UTCOFFSET) with true; [reflexivity|].
    symmetry. apply Z.ltb_lt. unfold JAKARTA_UTCOFFSET. lia. }
  split; [exact L|]. subst w2.
  rewrite (run_duplicate U now1 chat user2 name2 text2 hash w1 _ _ _ _ _
             Hf2 Hh2 L (written_parses U now0 H0) H1).
  eexists. reflexivity.
Qed.

Lemma C7_repost_is_duplicate_for_any_sender_witness :
  exists notice,
    trace (snd (handle_message ascii_tables
                  (text_update (-100) 7 (lit "Ann") (lit "hello world"))
                  (calm (T0 + 3600)) world_after_ann))
    = trace world_after_ann
        ++ [EvCursor; EvSelect (-100) HELLO_HASH; EvReply (-100) notice;
            EvLogInfo (-100); EvDelete; EvCommit].
Proof.
  assert (H0 : clock_ok T0) by (unfold clock_ok, CLOCK_MIN, CLOCK_MAX, T0; lia).
  assert (H1 : clock_ok (T0 + 3600))
    by (unfold clock_ok, CLOCK_MIN, CLOCK_MAX, T0; lia).
  assert (Hw : T0 <= T0 + 3600 < T0 + 86400) by lia.
  assert (F1 : passes_filter (lit "Hello World"))
    by (split; [reflexivity|vm_compute; discriminate]).
  assert (F2 : passes_filter (lit "hello world"))
    by (split; [reflexivity|vm_compute; discriminate]).
  assert (G1 : generate_message_hash ascii_tables (lit "Hello World") = Some HELLO_HASH)
    by (vm_compute; reflexivity).
  assert (G2 : generate_message_hash ascii_tables (lit "hello world") = Some HELLO_HASH)
    by (vm_compute; reflexivity).
  assert (N : select_live T0 (-100) HELLO_HASH (db (mkWorld Store.empty [])) = None)
    by reflexivity.
  exact (proj2 (C7_repost_is_duplicate_for_any_sender ascii_tables T0 (T0 + 3600)
                  (-100) 7 7 (lit "Ann") (lit "Hello World") (lit "Ann")
                  (lit "hello world") HELLO_HASH (mkWorld Store.empty [])
                  H0 H1 Hw F1 F2 G1 G2 N)).
Defined.











(** C10. The timestamp a Novel run stores is read back by [strptime]
    with the stored format as the very date and time that was written,
    and the shown format renders that date and time with the same
    digits, [/] standing where the stored text has [-].  The clock is
    within the range in which [datetime.now()] follows the system clock
    (from 1970 to 2262-04-11 23:47:16 UTC). *)
Theorem C10_stored_timestamp_round_trip
  (U : UnicodeTables) (now chat user : Z) (name text hash : str) (w : World) :
  clock_ok now ->
  passes_filter text ->
  generate_message_hash U text = Some hash ->
  select_live now chat hash (db w) = None ->
  let written := strftime (jakarta_civil now) FMT_STORED in
  let w' := snd (handle_message U (text_update chat user name text) (calm now) w) in
  select_live now chat hash (db w')
    = Some (user, text, written, display_name user name)
  /\ strptime U written FMT_STORED = Some (jakarta_civil now)
  /\ strftime (jakarta_civil now) FMT_SHOWN = dash_to_slash written.
Proof.
  intros Hn Hf Hh Hs written w'. split; [|split].
  - subst w'. rewrite lookup_window by assumption.
    replace (now - now) with 0 by lia. reflexivity.
  - now apply written_parses.
  - apply strftime_shown_stored.
    assert (Hy := clock_jakarta_year now Hn). lia.
Qed.

Lemma C10_stored_timestamp_round_trip_witness :
  clock_ok T0
  /\ passes_filter (lit "Hello World")
  /\ generate_message_hash ascii_tables (lit "Hello World") = Some HELLO_HASH
  /\ select_live T0 (-100) HELLO_HASH (db (mkWorld Store.empty [])) = None
  /\ strptime ascii_tables (strftime (jakarta_civil T0) FMT_STORED) FMT_STORED
     = Some (jakarta_civil T0)
  /\ strftime (jakarta_civil T0) FMT_SHOWN
     = dash_to_slash (strftime (jakarta_civil T0) FMT_STORED).
Proof.
  assert (H1 : clock_ok T0) by (unfold clock_ok, CLOCK_MIN, CLOCK_MAX, T0; lia).
  assert (H2 : passes_filter (lit "Hello World"))
    by (split; [reflexivity|vm_compute; discriminate]).
  assert (H3 : generate_message_hash ascii_tables (lit "Hello World") = Some HELLO_HASH)
    by (vm_compute; reflexivity).
  assert (H4 : select_live T0 (-100) HELLO_HASH (db (mkWorld Store.empty [])) = None)
    by reflexivity.
  repeat (split; [assumption|]).
  exact (proj2 (C10_stored_timestamp_round_trip ascii_tables T0 (-100) 7
                  (lit "Ann") (lit "Hello World") HELLO_HASH
                  (mkWorld Store.empty []) H1 H2 H3 H4)).
Defined.

End Spec.

(* ====================================================================== *)
(** * Further properties of the handler *)
(* ====================================================================== *)

Module HandlerProps.
Import PyStr Calendar TimeFmt Store Bot Notions.
Import PyStrFacts CalendarFacts TimeFmtFacts StoreFacts HashFacts BotFacts.

Ltac split_run :=
  match goal with
  | |- context [fails ?e ?o] => destruct (fails e o) eqn:?
  | |- context [match ?x with Some _ => _ | None => _ end] => destruct x eqn:?
  | |- context [if ?b then _ else _] => destruct b eqn:?
  | |- context [let (_, _) := ?p in _] => is_var p; destruct p
  end; run.

(** Membership in an explicit list of events, decided by looking. *)
Ltac no_such_event H :=
  simpl in H; repeat (destruct H as [H|H]; [try discriminate|]); try contradiction.

(** ** Texts the handler does not take up *)

(** X1. The handler leaves the world exactly as it found it (no database
    call, no reply, no log line) if and only if the update has no
    message, or the message has no text, or the text has fewer than five
    characters once stripped; every other update leaves at least one
    event behind, whatever fails. *)
Theorem X1_ignored_exactly_when_short
  (U : UnicodeTables) (upd : Telegram.Update) (env : Env) (w : World) :
  snd (handle_message U upd env w) = w
  <-> (forall m t, Telegram.message upd = Some m -> Telegram.text m = Some t ->
                   len (strip t) < 5).
Proof.
  destruct upd as [[[chat [user name] [text|]]|]];
    unfold handle_message, handle_message_body; run;
    try (split; [intros _ m t E; try discriminate E;
                 injection E as <-; discriminate|reflexivity]).
  assert (Grow : forall evs, evs <> [] ->
            {| db := db w; trace := trace w ++ evs |} <> w).
  { intros evs Hne E. apply (f_equal trace) in E. cbn [trace] in E.
    rewrite <- (app_nil_r (trace w)) in E at 2.
    apply app_inv_head in E. contradiction. }
  destruct (truthy text) eqn:Ht; cbn [negb].
  - destruct (Z.ltb_spec (len (strip text)) 5) as [Hl|Hl].
    + split; [|reflexivity]. intros _ m t [= <-] [= <-]. exact Hl.
    + split.
      * intros E. exfalso. revert E.
        repeat split_run;
          try (rewrite <- ?app_assoc; apply Grow; discriminate);
          intros E; apply (f_equal trace) in E; cbn [trace] in E;
          rewrite <- ?app_assoc in E;
          rewrite <- (app_nil_r (trace w)) in E at 2;
          apply app_inv_head in E; discriminate.
      * intros H. specialize (H _ _ eq_refl eq_refl). lia.
  - split; [|reflexivity]. intros _ m t [= <-] [= <-].
    destruct text; [vm_compute; reflexivity|discriminate].
Qed.

(** ** Failures before the lookup and in reading the stored row *)

(** X2. A text that passes the filter but cannot be encoded (it holds a
    lone surrogate) is given up before the database is touched: the only
    thing the run does is log the [UnicodeEncodeError]. *)
Theorem X2_unencodable_text_only_logs
  (U : UnicodeTables) (env : Env) (w : World)
  (chat user : Z) (name text : str) :
  passes_filter text ->
  generate_message_hash U text = None ->
  handle_message U (text_update chat user name text) env w
  = (Ok tt, mkWorld (db w) (trace w ++ [EvLogError UnicodeEncodeError])).
Proof.
  intros Hf Hh. apply passes_filter_tests in Hf as [F1 F2].
  start. rewrite F1, F2, Hh. run. reflexivity.
Qed.

Lemma X2_unencodable_text_only_logs_witness :
  passes_filter (lit "abcd" ++ [0xD800%N])
  /\ generate_message_hash ascii_tables (lit "abcd" ++ [0xD800%N]) = None
  /\ handle_message ascii_tables
       (text_update (-100) 7 (lit "Ann") (lit "abcd" ++ [0xD800%N]))
       (calm T0) world_after_ann
     = (Ok tt, mkWorld (db world_after_ann)
                 (trace world_after_ann ++ [EvLogError UnicodeEncodeError])).
Proof.
  assert (H1 : passes_filter (lit "abcd" ++ [0xD800%N]))
    by (split; [reflexivity|vm_compute; discriminate]).
  assert (H2 : generate_message_hash ascii_tables (lit "abcd" ++ [0xD800%N]) = None)
    by (vm_compute; reflexivity).
  split; [exact H1|]. split; [exact H2|].
  exact (X2_unencodable_text_only_logs ascii_tables (calm T0) world_after_ann
           (-100) 7 (lit "Ann") (lit "abcd" ++ [0xD800%N]) H1 H2).
Defined.

(** X3. When the lookup returns a row whose stored timestamp [strptime]
    cannot read, the run ends there: the [ValueError] is logged, no reply
    is sent, the sweep is not run and the table is left as it was, so the
    same happens again for the next message with this fingerprint. *)
Theorem X3_unreadable_timestamp_blocks_the_notice
  (U : UnicodeTables) (env : Env) (w : World)
  (chat user : Z) (name text hash : str)
  (o_user : Z) (o_text o_time o_name : str) :
  passes_filter text ->
  generate_message_hash U text = Some hash ->
  fails env OpCursor = false -> fails env OpSelect = false ->
  select_live (clock env) chat hash (db w) = Some (o_user, o_text, o_time, o_name) ->
  strptime U o_time FMT_STORED = None ->
  let w' := snd (handle_message U (text_update chat user name text) env w) in
  w' = mkWorld (db w)
         (trace w ++ [EvCursor; EvSelect chat hash; EvLogError ValueError])
  /\ select_live (clock env) chat hash (db w')
     = Some (o_user, o_text, o_time, o_name).
Proof.
  intros Hf Hh Hc Hs Hl Hp w'. subst w'.
  apply passes_filter_tests in Hf as [F1 F2].
  start. rewrite F1, F2, Hh. run. rewrite Hc. run. rewrite Hs. run.
  rewrite Hl. run. rewrite Hp. run.
  rewrite <- !app_assoc. split; [reflexivity|exact Hl].
Qed.

Lemma X3_unreadable_timestamp_blocks_the_notice_witness :
  let w := mkWorld
             (mkDb [mkRow 1 (-100) HELLO_HASH (lit "Hello World") 7
                          (lit "2026-11-04T00:32:20") (lit "Ann")] 1) [] in
  select_live (T0 + 3600) (-100) HELLO_HASH (db w)
  = Some (7, lit "Hello World", lit "2026-11-04T00:32:20", lit "Ann")
  /\ strptime ascii_tables (lit "2026-11-04T00:32:20") FMT_STORED = None
  /\ snd (handle_message ascii_tables
            (text_update (-100) 8 (lit "Bob") (lit "hello world"))
            (calm (T0 + 3600)) w)
     = mkWorld (db w)
         [EvCursor; EvSelect (-100) HELLO_HASH; EvLogError ValueError].
Proof.
  intros w.
  assert (H1 : passes_filter (lit "hello world"))
    by (split; [reflexivity|vm_compute; discriminate]).
  assert (H2 : generate_message_hash ascii_tables (lit "hello world") = Some HELLO_HASH)
    by (vm_compute; reflexivity).
  assert (H3 : select_live (clock (calm (T0 + 3600))) (-100) HELLO_HASH (db w)
               = Some (7, lit "Hello World", lit "2026-11-04T00:32:20", lit "Ann"))
    by (vm_compute; reflexivity).
  assert (H4 : strptime ascii_tables (lit "2026-11-04T00:32:20") FMT_STORED = None)
    by (vm_compute; reflexivity).
  split; [exact H3|]. split; [exact H4|].
  exact (proj1 (X3_unreadable_timestamp_blocks_the_notice ascii_tables
                  (calm (T0 + 3600)) w (-100) 8 (lit "Bob") (lit "hello world")
                  HELLO_HASH 7 (lit "Hello World") (lit "2026-11-04T00:32:20")
                  (lit "Ann") H1 H2 eq_refl eq_refl H3 H4)).
Defined.

(** ** What a run may do to the table and to the chat *)

(** The table after a run, with the key the run works on. *)
Lemma run_db_shape (U : UnicodeTables) (env : Env) (w : World)
      (chat user : Z) (name text : str) :
  let d' := db (snd (handle_message U (text_update chat user name text) env w)) in
  d' = db w \/ d' = delete_old (clock env) (db w)
  \/ exists hash ts,
       generate_message_hash U text = Some hash
       /\ select_live (clock env) chat hash (db w) = None
       /\ (d' = insert_or_replace chat hash text user ts (display_name user name) (db w)
           \/ d' = delete_old (clock env)
                     (insert_or_replace chat hash text user ts
                        (display_name user name) (db w))).
Proof.
  start. unfold display_name.
  repeat split_run; auto;
    right; right; do 2 eexists; (split; [reflexivity|]);
    (split; [eassumption|]); (left; reflexivity) || (right; reflexivity).
Qed.

Lemma find_app {A} (p : A -> bool) (l1 l2 : list A) :
  find p (l1 ++ l2) = match find p l1 with Some x => Some x | None => find p l2 end.
Proof.
  induction l1 as [|x l1 IH]; simpl; [reflexivity|]. now destruct (p x).
Qed.

(** INSERT OR REPLACE for one key does not change what the lookup
    returns for another. *)
Lemma select_insert_other
      (now chat chat' : Z) (hash hash' text : str) (user : Z) (ts name : str) (d : Db) :
  (chat', hash') <> (chat, hash) ->
  select_live now chat' hash' (insert_or_replace chat hash text user ts name d)
  = select_live now chat' hash' d.
Proof.
  intros Hne. unfold select_live, insert_or_replace; cbn [rows]. f_equal.
  rewrite find_app. rewrite find_filter_keep.
  - destruct (find _ (rows d)); [reflexivity|]. cbn [find].
    destruct (same_key chat' hash' _) eqn:E; [|reflexivity].
    apply same_key_spec in E as [E1 E2]; cbn [chat_id message_hash] in *.
    subst. now contradiction Hne.
  - intros r H. apply andb_true_iff in H as [H _].
    apply same_key_spec in H as [<- <-].
    apply negb_true_iff. destruct (same_key chat hash r) eqn:E; [|reflexivity].
    apply same_key_spec in E as [E1 E2]. subst. now contradiction Hne.
Qed.

(** X4. Chats and fingerprints are kept apart: a run for a message of
    one chat and fingerprint never changes what the lookup returns for
    any other chat or any other fingerprint, whatever fails. *)
Theorem X4_other_keys_are_untouched
  (U : UnicodeTables) (env : Env) (w : World)
  (chat user : Z) (name text : str) (chat' : Z) (hash' : str) :
  chat' <> chat \/ generate_message_hash U text <> Some hash' ->
  select_live (clock env) chat' hash'
    (db (snd (handle_message U (text_update chat user name text) env w)))
  = select_live (clock env) chat' hash' (db w).
Proof.
  intros Hne.
  destruct (run_db_shape U env w chat user name text)
    as [->|[->|(hash & ts & Hh & _ & [->| ->])]].
  - reflexivity.
  - apply select_after_delete.
  - apply select_insert_other. intros [= -> ->]. destruct Hne; congruence.
  - rewrite select_after_delete.
    apply select_insert_other. intros [= -> ->]. destruct Hne; congruence.
Qed.

Lemma X4_other_keys_are_untouched_witness :
  select_live (T0 + 60) (-100) HELLO_HASH
    (db (snd (handle_message ascii_tables
                (text_update (-200) 8 (lit "Bob") (lit "hello world"))
                (calm (T0 + 60)) world_after_ann)))
  = select_live (T0 + 60) (-100) HELLO_HASH (db world_after_ann).
Proof.
  apply (X4_other_keys_are_untouched ascii_tables (calm (T0 + 60)) world_after_ann
           (-200) 8 (lit "Bob") (lit "hello world") (-100) HELLO_HASH).
  left. discriminate.
Defined.

(** X5. A run replies at most once and stores at most once, and never
    does both: a reply is sent only in the chat of the message and only
    when the lookup found a live row for its fingerprint; a row is stored
    only under the key of the message and only when the lookup found
    none.  This holds whatever fails. *)
Theorem X5_reply_and_insert_exclude_each_other
  (U : UnicodeTables) (env : Env) (w : World)
  (chat user : Z) (name text : str) :
  exists evs,
    trace (snd (handle_message U (text_update chat user name text) env w))
    = trace w ++ evs
    /\ (forall c body, In (EvReply c body) evs ->
          c = chat
          /\ (exists hash found,
                generate_message_hash U text = Some hash
                /\ select_live (clock env) chat hash (db w) = Some found)
          /\ forall c' h', ~ In (EvInsert c' h') evs)
    /\ (forall c h, In (EvInsert c h) evs ->
          c = chat
          /\ generate_message_hash U text = Some h
          /\ select_live (clock env) chat h (db w) = None)
    /\ (List.length (filter (fun e => match e with
                                      | EvReply _ _ | EvInsert _ _ => true
                                      | _ => false
                                      end) evs) <= 1)%nat.
Proof.
  start.
  repeat split_run;
    (eexists; split;
     [first [rewrite <- ?app_assoc; reflexivity|symmetry; apply app_nil_r]|]);
    (split; [|split]);
    lazymatch goal with
    | |- forall c body, In (EvReply c body) _ -> _ =>
        intros c body H; no_such_event H;
        try (injection H as <- <-;
             split; [reflexivity|];
             split; [do 2 eexists; split; [reflexivity|eassumption]|];
             intros c' h' H'; no_such_event H')
    | |- forall c h, In (EvInsert c h) _ -> _ =>
        intros c h H; no_such_event H;
        try (injection H as <- <-; auto)
    | |- _ => cbn; lia
    end.
Qed.

(** ** Row ids *)

Lemma max_id_bound (l : list Row) (r : Row) : In r l -> id r <= max_id l.
Proof.
  induction l as [|x l IH]; simpl; [contradiction|].
  intros [->|H]; [lia|]. specialize (IH H). lia.
Qed.

(** Removing rows keeps the ids distinct. *)
Lemma ids_filter (keep : Row -> bool) (l : list Row) :
  NoDup (map id l) -> NoDup (map id (filter keep l)).
Proof.
  induction l as [|r l IH]; cbn [filter map]; intros H; [exact H|].
  apply NoDup_cons_iff in H as [Hr Hl].
  destruct (keep r); cbn [map]; [|exact (IH Hl)].
  apply NoDup_cons; [|exact (IH Hl)].
  intros Hin. apply Hr. apply in_map_iff in Hin as (r' & E & Hr').
  apply in_map_iff. exists r'. split; [exact E|].
  apply filter_In in Hr'. tauto.
Qed.

Lemma insert_ids (chat : Z) (hash text : str) (user : Z) (ts name : str) (d : Db) :
  NoDup (ids d) ->
  NoDup (ids (insert_or_replace chat hash text user ts name d))
  /\ sequence d < sequence (insert_or_replace chat hash text user ts name d)
  /\ forall r, In r (rows (insert_or_replace chat hash text user ts name d)) ->
               In r (rows d)
               \/ (sequence d < id r /\ forall r0, In r0 (rows d) -> id r0 < id r).
Proof.
  intros H. unfold ids, insert_or_replace; cbn [rows sequence].
  split; [|split].
  - rewrite map_app. cbn [map id]. apply NoDup_app.
    + now apply ids_filter.
    + repeat constructor. intros [].
    + intros a Ha [<-|[]].
      apply in_map_iff in Ha as (r & E & Hr). apply filter_In in Hr as [Hr _].
      apply max_id_bound in Hr. lia.
  - lia.
  - intros r Hr. apply in_app_or in Hr as [Hr|[<-|[]]].
    + left. now apply filter_In in Hr.
    + right. cbn [id]. split; [lia|].
      intros r0 H0. apply max_id_bound in H0. lia.
Qed.

(** X6. Row ids are never handed out twice: if the ids in the table are
    distinct before a run they are distinct after it, the AUTOINCREMENT
    counter never goes down, and a row the run adds carries an id above
    the counter and above every id that was in the table, also above the
    id of the row it replaces.  This holds whatever fails. *)
Theorem X6_row_ids_are_fresh
  (U : UnicodeTables) (env : Env) (w : World)
  (chat user : Z) (name text : str) :
  NoDup (ids (db w)) ->
  let d' := db (snd (handle_message U (text_update chat user name text) env w)) in
  NoDup (ids d')
  /\ sequence (db w) <= sequence d'
  /\ forall r, In r (rows d') ->
       In r (rows (db w))
       \/ (sequence (db w) < id r /\ forall r0, In r0 (rows (db w)) -> id r0 < id r).
Proof.
  intros H d'. subst d'.
  destruct (run_db_shape U env w chat user name text)
    as [->|[->|(hash & ts & _ & _ & [->| ->])]].
  - repeat split; auto; lia.
  - unfold ids, delete_old; cbn [rows sequence]. split; [|split].
    + now apply ids_filter.
    + lia.
    + intros r Hr. left. now apply filter_In in Hr.
  - destruct (insert_ids chat hash text user ts (display_name user name) (db w) H)
      as (A & B & C).
    split; [exact A|]. split; [lia|exact C].
  - destruct (insert_ids chat hash text user ts (display_name user name) (db w) H)
      as (A & B & C).
    unfold ids, delete_old in *; cbn [rows sequence] in *. split; [|split].
    + now apply ids_filter.
    + lia.
    + intros r Hr. apply filter_In in Hr as [Hr _]. now apply C.
Qed.

Lemma X6_row_ids_are_fresh_witness :
  NoDup (ids (db world_after_ann))
  /\ NoDup (ids (db (snd (handle_message ascii_tables
                            (text_update (-100) 8 (lit "Bob") (lit "something new"))
                            (calm (T0 + 60)) world_after_ann)))).
Proof.
  assert (H : NoDup (ids (db world_after_ann)))
    by (vm_compute; repeat constructor; intros []).
  split; [exact H|].
  exact (proj1 (X6_row_ids_are_fresh ascii_tables (calm (T0 + 60)) world_after_ann
                  (-100) 8 (lit "Bob") (lit "something new") H)).
Defined.

(** ** Conversations *)

(** X7. The notice of a duplicate quotes the first post as it was stored:
    when a text is posted and stored and, within 24 hours, a text with
    the same fingerprint is posted in the same chat, the reply is, code
    point for code point, the cross mark, "Nomor sudah pernah bergabung",
    the cross mark, and then three lines: "Nomor yang terdeteksi: " with
    the first text verbatim (not its normalized form); the first
    sender's name, " : ", the Jakarta time of the first post and
    " (pertama kali)"; the second sender's name, " : ", the Jakarta time
    of the second post and " (kali ini)"; both times in the shown
    format.  The clocks are within their range. *)
Theorem X7_notice_quotes_the_first_post
  (U : UnicodeTables) (now0 now1 chat user user2 : Z)
  (name text name2 text2 hash : str) (w : World) :
  clock_ok now0 -> clock_ok now1 ->
  now0 <= now1 < now0 + 86400 ->
  passes_filter text -> passes_filter text2 ->
  generate_message_hash U text = Some hash ->
  generate_message_hash U text2 = Some hash ->
  select_live now0 chat hash (db w) = None ->
  let w1 := snd (handle_message U (text_update chat user name text) (calm now0) w) in
  let w2 := snd (handle_message U (text_update chat user2 name2 text2) (calm now1) w1) in
  In (EvReply chat
        ([0x274C%N] ++ lit "Nomor sudah pernah bergabung" ++ [0x274C%N] ++ [10%N]
         ++ lit "Nomor yang terdeteksi: " ++ text ++ [10%N]
         ++ display_name user name ++ lit " : "
         ++ strftime (jakarta_civil now0) FMT_SHOWN
         ++ lit " (pertama kali)" ++ [10%N]
         ++ display_name user2 name2 ++ lit " : "
         ++ strftime (jakarta_civil now1) FMT_SHOWN ++ lit " (kali ini)"))
     (trace w2)
  /\ select_live now1 chat hash (db w2) = select_live now1 chat hash (db w1).
Proof.
  intros H0 H1 Hw Hf Hf2 Hh Hh2 Hs w1 w2.
  assert (L : select_live now1 chat hash (db w1)
              = Some (user, text, strftime (jakarta_civil now0) FMT_STORED,
                      display_name user name)).
  { subst w1. rewrite lookup_window by assumption.
    replace (now1 - now0 <? 86400 + JAKARTA_UTCOFFSET) with true; [reflexivity|].
    symmetry. apply Z.ltb_lt. unfold JAKARTA_UTCOFFSET. lia. }
  subst w2.
  rewrite (run_duplicate U now1 chat user2 name2 text2 hash w1 _ _ _ _ _
             Hf2 Hh2 L (written_parses U now0 H0) H1).
  cbn [snd trace db]. split.
  - apply in_or_app. right. right. right. left. reflexivity.
  - apply select_after_delete.
Qed.

Lemma X7_notice_quotes_the_first_post_witness :
  In (EvReply (-100)
        ([0x274C%N] ++ lit "Nomor sudah pernah bergabung" ++ [0x274C%N] ++ [10%N]
         ++ lit "Nomor yang terdeteksi: Hello World" ++ [10%N]
         ++ lit "Ann : 2026/11/04 00:32:20 (pertama kali)" ++ [10%N]
         ++ lit "Bob : 2026/11/04 01:32:20 (kali ini)"))
     (trace (snd (handle_message ascii_tables
                    (text_update (-100) 8 (lit "Bob") (lit "hello   world"))
                    (calm (T0 + 3600)) world_after_ann))).
Proof.
  assert (H0 : clock_ok T0) by (unfold clock_ok, CLOCK_MIN, CLOCK_MAX, T0; lia).
  assert (H1 : clock_ok (T0 + 3600))
    by (unfold clock_ok, CLOCK_MIN, CLOCK_MAX, T0; lia).
  assert (Hw : T0 <= T0 + 3600 < T0 + 86400) by lia.
  assert (F1 : passes_filter (lit "Hello World"))
    by (split; [reflexivity|vm_compute; discriminate]).
  assert (F2 : passes_filter (lit "hello   world"))
    by (split; [reflexivity|vm_compute; discriminate]).
  assert (G1 : generate_message_hash ascii_tables (lit "Hello World") = Some HELLO_HASH)
    by (vm_compute; reflexivity).
  assert (G2 : generate_message_hash ascii_tables (lit "hello   world") = Some HELLO_HASH)
    by (vm_compute; reflexivity).
  assert (N : select_live T0 (-100) HELLO_HASH (db (mkWorld Store.empty [])) = None)
    by reflexivity.
  exact (proj1 (X7_notice_quotes_the_first_post ascii_tables T0 (T0 + 3600)
                  (-100) 7 8 (lit "Ann") (lit "Hello World") (lit "Bob")
                  (lit "hello   world") HELLO_HASH (mkWorld Store.empty [])
                  H0 H1 Hw F1 F2 G1 G2 N)).
Defined.

(** X8. Once the lookup no longer accepts the stored row (31 hours or
    more after it was written: 24 hours and the 7 hours between Jakarta
    and UTC), a post with the same fingerprint is Novel again: no reply
    is sent, the stored row is replaced, the key still has exactly one
    row, and that row carries the new sender, the new text and the new
    time.  Both clocks are within the range in which [datetime.now()]
    follows the system clock (from 1970 to 2262-04-11 23:47:16 UTC). *)
Theorem X8_stale_row_is_replaced
  (U : UnicodeTables) (now0 now1 chat user user2 : Z)
  (name text name2 text2 hash : str) (w : World) :
  clock_ok now0 -> clock_ok now1 ->
  86400 + JAKARTA_UTCOFFSET <= now1 - now0 ->
  passes_filter text -> passes_filter text2 ->
  generate_message_hash U text = Some hash ->
  generate_message_hash U text2 = Some hash ->
  select_live now0 chat hash (db w) = None ->
  let w1 := snd (handle_message U (text_update chat user name text) (calm now0) w) in
  let w2 := snd (handle_message U (text_update chat user2 name2 text2) (calm now1) w1) in
  trace w2 = trace w1 ++ [EvCursor; EvSelect chat hash; EvInsert chat hash;
                          EvCommit; EvDelete; EvCommit]
  /\ key_count chat hash (db w2) = 1%nat
  /\ select_live now1 chat hash (db w2)
     = Some (user2, text2, strftime (jakarta_civil now1) FMT_STORED,
             display_name user2 name2).
Proof.
  intros H0 H1 Hw Hf Hf2 Hh Hh2 Hs w1 w2.
  assert (L : select_live now1 chat hash (db w1) = None).
  { subst w1. rewrite lookup_window by assumption.
    replace (now1 - now0 <? 86400 + JAKARTA_UTCOFFSET) with false; [reflexivity|].
    symmetry. apply Z.ltb_ge. lia. }
  assert (S2 : select_live now1 chat hash (db w2)
               = Some (user2, text2, strftime (jakarta_civil now1) FMT_STORED,
                       display_name user2 name2)).
  { subst w2. rewrite lookup_window by assumption.
    replace (now1 - now1) with 0 by lia. reflexivity. }
  split; [|split; [|exact S2]].
  - subst w2.
    now rewrite (run_novel U now1 chat user2 name2 text2 hash w1 Hf2 Hh2 L
                   H1).
  - assert (Le : (key_count chat hash (db w2) <= 1)%nat).
    { subst w2.
      rewrite (run_novel U now1 chat user2 name2 text2 hash w1 Hf2 Hh2 L
                 H1).
      cbn [snd db]. etransitivity; [apply delete_key_count|].
      now rewrite insert_key_count. }
    assert (Ge : (1 <= key_count chat hash (db w2))%nat).
    { unfold select_live in S2. unfold key_count.
      destruct (find _ (rows (db w2))) as [r|] eqn:E; [|discriminate].
      apply find_some in E as [Hin Hp]. apply andb_true_iff in Hp as [Hk _].
      assert (Hf' : In r (filter (same_key chat hash) (rows (db w2))))
        by (apply filter_In; auto).
      destruct (filter (same_key chat hash) (rows (db w2))); [contradiction|].
      simpl. lia. }
    lia.
Qed.

Lemma X8_stale_row_is_replaced_witness :
  select_live (T0 + 31 * 3600) (-100) HELLO_HASH
    (db (snd (handle_message ascii_tables
                (text_update (-100) 8 (lit "Bob") (lit "hello   world"))
                (calm (T0 + 31 * 3600)) world_after_ann)))
  = Some (8, lit "hello   world", lit "2026-11-05 07:32:20", lit "Bob").
Proof.
  assert (H0 : clock_ok T0) by (unfold clock_ok, CLOCK_MIN, CLOCK_MAX, T0; lia).
  assert (H1 : clock_ok (T0 + 31 * 3600))
    by (unfold clock_ok, CLOCK_MIN, CLOCK_MAX, T0; lia).
  assert (Hw : 86400 + JAKARTA_UTCOFFSET <= T0 + 31 * 3600 - T0)
    by (unfold JAKARTA_UTCOFFSET; lia).
  assert (F1 : passes_filter (lit "Hello World"))
    by (split; [reflexivity|vm_compute; discriminate]).
  assert (F2 : passes_filter (lit "hello   world"))
    by (split; [reflexivity|vm_compute; discriminate]).
  assert (G1 : generate_message_hash ascii_tables (lit "Hello World") = Some HELLO_HASH)
    by (vm_compute; reflexivity).
  assert (G2 : generate_message_hash ascii_tables (lit "hello   world") = Some HELLO_HASH)
    by (vm_compute; reflexivity).
  assert (N : select_live T0 (-100) HELLO_HASH (db (mkWorld Store.empty [])) = None)
    by reflexivity.
  exact (proj2 (proj2 (X8_stale_row_is_replaced ascii_tables T0 (T0 + 31 * 3600)
                  (-100) 7 8 (lit "Ann") (lit "Hello World") (lit "Bob")
                  (lit "hello   world") HELLO_HASH (mkWorld Store.empty [])
                  H0 H1 Hw F1 F2 G1 G2 N))).
Defined.

(** ** The sweep and the stored timestamps *)


(** X10. The timestamps the handler writes sort as text the way the
    moments of writing follow each other, which is what lets the SELECT
    and the DELETE compare them as text: for two runs that store a row,
    at clocks within their range, the timestamps the lookup then returns
    compare as the two clocks do; each is 19 characters long and is
    kept as text, not as a number. *)
Theorem X10_written_timestamps_sort_by_time
  (U : UnicodeTables) (a b chat user : Z) (name text hash : str)
  (wa wb : World) :
  clock_ok a -> clock_ok b ->
  passes_filter text ->
  generate_message_hash U text = Some hash ->
  select_live a chat hash (db wa) = None ->
  select_live b chat hash (db wb) = None ->
  let ta := strftime (jakarta_civil a) FMT_STORED in
  let tb := strftime (jakarta_civil b) FMT_STORED in
  select_live a chat hash
    (db (snd (handle_message U (text_update chat user name text) (calm a) wa)))
  = Some (user, text, ta, display_name user name)
  /\ select_live b chat hash
       (db (snd (handle_message U (text_update chat user name text) (calm b) wb)))
     = Some (user, text, tb, display_name user name)
  /\ PyStr.compare ta tb = (a ?= b)
  /\ List.length ta = 19%nat
  /\ sql_numeric ta = false.
Proof.
  intros Ha Hb Hf Hh Sa Sb ta tb. subst ta tb.
  assert (Ya := clock_jakarta_year a Ha). assert (Yb := clock_jakarta_year b Hb).
  split; [|split; [|split; [|split]]].
  - rewrite lookup_window by assumption.
    replace (a - a) with 0 by lia. reflexivity.
  - rewrite lookup_window by assumption.
    replace (b - b) with 0 by lia. reflexivity.
  - rewrite !strftime_sqlite by lia.
    unfold jakarta_civil in *. rewrite render_compare_epoch by lia.
    destruct (Z.compare_spec a b) as [->|H|H].
    + apply Z.compare_refl.
    + apply Z.compare_lt_iff. lia.
    + apply Z.compare_gt_iff. lia.
  - rewrite strftime_sqlite by lia. reflexivity.
  - now apply written_is_text.
Qed.

Lemma X10_written_timestamps_sort_by_time_witness :
  PyStr.compare (lit "2026-11-04 00:32:20") (lit "2026-11-04 01:32:20") = Lt.
Proof.
  assert (H0 : clock_ok T0) by (unfold clock_ok, CLOCK_MIN, CLOCK_MAX, T0; lia).
  assert (H1 : clock_ok (T0 + 3600))
    by (unfold clock_ok, CLOCK_MIN, CLOCK_MAX, T0; lia).
  assert (F : passes_filter (lit "Hello World"))
    by (split; [reflexivity|vm_compute; discriminate]).
  assert (G : generate_message_hash ascii_tables (lit "Hello World") = Some HELLO_HASH)
    by (vm_compute; reflexivity).
  exact (proj1 (proj2 (proj2
    (X10_written_timestamps_sort_by_time ascii_tables T0 (T0 + 3600) (-100) 7
       (lit "Ann") (lit "Hello World") HELLO_HASH
       (mkWorld Store.empty []) (mkWorld Store.empty [])
       H0 H1 F G eq_refl eq_refl)))).
Defined.

(** ** The normalized form *)

Lemma split_from_words (acc s : str) :
  nonspace acc -> Forall word (split_from acc s).
Proof.
  revert acc; induction s as [|c s IH]; intros acc Ha; simpl.
  - destruct acc as [|a acc]; constructor; [|constructor].
    split; [|apply Forall_rev; exact Ha].
    intros E. apply (f_equal (@List.length _)) in E.
    rewrite length_rev in E. discriminate.
  - destruct (isspace c) eqn:Ec.
    + destruct acc as [|a acc]; [apply IH; constructor|].
      constructor; [|apply IH; constructor].
      split; [|apply Forall_rev; exact Ha].
      intros E. apply (f_equal (@List.length _)) in E.
      rewrite length_rev in E. discriminate.
    + apply IH. constructor; assumption.
Qed.

Lemma split_from_word (acc w rest : str) :
  nonspace w -> split_from acc (w ++ rest) = split_from (rev w ++ acc) rest.
Proof.
  revert acc; induction w as [|c w IH]; intros acc Hw; simpl; [reflexivity|].
  inversion Hw as [|? ? Hc Hw']; subst. rewrite Hc, IH by assumption.
  now rewrite <- app_assoc.
Qed.

Lemma split_from_joined (w : str) (ws : list str) :
  word w -> Forall word ws ->
  split_from (rev w) (flat_map (fun q => lit " " ++ q) ws) = w :: ws.
Proof.
  intros Hw Hws. revert w Hw. induction Hws as [|q ws Hq _ IH]; intros w [Hne Hw].
  - simpl. destruct (rev w) eqn:E.
    + exfalso. apply Hne. apply (f_equal (@rev _)) in E.
      now rewrite rev_involutive in E.
    + now rewrite <- E, rev_involutive.
  - cbn [flat_map]. change (lit " " ++ q) with (32%N :: q).
    cbn [app split_from]. change (isspace 32%N) with true. cbv iota.
    destruct (rev w) eqn:E.
    + exfalso. apply Hne. apply (f_equal (@rev _)) in E.
      now rewrite rev_involutive in E.
    + rewrite <- E, rev_involutive. f_equal.
      rewrite split_from_word by apply Hq. rewrite app_nil_r. now apply IH.
Qed.

Lemma split_join (ws : list str) :
  Forall word ws -> split (join (lit " ") ws) = ws.
Proof.
  intros H. destruct ws as [|w ws]; [reflexivity|].
  inversion H as [|? ? Hw Hws]; subst. unfold split, join.
  rewrite split_from_word by apply Hw. rewrite app_nil_r.
  now apply split_from_joined.
Qed.

Lemma normalize_rejoin (U : UnicodeTables) (x : str) :
  join (lit " ") (split (normalize U x)) = normalize U x.
Proof.
  unfold normalize at 1. rewrite split_join; [reflexivity|].
  apply split_from_words. constructor.
Qed.

(** X11. The normalized form is canonical: it has the words of the
    lowercased text, and collapsing its whitespace again gives it back
    unchanged, so it has no whitespace at either end, single spaces
    between its words and no other whitespace. *)
Theorem X11_normalized_form_is_canonical (U : UnicodeTables) (x : str) :
  split (normalize U x) = split (lower U x)
  /\ join (lit " ") (split (normalize U x)) = normalize U x
  /\ Forall word (split (normalize U x)).
Proof.
  assert (E : split (normalize U x) = split (lower U x)).
  { unfold normalize. apply split_join. apply split_from_words. constructor. }
  split; [exact E|]. split.
  - now rewrite E.
  - rewrite E. apply split_from_words. constructor.
Qed.

Lemma split_from_all (P : codepoint -> Prop) (acc s : str) :
  Forall P acc -> Forall P s -> Forall (Forall P) (split_from acc s).
Proof.
  revert acc; induction s as [|c s IH]; intros acc Ha Hs; simpl.
  - destruct acc; constructor; [|constructor]. apply Forall_rev. exact Ha.
  - inversion Hs as [|? ? Hc Hs']; subst.
    destruct (isspace c).
    + destruct acc as [|a acc]; [apply IH; [constructor|assumption]|].
      constructor; [apply Forall_rev; exact Ha|].
      apply IH; [constructor|assumption].
    + apply IH; [constructor|]; assumption.
Qed.

Lemma join_all (P : codepoint -> Prop) (sep : str) (parts : list str) :
  Forall P sep -> Forall (Forall P) parts -> Forall P (join sep parts).
Proof.
  intros Hsep Hp. destruct parts as [|p ps]; simpl; [constructor|].
  inversion Hp as [|? ? H1 H2]; subst. clear Hp.
  apply Forall_app; split; [assumption|].
  induction H2 as [|q qs Hq _ IH]; simpl; [constructor|].
  apply Forall_app; split; [|exact IH].
  apply Forall_app; split; assumption.
Qed.

Lemma ascii_lower_lowered (c : codepoint) :
  is_ascii c = true -> lowered (ascii_lower c).
Proof.
  unfold lowered, ascii_lower, is_ascii, in_range. intros H.
  apply N.ltb_lt in H.
  destruct (N.leb_spec 65 c), (N.leb_spec c 90); cbn [andb].
  - split; [apply N.ltb_lt; lia|].
    destruct (N.leb_spec 65 (c + 32)), (N.leb_spec (c + 32) 90); cbn [andb];
      try reflexivity; lia.
  - split; [apply N.ltb_lt; lia|].
    destruct (N.leb_spec 65 c), (N.leb_spec c 90); cbn [andb]; try reflexivity; lia.
  - split; [apply N.ltb_lt; lia|].
    destruct (N.leb_spec 65 c), (N.leb_spec c 90); cbn [andb]; try reflexivity; lia.
  - split; [apply N.ltb_lt; lia|].
    destruct (N.leb_spec 65 c), (N.leb_spec c 90); cbn [andb]; try reflexivity; lia.
Qed.

Lemma lower_of_lowered (U : UnicodeTables) (s : str) :
  Forall lowered s -> lower U s = s.
Proof.
  intros H. unfold lower.
  replace (forallb is_ascii s) with true.
  - induction H as [|c s [_ Hc] _ IH]; simpl; [reflexivity|]. now rewrite Hc, IH.
  - symmetry. apply forallb_forall. intros c Hc.
    rewrite Forall_forall in H. now apply H.
Qed.

(** X12. On ASCII text normalizing is idempotent: the normalized form of
    a normalized form is that form, so a text and its normalized form
    have the same fingerprint. *)
Theorem X12_normalize_idempotent_on_ascii (U : UnicodeTables) (x : str) :
  forallb is_ascii x = true ->
  normalize U (normalize U x) = normalize U x
  /\ generate_message_hash U (normalize U x) = generate_message_hash U x.
Proof.
  intros Hx.
  assert (Hl : Forall lowered (normalize U x)).
  { unfold normalize. apply join_all.
    - repeat constructor.
    - apply split_from_all; [constructor|].
      unfold lower. rewrite Hx. rewrite Forall_map.
      apply Forall_forall. intros c Hc. apply ascii_lower_lowered.
      rewrite forallb_forall in Hx. now apply Hx. }
  assert (E : normalize U (normalize U x) = normalize U x).
  { unfold normalize at 1. rewrite (lower_of_lowered U _ Hl).
    apply normalize_rejoin. }
  split; [exact E|]. unfold generate_message_hash. now rewrite E.
Qed.

Lemma X12_normalize_idempotent_on_ascii_witness :
  forallb is_ascii (lit "  Hi   There ") = true
  /\ normalize ascii_tables (normalize ascii_tables (lit "  Hi   There "))
     = normalize ascii_tables (lit "  Hi   There ").
Proof.
  assert (H : forallb is_ascii (lit "  Hi   There ") = true) by reflexivity.
  split; [exact H|].
  exact (proj1 (X12_normalize_idempotent_on_ascii ascii_tables
                  (lit "  Hi   There ") H)).
Defined.

End HandlerProps.

(* ====================================================================== *)
(** * Properties of the start *)
(* ====================================================================== *)

Module StartupProps.
Import PyStr Store Startup.
Import PyStrFacts.

Ltac go :=
  cbv beta iota zeta delta
    [main init setup_database run_webhook run_polling bind ret raise emit
     call getenv connect create_table alter_table
     ignoring_operational_error set_disk boot];
  cbn [vars disk events environ dotenv fault max_str_digits fst snd].

Ltac split_go :=
  match goal with
  | |- context [fault ?h ?o] => destruct (fault h o) as [[]|] eqn:?
  | |- context [match ?x with NoTable => _ | _ => _ end] => destruct x eqn:?
  | |- context [match ?x with Some _ => _ | None => _ end] => destruct x eqn:?
  | |- context [if ?b then _ else _] => destruct b eqn:?
  end; go.

Ltac split_choice :=
  match goal with
  | |- context [match ?x with Some _ => _ | None => _ end] => destruct x eqn:?
  | |- context [if ?b then _ else _] => destruct b eqn:?
  end; go.

Lemma declared_add (l : list Row6) : map declared (map add_user_name l) = l.
Proof.
  induction l as [|[i c h t u s] l IH]; [reflexivity|].
  cbn [map]. rewrite IH. reflexivity.
Qed.

Lemma eqb_neq (a b : str) : a <> b -> eqb a b = false.
Proof.
  intros H. destruct (eqb a b) eqn:E; [|reflexivity].
  apply eqb_eq in E. contradiction.
Qed.

Lemma ends_with_inv (st : State) (l : list Event) (a b : Event) :
  events st = l ++ [a] -> ends_with st b -> a = b.
Proof.
  intros E [pre H]. rewrite E in H. now apply app_inj_tail in H.
Qed.

(** ** Without a token *)

(** X13. When [BOT_TOKEN] is unset or empty, in the process and in the
    [.env] file, the start logs the [ValueError] and exits with status 1;
    nothing else is done: the library is not asked for an application,
    no database is opened or changed. *)
Theorem X13_no_token_no_start
  (U : UnicodeTables) (h : Host) (files : str -> DbFile) :
  truthy_opt (effective h (lit "BOT_TOKEN")) = false ->
  main U h (boot h files)
  = (Ok tt, mkState (effective h) files [EvLogError ValueError; EvExit 1]).
Proof.
  intros H. go. unfold effective in H. rewrite H. reflexivity.
Qed.

Lemma X13_no_token_no_start_witness :
  main ascii_tables
    (sound (variables [(lit "USE_WEBHOOK", lit "true")]) (variables [(lit "BOT_TOKEN", lit "")]))
    (boot (sound (variables [(lit "USE_WEBHOOK", lit "true")])
                 (variables [(lit "BOT_TOKEN", lit "")]))
          (fun _ => NoTable))
  = (Ok tt,
     mkState (effective (sound (variables [(lit "USE_WEBHOOK", lit "true")])
                               (variables [(lit "BOT_TOKEN", lit "")])))
             (fun _ => NoTable) [EvLogError ValueError; EvExit 1]).
Proof.
  apply (X13_no_token_no_start ascii_tables). reflexivity.
Defined.

(** ** The database at the start *)

Lemma setup_calm (h : Host) (st : State) :
  calm h ->
  let path := db_path_of (vars st) in
  let st' := snd (setup_database h st) in
  fst (setup_database h st) = Ok path
  /\ vars st' = vars st
  /\ (forall p, p <> path -> disk st' p = disk st p)
  /\ disk st' path
     = Columns7 (migrated (if transient path then NoTable else disk st path))
  /\ exists more, events st' = events st ++ EvConnect path :: more.
Proof.
  intros Hc path st'. subst st'. unfold db_path_of in *. subst path.
  set (path := match vars st (lit "DB_PATH") with
               | Some p => p | None => lit "messages.db" end) in *.
  go. fold path. rewrite !Hc. go.
  destruct (transient path) eqn:Ht; go; rewrite ?eqb_refl; go;
    [|destruct (disk st path) as [|rows6 seq|d0] eqn:Ed; go];
    rewrite ?eqb_refl; go; rewrite ?Hc, ?eqb_refl, ?Ed; go;
    (split; [reflexivity|]); (split; [reflexivity|]);
    (split; [intros p Hp; rewrite ?(eqb_neq p path Hp); reflexivity|]);
    rewrite ?eqb_refl;
    (split; [first [reflexivity|assumption]|]);
    eexists; rewrite <- ?app_assoc; reflexivity.
Qed.

(** X14. When no call fails and [DB_PATH] names a file, [setup_database]
    leaves the seven-column table in that file whatever the file held
    (nothing, the six-column table, or the seven-column table), keeps
    the declared columns of every row, their order and the counter of
    [id], touches no other file, and gives [user_name] the value
    "Unknown" in the rows that had none; a table that already had the
    column is left as it is. *)
Theorem X14_setup_keeps_every_row (h : Host) (st : State) :
  calm h ->
  transient (db_path_of (vars st)) = false ->
  let path := db_path_of (vars st) in
  let st' := snd (setup_database h st) in
  fst (setup_database h st) = Ok path
  /\ (forall p, p <> path -> disk st' p = disk st p)
  /\ exists d,
       disk st' path = Columns7 d
       /\ map declared (rows d) = stored (disk st path)
       /\ sequence d = counter (disk st path)
       /\ match disk st path with
          | Columns7 d0 => d = d0
          | _ => Forall (fun r => user_name r = lit "Unknown") (rows d)
          end.
Proof.
  intros Hc Ht path st'. subst path st'.
  pose proof (setup_calm h st Hc) as L. cbv zeta in L.
  destruct L as (R & _ & O & D & _). rewrite Ht in D. split; [exact R|]. split; [exact O|].
  exists (migrated (disk st (db_path_of (vars st)))). split; [exact D|].
  destruct (disk st (db_path_of (vars st))) as [|rows6 seq|d0];
    cbn [migrated rows sequence stored counter map];
    rewrite ?declared_add; repeat split.
  - constructor.
  - apply Forall_forall. intros r Hr. apply in_map_iff in Hr as (r6 & <- & _).
    reflexivity.
Qed.

Lemma X14_setup_keeps_every_row_witness :
  exists d,
    disk (snd (setup_database plain_host old_state)) (lit "messages.db")
    = Columns7 d
    /\ map declared (rows d) = [old_row]
    /\ sequence d = 9
    /\ Forall (fun r => user_name r = lit "Unknown") (rows d).
Proof.
  exact (proj2 (proj2 (X14_setup_keeps_every_row plain_host old_state
                         (fun _ => eq_refl) eq_refl))).
Defined.

(** X15. Starting again changes nothing: when no call fails, a second
    [setup_database] succeeds (the [OperationalError] of the second
    [ALTER TABLE] is passed over) and leaves every file as the first
    left it. *)
Theorem X15_second_setup_changes_nothing (h : Host) (st : State) :
  calm h ->
  let st1 := snd (setup_database h st) in
  let st2 := snd (setup_database h st1) in
  fst (setup_database h st1) = Ok (db_path_of (vars st))
  /\ forall p, disk st2 p = disk st1 p.
Proof.
  intros Hc st1 st2.
  pose proof (setup_calm h st Hc) as L1. cbv zeta in L1.
  destruct L1 as (_ & V1 & _ & D1 & _). fold st1 in V1, D1.
  pose proof (setup_calm h st1 Hc) as L2. cbv zeta in L2.
  destruct L2 as (R2 & _ & O2 & D2 & _). fold st2 in O2, D2.
  rewrite V1 in R2, O2, D2. split; [exact R2|].
  intros p. destruct (eqb p (db_path_of (vars st))) eqn:Ep.
  - apply eqb_eq in Ep. subst p. rewrite D2, D1.
    destruct (transient (db_path_of (vars st))); reflexivity.
  - apply O2. intros ->. rewrite eqb_refl in Ep. discriminate.
Qed.

Lemma X15_second_setup_changes_nothing_witness :
  fst (setup_database plain_host (snd (setup_database plain_host old_state)))
  = Ok (db_path_of (vars old_state))
  /\ disk (snd (setup_database plain_host
                  (snd (setup_database plain_host old_state))))
          (lit "messages.db")
     = disk (snd (setup_database plain_host old_state)) (lit "messages.db").
Proof.
  split.
  - exact (proj1 (X15_second_setup_changes_nothing plain_host old_state
                    (fun _ => eq_refl))).
  - exact (proj2 (X15_second_setup_changes_nothing plain_host old_state
                    (fun _ => eq_refl)) (lit "messages.db")).
Defined.

(** ** Polling or webhook *)

(** [__init__] when nothing fails. *)
Lemma init_calm (h : Host) (files : str -> DbFile) (token : str) :
  calm h ->
  effective h (lit "BOT_TOKEN") = Some token -> truthy token = true ->
  let path := db_path_of (effective h) in
  exists st1,
    init h (boot h files) = (Ok token, st1)
    /\ vars st1 = effective h
    /\ (forall p, p <> path -> disk st1 p = files p)
    /\ disk st1 path
       = Columns7 (migrated (if transient path then NoTable else files path))
    /\ exists more, events st1 = EvBuild token :: EvConnect path :: more.
Proof.
  intros Hc Ht Htr path. subst path. unfold effective in *.
  cbv beta iota zeta delta [init bind ret raise emit call getenv boot].
  cbn [vars disk events]. rewrite Ht. cbn [truthy_opt negb]. rewrite Htr.
  cbn [negb]. cbv beta iota. rewrite Hc. cbn [vars disk events app].
  match goal with
  | |- context [setup_database h ?st] =>
      pose proof (setup_calm h st Hc) as L; cbv zeta in L;
      cbn [vars disk events app] in L;
      destruct (setup_database h st) as [r st1]
  end.
  cbn [fst snd] in L. destruct L as (-> & V & O & D & more & E).
  cbn [vars disk events].
  eexists. split; [reflexivity|]. cbn [vars disk events].
  repeat split; try assumption.
  rewrite E. eexists. reflexivity.
Qed.

Lemma ends_with_inv2 (st : State) (l : list Event) (a b c : Event) :
  events st = l ++ [a; b] -> ends_with st c -> b = c.
Proof.
  intros E. apply (ends_with_inv st (l ++ [a])).
  rewrite E, <- app_assoc. reflexivity.
Qed.

Lemma ends_with_last (v : Environ) (d : str -> DbFile) (l : list Event) (a : Event) :
  ends_with (mkState v d (l ++ [a])) a.
Proof. exists l. reflexivity. Qed.

Lemma ends_with_last2 (v : Environ) (d : str -> DbFile) (l : list Event)
      (a b : Event) :
  ends_with (mkState v d (l ++ [a; b])) b.
Proof. exists (l ++ [a]). cbn [events]. rewrite <- app_assoc. reflexivity. Qed.

(** Running the main block after [__init__], one branch per choice. *)
Ltac split_env :=
  repeat match goal with
         | H : effective _ _ = _ |- _ => rewrite H
         end;
  split_choice.

Ltac launch Hc :=
  go; repeat (rewrite ?Hc; go; split_env); rewrite ?Hc; go.

(** What the last event is, read off the list. *)
Ltac last_event He X :=
  cbv [ends_with] in He; cbn [events] in He;
  let pre := fresh in
  destruct He as [pre He];
  lazymatch type of He with
  | ?l ++ [?a; ?b] = _ =>
      change (l ++ [a; b]) with (l ++ [a] ++ [b]) in He;
      rewrite app_assoc in He
  | _ => idtac
  end;
  apply app_inj_tail in He; destruct He as [_ X].

Ltac truthy_facts :=
  repeat match goal with
         | H : negb _ = true |- _ => apply negb_true_iff in H
         | H : negb _ = false |- _ => apply negb_false_iff in H
         end.

(** X16. With a token and no failing call, the start ends in polling
    exactly when [USE_WEBHOOK], lowercased, is not "true" (then [PORT]
    and [WEBHOOK_URL] are not looked at), or when the port is readable
    and [WEBHOOK_URL] is unset or empty. *)
Theorem X16_polling_exactly_when
  (U : UnicodeTables) (h : Host) (files : str -> DbFile) (token : str) :
  calm h ->
  effective h (lit "BOT_TOKEN") = Some token -> truthy token = true ->
  ends_with (snd (main U h (boot h files))) EvRunPolling
  <-> use_webhook U (effective h) = false
      \/ (port_of U h (effective h) <> None
          /\ truthy_opt (effective h (lit "WEBHOOK_URL")) = false).
Proof.
  intros Hc Ht Htr.
  destruct (init_calm h files token Hc Ht Htr) as ([v1 d1 e1] & I & V & _).
  cbn [vars] in V. subst v1.
  unfold use_webhook, port_of.
  unfold main. cbv beta delta [bind]. rewrite I. cbv beta iota.
  launch Hc; truthy_facts.
  all: split;
    [ intros He; last_event He X; try discriminate X; clear X;
      first [left; reflexivity
            |right; split; [congruence|assumption]]
    | intros Hr;
      first [ apply ends_with_last
            | exfalso; destruct Hr as [Hr|[Hp Hu]];
              [discriminate Hr|congruence] ] ].
Qed.

Lemma X16_polling_exactly_when_witness :
  ends_with (snd (main ascii_tables fallback_host (boot fallback_host old_disk)))
            EvRunPolling.
Proof.
  apply (proj2 (X16_polling_exactly_when ascii_tables fallback_host old_disk
                  (lit "123:abc") (fun _ => eq_refl) eq_refl eq_refl)).
  right. split; [discriminate|reflexivity].
Defined.

(** X17. With a token and no failing call, the start ends in exit
    status 1 exactly when webhook mode is asked for and [PORT] is set to
    something [int] rejects.  [WEBHOOK_URL] plays no part: the port is
    read before the fallback to polling is considered. *)
Theorem X17_bad_port_stops_the_start
  (U : UnicodeTables) (h : Host) (files : str -> DbFile) (token : str) :
  calm h ->
  effective h (lit "BOT_TOKEN") = Some token -> truthy token = true ->
  ends_with (snd (main U h (boot h files))) (EvExit 1)
  <-> use_webhook U (effective h) = true
      /\ port_of U h (effective h) = None.
Proof.
  intros Hc Ht Htr.
  destruct (init_calm h files token Hc Ht Htr) as ([v1 d1 e1] & I & V & _).
  cbn [vars] in V. subst v1.
  unfold use_webhook, port_of.
  unfold main. cbv beta delta [bind]. rewrite I. cbv beta iota.
  launch Hc; truthy_facts.
  all: split;
    [ intros He; last_event He X; try discriminate X; clear X;
      split; reflexivity
    | intros Hr;
      first [ apply ends_with_last2
            | exfalso; destruct Hr as [Hr Hp]; congruence ] ].
Qed.

Lemma X17_bad_port_stops_the_start_witness :
  ends_with (snd (main ascii_tables bad_port_host (boot bad_port_host old_disk)))
            (EvExit 1).
Proof.
  apply (proj2 (X17_bad_port_stops_the_start ascii_tables bad_port_host old_disk
                  (lit "123:abc") (fun _ => eq_refl) eq_refl eq_refl)).
  split; reflexivity.
Defined.

(** X18. With a token and no failing call, the start ends in the
    library's [run_webhook] exactly when webhook mode is asked for, the
    port is readable and [WEBHOOK_URL] is set and not empty; the port is
    the one read (8080 when [PORT] is unset), the path is the token, and
    the address given to Telegram is [WEBHOOK_URL], a slash and the
    token. *)
Theorem X18_webhook_exactly_when
  (U : UnicodeTables) (h : Host) (files : str -> DbFile) (token : str)
  (port : Z) (url_path webhook_url : str) :
  calm h ->
  effective h (lit "BOT_TOKEN") = Some token -> truthy token = true ->
  ends_with (snd (main U h (boot h files)))
            (EvRunWebhook port url_path webhook_url)
  <-> use_webhook U (effective h) = true
      /\ port_of U h (effective h) = Some port
      /\ url_path = token
      /\ exists url,
           effective h (lit "WEBHOOK_URL") = Some url
           /\ truthy url = true
           /\ webhook_url = url ++ lit "/" ++ token.
Proof.
  intros Hc Ht Htr.
  destruct (init_calm h files token Hc Ht Htr) as ([v1 d1 e1] & I & V & _).
  cbn [vars] in V. subst v1.
  unfold use_webhook, port_of.
  unfold main. cbv beta delta [bind]. rewrite I. cbv beta iota.
  launch Hc; truthy_facts; cbn [truthy_opt] in *; try discriminate.
  all: split;
    [ intros He; last_event He X; try discriminate X;
      injection X as <- <- <-;
      repeat split; try reflexivity; try assumption;
      eexists; repeat split; try reflexivity; assumption
    | intros (Hu & Hp & -> & url & Eu & Tu & ->);
      first [ discriminate Hu | discriminate Hp | discriminate Eu | idtac ];
      try (injection Hp as <-); try (injection Eu as <-);
      first [ apply ends_with_last | congruence ] ].
Qed.

Lemma X18_webhook_exactly_when_witness :
  ends_with (snd (main ascii_tables webhook_host (boot webhook_host old_disk)))
            (EvRunWebhook 8443 (lit "123:abc")
               (lit "https://bot.example.org/123:abc")).
Proof.
  apply (proj2 (X18_webhook_exactly_when ascii_tables webhook_host old_disk
                  (lit "123:abc") 8443 (lit "123:abc")
                  (lit "https://bot.example.org/123:abc")
                  (fun _ => eq_refl) eq_refl eq_refl)).
  split; [reflexivity|]. split; [reflexivity|]. split; [reflexivity|].
  exists (lit "https://bot.example.org"). repeat split; reflexivity.
Defined.


(** ** A start that reports success *)

(** X19. An [OperationalError] of [ALTER TABLE] is passed over whatever
    its cause.  When that statement fails so and nothing else does, a
    file with the six-column table (or with no table) is left with
    six columns, [__init__] completes and the bot goes on to poll. *)
Theorem X19_failed_migration_goes_unnoticed
  (U : UnicodeTables) (h : Host) (files : str -> DbFile) (token : str) :
  effective h (lit "BOT_TOKEN") = Some token -> truthy token = true ->
  (forall op, op <> OpAlter -> fault h op = None) ->
  fault h OpAlter = Some OperationalError ->
  transient (db_path_of (effective h)) = false ->
  use_webhook U (effective h) = false ->
  let st' := snd (main U h (boot h files)) in
  ends_with st' EvRunPolling
  /\ disk st' (db_path_of (effective h))
     = match files (db_path_of (effective h)) with
       | NoTable => Columns6 [] 0
       | f => f
       end.
Proof.
  intros Ht Htr Hc Ha Hp Hu st'. subst st'.
  unfold use_webhook, db_path_of, effective in *.
  assert (C1 := Hc OpBuild ltac:(discriminate)).
  assert (C2 := Hc OpConnect ltac:(discriminate)).
  assert (C3 := Hc OpCreate ltac:(discriminate)).
  assert (C4 := Hc OpCommit ltac:(discriminate)).
  assert (C5 := Hc OpPolling ltac:(discriminate)).
  set (path := match load_dotenv (dotenv h) (environ h) (lit "DB_PATH") with
               | Some p => p | None => lit "messages.db" end) in *.
  go. rewrite Ht. cbn [truthy_opt negb]. rewrite Htr. cbn [negb]. go.
  repeat (progress (rewrite ?C1, ?C2, ?C3, ?Hp; go; fold path)).
  destruct (files path) as [|rows6 seq|d0] eqn:Ef; go;
    repeat (progress (rewrite ?eqb_refl, ?Ha, ?C4, ?C5, ?Ef, ?Hu; go; fold path));
    (split; [apply ends_with_last|first [reflexivity|assumption]]).
Qed.

Lemma X19_failed_migration_goes_unnoticed_witness :
  ends_with (snd (main ascii_tables locked_host (boot locked_host old_disk)))
            EvRunPolling
  /\ disk (snd (main ascii_tables locked_host (boot locked_host old_disk)))
          (lit "messages.db")
     = Columns6 [old_row] 9.
Proof.
  apply (X19_failed_migration_goes_unnoticed ascii_tables locked_host old_disk
           (lit "123:abc") eq_refl eq_refl).
  - intros [] H; try reflexivity. contradiction H. reflexivity.
  - reflexivity.
  - reflexivity.
  - reflexivity.
Defined.

Ltac go_through :=
  cbv beta iota zeta delta
    [setup_database bind ret raise emit call getenv connect create_table
     alter_table ignoring_operational_error set_disk vars disk events];
  rewrite ?eqb_refl.

Ltac split_init :=
  go_through;
  match goal with
  | |- context [fault ?h ?o] => destruct (fault h o) as [[]|] eqn:?
  | |- context [if transient ?p then _ else _] => destruct (transient p) eqn:?
  | |- context [match ?f ?p with NoTable => _ | _ => _ end] =>
      destruct (f p) eqn:?
  end; go_through.

(** What [__init__] has done when it returns, and what it has not done
    however it ends. *)
Lemma init_inv (h : Host) (files : str -> DbFile) (r : Result str) (st1 : State) :
  init h (boot h files) = (r, st1) ->
  ~ In EvRunPolling (events st1)
  /\ (forall port url_path webhook_url,
        ~ In (EvRunWebhook port url_path webhook_url) (events st1))
  /\ vars st1 = effective h
  /\ forall token, r = Ok token ->
       effective h (lit "BOT_TOKEN") = Some token
       /\ truthy token = true
       /\ In (EvBuild token) (events st1)
       /\ In EvCommit (events st1)
       /\ disk st1 (db_path_of (effective h)) <> NoTable.
Proof.
  unfold db_path_of, effective.
  set (E := load_dotenv (dotenv h) (environ h)).
  set (path := match E (lit "DB_PATH") with
               | Some p => p | None => lit "messages.db" end).
  cbv beta iota zeta delta [init bind ret raise emit call getenv boot].
  cbn [vars disk events environ]. fold E.
  destruct (E (lit "BOT_TOKEN")) as [token|] eqn:Et; cbn [truthy_opt negb];
    [destruct (truthy token) eqn:Htr|]; cbn [negb]; go; fold E path.
  2, 3: intros H; apply pair_equal_spec in H as [<- <-]; cbn [events vars]; repeat split;
    try (intros; simpl; tauto); intros; discriminate.
  repeat split_init.
  all: intros H; apply pair_equal_spec in H as [<- <-];
    cbn [events vars disk]; rewrite ?eqb_refl;
    (split; [simpl; intuition discriminate|]);
    (split; [intros; simpl; intuition discriminate|]);
    (split; [reflexivity|]);
    intros t [= <-]; repeat split; try assumption; try discriminate;
    try (simpl; tauto); unfold path; congruence.
Qed.

(** X20. Whatever fails and whatever the files hold: if the start
    reaches the library's [run_polling] or [run_webhook], then a
    non-empty token was found and given to the library, the table
    [messages] exists in the database and [setup_database] has
    committed. *)
Theorem X20_never_serves_without_the_table
  (U : UnicodeTables) (h : Host) (files : str -> DbFile) :
  let st' := snd (main U h (boot h files)) in
  (In EvRunPolling (events st')
   \/ exists port url_path webhook_url,
        In (EvRunWebhook port url_path webhook_url) (events st')) ->
  disk st' (db_path_of (effective h)) <> NoTable
  /\ In EvCommit (events st')
  /\ exists token,
       effective h (lit "BOT_TOKEN") = Some token
       /\ truthy token = true
       /\ In (EvBuild token) (events st').
Proof.
  intros st'. subst st'.
  destruct (init h (boot h files)) as [r [v1 d1 e1]] eqn:I.
  destruct (init_inv h files _ _ I) as (NP & NW & V & F).
  cbn [vars disk events] in *. subst v1.
  unfold main. cbv beta delta [bind]. rewrite I. cbv beta iota.
  destruct r as [token|e].
  - destruct (F token eq_refl) as (Et & Htr & Hb & Hcm & Hd). clear F.
    go. repeat split_go.
    all: intros _; cbn [events disk];
      (split; [exact Hd|]);
      (split; [rewrite ?in_app_iff; tauto|]);
      exists token; rewrite ?in_app_iff; tauto.
  - go. intros [H|(p & t & u & H)]; exfalso; apply in_app_or in H as [H|H].
    + contradiction.
    + simpl in H. intuition discriminate.
    + exact (NW _ _ _ H).
    + simpl in H. intuition discriminate.
Qed.

Lemma X20_never_serves_without_the_table_witness :
  disk (snd (main ascii_tables webhook_host (boot webhook_host old_disk)))
       (db_path_of (effective webhook_host)) <> NoTable.
Proof.
  refine (proj1 (X20_never_serves_without_the_table ascii_tables webhook_host
                   old_disk _)).
  right. exists 8443, (lit "123:abc"), (lit "https://bot.example.org/123:abc").
  vm_compute. repeat (first [left; reflexivity|right]).
Defined.

(** ** From the start to the first messages *)

(** X21. A row written before the column [user_name] existed is quoted
    with the sender "Unknown": after a [setup_database] that added the
    column, a lookup that finds such a row names "Unknown", and the
    notice the handler sends for the duplicate (at a clock within its
    range) has, code point for code point, "Unknown : " and the shown
    time of the first post on its third line. *)
Theorem X21_old_rows_are_quoted_as_unknown
  (U : UnicodeTables) (h : Host) (st : State) (rows6 : list Row6) (seq : Z)
  (now chat user : Z) (name text hash : str) (tr : list Bot.Event)
  (o_user : Z) (o_text o_time o_name : str) (o_dt : Calendar.DateTime) :
  calm h ->
  transient (db_path_of (vars st)) = false ->
  disk st (db_path_of (vars st)) = Columns6 rows6 seq ->
  Bot.passes_filter text ->
  Bot.generate_message_hash U text = Some hash ->
  TimeFmt.strptime U o_time TimeFmt.FMT_STORED = Some o_dt ->
  Bot.clock_ok now ->
  exists d,
    disk (snd (setup_database h st)) (db_path_of (vars st)) = Columns7 d
    /\ (select_live now chat hash d = Some (o_user, o_text, o_time, o_name) ->
        o_name = lit "Unknown"
        /\ Bot.handle_message U (Bot.text_update chat user name text)
             (Bot.calm now) (Bot.mkWorld d tr)
           = (Bot.Ok tt,
              Bot.mkWorld (delete_old now d)
                (tr ++
                 [Bot.EvCursor; Bot.EvSelect chat hash;
                  Bot.EvReply chat
                    ([0x274C%N] ++ lit "Nomor sudah pernah bergabung"
                     ++ [0x274C%N] ++ [10%N]
                     ++ lit "Nomor yang terdeteksi: " ++ o_text ++ [10%N]
                     ++ lit "Unknown" ++ lit " : "
                     ++ TimeFmt.strftime o_dt TimeFmt.FMT_SHOWN
                     ++ lit " (pertama kali)" ++ [10%N]
                     ++ Bot.display_name user name ++ lit " : "
                     ++ TimeFmt.strftime (TimeFmt.jakarta_civil now)
                          TimeFmt.FMT_SHOWN
                     ++ lit " (kali ini)");
                  Bot.EvLogInfo chat; Bot.EvDelete; Bot.EvCommit]))).
Proof.
  intros Hc Htr Hd Hf Hh Hp Hk.
  pose proof (setup_calm h st Hc) as L. cbv zeta in L.
  destruct L as (_ & _ & _ & D & _). rewrite Htr, Hd in D. cbn [migrated] in D.
  eexists. split; [exact D|]. intros Hs.
  assert (o_name = lit "Unknown") as ->.
  { unfold select_live in Hs. cbn [rows] in Hs.
    destruct (find _ (map add_user_name rows6)) as [r|] eqn:Ef; [|discriminate].
    apply find_some in Ef as [Hin _]. apply in_map_iff in Hin as (r6 & <- & _).
    cbn [option_map] in Hs. injection Hs as _ _ _ <-. reflexivity. }
  split; [reflexivity|].
  exact (BotFacts.run_duplicate U now chat user name text hash
           (Bot.mkWorld _ tr) _ _ _ _ _ Hf Hh Hs Hp Hk).
Qed.

Lemma X21_old_rows_are_quoted_as_unknown_witness :
  exists d,
    disk (snd (setup_database plain_host old_state)) (lit "messages.db")
    = Columns7 d
    /\ In (Bot.EvReply (-100)
             ([0x274C%N] ++ lit "Nomor sudah pernah bergabung"
              ++ [0x274C%N] ++ [10%N]
              ++ lit "Nomor yang terdeteksi: Hello World" ++ [10%N]
              ++ lit "Unknown : 2026/11/04 00:32:20 (pertama kali)" ++ [10%N]
              ++ lit "Bob : 2026/11/04 01:32:20 (kali ini)"))
          (Bot.trace
             (snd (Bot.handle_message ascii_tables
                     (Bot.text_update (-100) 8 (lit "Bob") (lit "hello   world"))
                     (Bot.calm (Bot.T0 + 3600)) (Bot.mkWorld d [])))).
Proof.
  assert (F : Bot.passes_filter (lit "hello   world"))
    by (split; [reflexivity|vm_compute; discriminate]).
  assert (G : Bot.generate_message_hash ascii_tables (lit "hello   world")
              = Some Bot.HELLO_HASH) by (vm_compute; reflexivity).
  assert (P : TimeFmt.strptime ascii_tables (lit "2026-11-04 00:32:20")
                TimeFmt.FMT_STORED
              = Some (Calendar.mkDateTime 2026 11 4 0 32 20))
    by (vm_compute; reflexivity).
  assert (K : Bot.clock_ok (Bot.T0 + 3600))
    by (unfold Bot.clock_ok, Bot.CLOCK_MIN, Bot.CLOCK_MAX, Bot.T0; lia).
  destruct (X21_old_rows_are_quoted_as_unknown ascii_tables plain_host old_state
              [old_row] 9 (Bot.T0 + 3600) (-100) 8 (lit "Bob")
              (lit "hello   world") Bot.HELLO_HASH [] 7 (lit "Hello World")
              (lit "2026-11-04 00:32:20") (lit "Unknown") _
              (fun _ => eq_refl) eq_refl eq_refl F G P K)
    as (d & Hd & Hrun).
  exists d. split; [exact Hd|].
  assert (Ed : d = mkDb [add_user_name old_row] 9).
  { vm_compute in Hd. injection Hd as <-. reflexivity. }
  subst d. destruct (Hrun ltac:(vm_compute; reflexivity)) as [_ ->].
  cbn [snd Bot.trace]. right. right. left. reflexivity.
Defined.



End StartupProps.
